(** * Brew tracking: the batch phase machine, the inventory ledger,
      customer orders and the production planner

    A shallow embedding of [data_structure_brew_tracking.py] (classes
    [Tanks], [Inventory], [Batch]) and of the request handlers
    [add_delete_batch], [change_batchs_phase],
    [register_dispatch_delete_order] and [plan_production] of
    [interface_brew_tracking.py], with the properties of the design
    document stated over them, and of the functions that make the tables
    of the pages ([Batch.get_start_end_dt], [update_batch_table],
    [update_inventory_table], [update_order_table],
    [update_process_tables], [interface_tracking]), with what the code
    itself shows of them.  The two handlers of the batches are also given
    to their [return], the table of the batches included
    ([add_delete_batch_page], [change_batchs_phase_page]).

    Python values are modelled as follows: [int] is [Z]; [str] is
    [string]; a [dict] is an association list in insertion order; the
    sentinel [""] of an unset timestamp is [None]; an uncaught exception
    is the outcome [Raised]; [datetime.now()] is an argument of the
    handler. *)

From Stdlib Require Import ZArith List String Ascii Bool Lia QArith Sorted.
Import ListNotations.
Local Open Scope string_scope.
Local Open Scope Z_scope.

(** ** Dates and times ([datetime], [timedelta], [calendar.monthrange]) *)

Module Calendar.

(** A [datetime]; [tod] is the time of day in microseconds.  The proleptic
    Gregorian calendar of the library is followed.  The library has the
    years 1 to 9999 only and ends a sum that leaves them in
    [OverflowError]; the sums below are those of the library for the dates
    that stay within these years, and the properties that depend on a sum
    are stated for such dates ([clock], [in_service]). *)
Record datetime : Type := mkdt { year : Z; month : Z; day : Z; tod : Z }.

(** A [timedelta], in microseconds. *)
Definition timedelta : Type := Z.

Definition us_per_day : Z := 86400000000.
Definition hours (h : Z) : timedelta := h * 3600000000.
Definition days (d : Z) : timedelta := d * us_per_day.

Definition isleap (y : Z) : bool :=
  (y mod 4 =? 0) && (negb (y mod 100 =? 0) || (y mod 400 =? 0)).

(** [monthrange(y, m)[1]] *)
Definition days_in_month (y m : Z) : Z :=
  if m =? 2 then (if isleap y then 29 else 28)
  else if (m =? 4) || (m =? 6) || (m =? 9) || (m =? 11) then 30
  else 31.

Definition next_month (y m : Z) : Z * Z :=
  if m =? 12 then (y + 1, 1) else (y, m + 1).

Definition prev_month (y m : Z) : Z * Z :=
  if m =? 1 then (y - 1, 12) else (y, m - 1).

(** Brings a day number that ran out of its month back into range by
    carrying whole months; each round moves the day by at least 28. *)
Fixpoint carry (fuel : nat) (y m d : Z) : Z * Z * Z :=
  match fuel with
  | O => (y, m, d)
  | S fuel' =>
      if d <? 1 then
        let '(y', m') := prev_month y m in
        carry fuel' y' m' (d + days_in_month y' m')
      else if days_in_month y m <? d then
        let '(y', m') := next_month y m in
        carry fuel' y' m' (d - days_in_month y m)
      else (y, m, d)
  end.

(** [dt + td] *)
Definition add (dt : datetime) (td : timedelta) : datetime :=
  let t := tod dt + td in
  let dd := t / us_per_day in
  let '(y, m, d) := carry (Z.to_nat (Z.abs dd)) (year dt) (month dt) (day dt + dd) in
  mkdt y m d (t mod us_per_day).

(** [datetime(y, m, 1)] *)
Definition first_of_month (y m : Z) : datetime := mkdt y m 1 0.

Definition eqb (a b : datetime) : bool :=
  (year a =? year b) && (month a =? month b) && (day a =? day b) && (tod a =? tod b).

Definition valid (dt : datetime) : Prop :=
  1 <= month dt <= 12 /\ 1 <= day dt <= days_in_month (year dt) (month dt)
  /\ 0 <= tod dt < us_per_day.

End Calendar.

(** ** The log file

    Every message goes to the root logger, those of the handlers through
    [app.config["logger"]] and those of the two getters through
    [logging.error].  A message is kept by its kind and arguments, not by
    its formatted text. *)

Inductive log_entry : Type :=
| Info_batch_added (batch_id beer_type : string) (volume : Z)
| Info_batch_deleted (batch_id : string)
| Info_batch_changed (batch_id phase : string)
| Info_order_added (invoice : string)
| Info_order_dispatched (invoice : string)
| Info_order_deleted (invoice : string)
| Error_tank_missing (tank_name : string)
| Error_inv_item_missing (inv_item_name : string)
| Error_forecast_value.

(** ** Python values: dictionaries, exceptions, attributes and effects *)

Module Py.

Definition dict (V : Type) : Type := list (string * V).

(** [d.get(k)], and [d[k]] where [None] stands for [KeyError]. *)
Fixpoint get {V} (d : dict V) (k : string) : option V :=
  match d with
  | [] => None
  | (k', v) :: r => if String.eqb k' k then Some v else get r k
  end.

(** [k in d] *)
Definition contains {V} (d : dict V) (k : string) : bool :=
  match get d k with Some _ => true | None => false end.

(** [d[k] = v]: an existing key keeps its place, a new one goes last. *)
Fixpoint set {V} (d : dict V) (k : string) (v : V) : dict V :=
  match d with
  | [] => [(k, v)]
  | (k', v') :: r => if String.eqb k' k then (k', v) :: r else (k', v') :: set r k v
  end.

(** [del d[k]] *)
Fixpoint del {V} (d : dict V) (k : string) : dict V :=
  match d with
  | [] => []
  | (k', v') :: r => if String.eqb k' k then r else (k', v') :: del r k
  end.

Definition keys {V} (d : dict V) : list string := map fst d.
Definition values {V} (d : dict V) : list V := map snd d.

(** [x in l] for a list of strings. *)
Definition mem (x : string) (l : list string) : bool :=
  existsb (String.eqb x) l.

(** [s.startswith(p)] *)
Definition startswith (p s : string) : bool := String.prefix p s.

(** [min(d, key=lambda k: d[k])]: the first key, in iteration order,
    whose value is minimal.  [None] for the empty dictionary, where
    Python raises [ValueError]. *)
Fixpoint min_from (best : string) (vbest : Z) (d : dict Z) : string :=
  match d with
  | [] => best
  | (k, v) :: r => if v <? vbest then min_from k v r else min_from best vbest r
  end.

Definition min_by_value (d : dict Z) : option string :=
  match d with
  | [] => None
  | (k, v) :: r => Some (min_from k v r)
  end.

(** [max(d, key=lambda k: d[k])]: the first key whose value is maximal. *)
Fixpoint max_from (best : string) (vbest : Z) (d : dict Z) : string :=
  match d with
  | [] => best
  | (k, v) :: r => if vbest <? v then max_from k v r else max_from best vbest r
  end.

Definition max_by_value (d : dict Z) : option string :=
  match d with
  | [] => None
  | (k, v) :: r => Some (max_from k v r)
  end.

(** The uncaught exceptions the handlers can end in. *)
Inductive key : Type :=
| Str (s : string)
| Dt (d : Calendar.datetime).

Inductive exn : Type :=
| KeyError (k : key)
| TypeError
| ValueError
| OverflowError.

(** What [getattr(obj, name)] finds on an instance of a plain class:
    an instance variable set by [__init__], something callable (a
    method, [__class__]), the instance's [__dict__], or other inherited
    data ([__doc__], [__module__], [__weakref__]). *)
Inductive attr (A : Type) : Type :=
| InstanceVar (a : A)
| Callable
| InstanceDict
| OtherData.
Arguments InstanceVar {A} a.
Arguments Callable {A}.
Arguments InstanceDict {A}.
Arguments OtherData {A}.

Definition callable {A} (o : attr A) : bool :=
  match o with Callable => true | _ => false end.

(** The attributes every instance of a class without [__slots__]
    has besides those its class body defines, in the order of
    [dir()], which sorts names; [__init__] is listed with them. *)
Definition inherited {A} : list (string * attr A) :=
  [ ("__class__", Callable); ("__delattr__", Callable);
    ("__dict__", InstanceDict); ("__dir__", Callable);
    ("__doc__", OtherData); ("__eq__", Callable);
    ("__format__", Callable); ("__ge__", Callable);
    ("__getattribute__", Callable); ("__gt__", Callable);
    ("__hash__", Callable); ("__init__", Callable);
    ("__init_subclass__", Callable); ("__le__", Callable);
    ("__lt__", Callable); ("__module__", OtherData);
    ("__ne__", Callable); ("__new__", Callable);
    ("__reduce__", Callable); ("__reduce_ex__", Callable);
    ("__repr__", Callable); ("__setattr__", Callable);
    ("__sizeof__", Callable); ("__str__", Callable);
    ("__subclasshook__", Callable); ("__weakref__", OtherData) ].

(** A computation of the planner: its value or the exception that
    ended it, with the messages it logged on the way. *)
Definition M (A : Type) : Type := (A + exn) * list log_entry.

Definition ret {A} (a : A) : M A := (inl a, []).
Definition raise {A} (e : exn) : M A := (inr e, []).
Definition tell (l : list log_entry) : M unit := (inl tt, l).

Definition bind {A B} (m : M A) (f : A -> M B) : M B :=
  match m with
  | (inl a, l) => let '(r, l') := f a in (r, (l ++ l')%list)
  | (inr e, l) => (inr e, l)
  end.

(** A [for] loop whose body updates an accumulator. *)
Fixpoint for_each {A S} (l : list A) (body : S -> A -> M S) (s : S) : M S :=
  match l with
  | [] => ret s
  | a :: r => bind (body s a) (for_each r body)
  end.

(** [d[k]], raising [KeyError] *)
Definition item {V} (d : dict V) (k : string) : M V :=
  match get d k with
  | Some v => ret v
  | None => raise (KeyError (Str k))
  end.

End Py.

Notation "x <- m ;; k" := (Py.bind m (fun x => k))
  (at level 61, m at next level, right associativity).

(** ** class Tanks *)

Module Tank.
(** The value of one tank: [{"capability": [...], "volume": n}]. *)
Record t : Type := mk { capability : list string; volume : Z }.
End Tank.

Module Tanks.

(** The nine instance variables that [__init__] sets. *)
Definition instance_vars : list (string * Tank.t) :=
  [ ("albert", Tank.mk ["ferm"; "cond"] 1000);
    ("brigadier", Tank.mk ["ferm"; "cond"] 800);
    ("camilla", Tank.mk ["ferm"; "cond"] 1000);
    ("dylon", Tank.mk ["ferm"; "cond"] 800);
    ("emily", Tank.mk ["ferm"; "cond"] 1000);
    ("florence", Tank.mk ["ferm"; "cond"] 800);
    ("gertrude", Tank.mk ["cond"] 680);
    ("harry", Tank.mk ["cond"] 680);
    ("r2d2", Tank.mk ["ferm"] 800) ].

(** [dir(self)] with what [getattr] gives for each name: the inherited
    attributes, the nine instance variables of [__init__] and the two
    methods, sorted by name. *)
Definition dir : list (string * Py.attr Tank.t) :=
  Py.inherited ++
  [ ("albert", Py.InstanceVar (Tank.mk ["ferm"; "cond"] 1000));
    ("brigadier", Py.InstanceVar (Tank.mk ["ferm"; "cond"] 800));
    ("camilla", Py.InstanceVar (Tank.mk ["ferm"; "cond"] 1000));
    ("dylon", Py.InstanceVar (Tank.mk ["ferm"; "cond"] 800));
    ("emily", Py.InstanceVar (Tank.mk ["ferm"; "cond"] 1000));
    ("florence", Py.InstanceVar (Tank.mk ["ferm"; "cond"] 800));
    ("gertrude", Py.InstanceVar (Tank.mk ["cond"] 680));
    ("get_tank_names", Py.Callable);
    ("get_tank_value", Py.Callable);
    ("harry", Py.InstanceVar (Tank.mk ["cond"] 680));
    ("r2d2", Py.InstanceVar (Tank.mk ["ferm"] 800)) ].

(** [getattr(self, name)]; [None] is [AttributeError]. *)
Definition getattr (name : string) : option (Py.attr Tank.t) := Py.get dir name.

(** The tank returned for a name that is no attribute. *)
Definition no_tank : Tank.t := Tank.mk [""] 0.

(** [get_tank_value]: the attribute of that name, or, with an error
    logged, a tank of no capability and no volume. *)
Definition get_tank_value (tank_name : string) : Py.attr Tank.t * list log_entry :=
  match getattr tank_name with
  | None => (Py.InstanceVar no_tank, [Error_tank_missing tank_name])
  | Some tank_value => (tank_value, [])
  end.

(** [get_tank_names]: the names of [dir(self)] that are not callable and
    do not start with two underscores. *)
Definition get_tank_names : list string :=
  map fst (filter (fun '(tank_name, o) =>
                     negb (Py.callable o) && negb (Py.startswith "__" tank_name))
                  dir).

End Tanks.

(** ** class Inventory *)

Module Inventory.

(** The three instance variables; each holds one dictionary [{"num": n}]
    for the life of the object, so a variable names its dictionary. *)
Inductive item : Type := dunkers | pilsner | red_helles.

Definition item_name (i : item) : string :=
  match i with
  | dunkers => "dunkers"
  | pilsner => "pilsner"
  | red_helles => "red_helles"
  end.

Definition item_eqb (i j : item) : bool :=
  match i, j with
  | dunkers, dunkers | pilsner, pilsner | red_helles, red_helles => true
  | _, _ => false
  end.

(** The object: the ["num"] entry of each of its three dictionaries. *)
Record t : Type := mk { num_dunkers : Z; num_pilsner : Z; num_red_helles : Z }.

(** [Inventory()] *)
Definition init : t := mk 0 0 0.

Definition num (inv : t) (i : item) : Z :=
  match i with
  | dunkers => num_dunkers inv
  | pilsner => num_pilsner inv
  | red_helles => num_red_helles inv
  end.

Definition set_num (inv : t) (i : item) (n : Z) : t :=
  match i with
  | dunkers => mk n (num_pilsner inv) (num_red_helles inv)
  | pilsner => mk (num_dunkers inv) n (num_red_helles inv)
  | red_helles => mk (num_dunkers inv) (num_pilsner inv) n
  end.

(** A dictionary [{"num": n}] as a handler holds it: one of the three
    the inventory owns, seen and changed by every holder, or the fresh
    [{"num": 0}] that [get_inv_items_quantity] makes for a missing name. *)
Inductive cell : Type :=
| Shared (i : item)
| Fresh (n : Z).

(** [c["num"]] *)
Definition read (inv : t) (c : cell) : Z :=
  match c with
  | Shared i => num inv i
  | Fresh n => n
  end.

(** [c["num"] = n]; writing to a fresh dictionary leaves the inventory. *)
Definition write (inv : t) (c : cell) (n : Z) : t :=
  match c with
  | Shared i => set_num inv i n
  | Fresh _ => inv
  end.

Definition dir : list (string * Py.attr cell) :=
  Py.inherited ++
  [ ("dunkers", Py.InstanceVar (Shared dunkers));
    ("get_inv_items_names", Py.Callable);
    ("get_inv_items_quantity", Py.Callable);
    ("pilsner", Py.InstanceVar (Shared pilsner));
    ("red_helles", Py.InstanceVar (Shared red_helles)) ].

Definition getattr (name : string) : option (Py.attr cell) := Py.get dir name.

(** [get_inv_items_quantity] *)
Definition get_inv_items_quantity (inv_item_name : string)
  : Py.attr cell * list log_entry :=
  match getattr inv_item_name with
  | None => (Py.InstanceVar (Fresh 0), [Error_inv_item_missing inv_item_name])
  | Some inv_items_quantity => (inv_items_quantity, [])
  end.

(** [get_inv_items_names] *)
Definition get_inv_items_names : list string :=
  map fst (filter (fun '(inventory_item, o) =>
                     negb (Py.callable o) && negb (Py.startswith "__" inventory_item))
                  dir).

End Inventory.

(** ** class Batch *)

Module Batch.

Import Calendar.

(** The instance variables.  [tanks] and [inventory] are handles on the
    two objects of [app.config]; they are the [inventory] of the state
    below and the constant [Tanks].  The three fixed durations are the
    constants after the record, the fourth is a function of [volume]. *)
Record t : Type := mk {
  id : string;
  beer_type : string;
  volume : Z;
  num_bottles_to_inv : option Z;
  bottles_put_in_inventory : bool;
  phase_current : string;
  phase_current_tank : string;
  phase_last_completed : string;
  time_start_phase1 : option datetime;
  time_start_phase2 : option datetime;
  time_start_phase3 : option datetime;
  time_start_phase4 : option datetime;
  time_end_phase1 : option datetime;
  time_end_phase2 : option datetime;
  time_end_phase3 : option datetime;
  time_end_phase4 : option datetime
}.

Definition duration_phase1 : Z := 5.
Definition duration_phase2 : Z := 672.
Definition duration_phase3 : Z := 336.

(** [timedelta(hours=(1 / 60) * volume * 2)]: one minute for each of the
    [volume * 2] bottles.  The float product and the [timedelta] made of it
    are taken at their exact value, which is what the code computes for the
    volumes from 0 to 50331662; from 50331663 on the code is a microsecond
    off at places, and beyond the range of a float the product ends in
    [OverflowError].  The properties that depend on this duration are
    stated for volumes up to [max_volume]. *)
Definition duration_phase4 (volume : Z) : timedelta := volume * 2 * 60000000.

(** [Batch(batch_id, beer_type, volume, handle)], for a volume within the
    range of a float: [__init__] computes the float product of
    [duration_phase4], which ends in [OverflowError] beyond it. *)
Definition init (batch_id beer_type : string) (volume : Z) : t :=
  mk batch_id beer_type volume None false "" "" ""
     None None None None None None None None.

Definition set_phase (b : t) (phase tank : string) : t :=
  mk (id b) (beer_type b) (volume b) (num_bottles_to_inv b)
     (bottles_put_in_inventory b) phase tank (phase_last_completed b)
     (time_start_phase1 b) (time_start_phase2 b) (time_start_phase3 b)
     (time_start_phase4 b) (time_end_phase1 b) (time_end_phase2 b)
     (time_end_phase3 b) (time_end_phase4 b).

Definition set_last_completed (b : t) (phase : string) : t :=
  mk (id b) (beer_type b) (volume b) (num_bottles_to_inv b)
     (bottles_put_in_inventory b) (phase_current b) (phase_current_tank b) phase
     (time_start_phase1 b) (time_start_phase2 b) (time_start_phase3 b)
     (time_start_phase4 b) (time_end_phase1 b) (time_end_phase2 b)
     (time_end_phase3 b) (time_end_phase4 b).

Definition set_times1 (b : t) (s e : datetime) : t :=
  mk (id b) (beer_type b) (volume b) (num_bottles_to_inv b)
     (bottles_put_in_inventory b) (phase_current b) (phase_current_tank b)
     (phase_last_completed b)
     (Some s) (time_start_phase2 b) (time_start_phase3 b) (time_start_phase4 b)
     (Some e) (time_end_phase2 b) (time_end_phase3 b) (time_end_phase4 b).

Definition set_times2 (b : t) (s e : datetime) : t :=
  mk (id b) (beer_type b) (volume b) (num_bottles_to_inv b)
     (bottles_put_in_inventory b) (phase_current b) (phase_current_tank b)
     (phase_last_completed b)
     (time_start_phase1 b) (Some s) (time_start_phase3 b) (time_start_phase4 b)
     (time_end_phase1 b) (Some e) (time_end_phase3 b) (time_end_phase4 b).

Definition set_times3 (b : t) (s e : datetime) : t :=
  mk (id b) (beer_type b) (volume b) (num_bottles_to_inv b)
     (bottles_put_in_inventory b) (phase_current b) (phase_current_tank b)
     (phase_last_completed b)
     (time_start_phase1 b) (time_start_phase2 b) (Some s) (time_start_phase4 b)
     (time_end_phase1 b) (time_end_phase2 b) (Some e) (time_end_phase4 b).

Definition set_times4 (b : t) (s e : datetime) : t :=
  mk (id b) (beer_type b) (volume b) (num_bottles_to_inv b)
     (bottles_put_in_inventory b) (phase_current b) (phase_current_tank b)
     (phase_last_completed b)
     (time_start_phase1 b) (time_start_phase2 b) (time_start_phase3 b) (Some s)
     (time_end_phase1 b) (time_end_phase2 b) (time_end_phase3 b) (Some e).

Definition set_credited (b : t) (n : Z) : t :=
  mk (id b) (beer_type b) (volume b) (Some n) true
     (phase_current b) (phase_current_tank b) (phase_last_completed b)
     (time_start_phase1 b) (time_start_phase2 b) (time_start_phase3 b)
     (time_start_phase4 b) (time_end_phase1 b) (time_end_phase2 b)
     (time_end_phase3 b) (time_end_phase4 b).

(** [put_bottles_in_inventory], on the batch and the inventory it has a
    handle on. *)
Definition put_bottles_in_inventory (b : t) (inv : Inventory.t) : t * Inventory.t :=
  if negb (bottles_put_in_inventory b) then
    let n := volume b * 2 in
    let b' := set_credited b n in
    if String.eqb (beer_type b) "dunkers" then
      (b', Inventory.set_num inv Inventory.dunkers (Inventory.num inv Inventory.dunkers + n))
    else if String.eqb (beer_type b) "pilsner" then
      (b', Inventory.set_num inv Inventory.pilsner (Inventory.num inv Inventory.pilsner + n))
    else if String.eqb (beer_type b) "red_helles" then
      (b', Inventory.set_num inv Inventory.red_helles
                             (Inventory.num inv Inventory.red_helles + n))
    else (b', inv)
  else (b, inv).

(** [set_phase_start_end_datetimes]; [now] is what [datetime.now()]
    returns.  The start is assigned before the sum of the end and the last
    completed phase after it, so a sum that left the years of the library
    would end the method with the start set only; the model is of the
    dates and volumes for which the sums stay within them. *)
Definition set_phase_start_end_datetimes (now : datetime) (b : t) (inv : Inventory.t)
  : t * Inventory.t :=
  if String.eqb (phase_current b) "hot brewing" then
    (set_last_completed (set_times1 b now (add now (hours duration_phase1))) "", inv)
  else if String.eqb (phase_current b) "ferm" then
    (set_last_completed (set_times2 b now (add now (hours duration_phase2)))
                        "hot brewing", inv)
  else if String.eqb (phase_current b) "cond" then
    (set_last_completed (set_times3 b now (add now (hours duration_phase3))) "ferm", inv)
  else if String.eqb (phase_current b) "bottling" then
    (set_last_completed (set_times4 b now (add now (duration_phase4 (volume b))))
                        "cond", inv)
  else if String.eqb (phase_current b) "finished" then
    put_bottles_in_inventory (set_last_completed b "bottling") inv
  else (b, inv).

End Batch.

(** ** Form fields and stored orders *)

Module Form.

(** A field that the code hands to [int()]: the notation of an integer,
    or a string on which [int()] raises [ValueError]. *)
Inductive numstr : Type :=
| Num (z : Z)
| Not_a_number.

(** [int(s)] *)
Definition int (s : numstr) : option Z :=
  match s with
  | Num z => Some z
  | Not_a_number => None
  end.

(** A field that the code hands to [datetime.strptime(_, "%Y-%m-%d")]: a
    date in that format, or a string on which it raises [ValueError]. *)
Inductive datestr : Type :=
| Date (y m d : Z)
| Not_a_date.

(** [s.replace(" ", "")] *)
Fixpoint remove_blanks (s : string) : string :=
  match s with
  | EmptyString => EmptyString
  | String a r => if Ascii.eqb a " "%char then remove_blanks r
                  else String a (remove_blanks r)
  end.

(** The forms of the three pages that change the state.  A request
    carries the fields of one form of the page, or of none when the
    page is only opened; the fields of the other forms are then [None]
    in the handler. *)
Inductive batch_form : Type :=
| Add_batch (id_input : string) (volume_input : numstr) (beer_type_input : string)
| Delete_batch (delete_batch_input : string)
| No_batch_form.

Inductive phase_form : Type :=
| Change_phase (id_input phase_input tank_input : string)
| No_phase_form.

Inductive order_form : Type :=
| Register_order (invoice_number_input customer_input : string)
                 (date_required_input : datestr)
                 (recipe_input gyle_number_input : string)
                 (quantity_ordered_input : numstr)
| Dispatch_order (dispatch_order : string)
| Delete_order (delete_order : string)
| No_order_form.

End Form.

Module Order.

(** The dictionary stored for an order; [date_required] stands for the
    string that [strftime("%d/%m/%Y")] makes of the date. *)
Record t : Type := mk {
  invoice_number : string;
  customer : string;
  date_required : Z * Z * Z;
  recipe : string;
  gyle_number : string;
  quantity_ordered : Form.numstr;
  dispatched : string
}.

Definition set_dispatched (o : t) (d : string) : t :=
  mk (invoice_number o) (customer o) (date_required o) (recipe o)
     (gyle_number o) (quantity_ordered o) d.

End Order.

(** ** Sales forecasts *)

Module Forecast.

(** A float of the forecast: finite, not-a-number or infinite. *)
Inductive float : Type :=
| Finite (q : Q)
| NaN
| Infinite.

(** [int(x)]: truncation towards zero; [ValueError] on not-a-number and
    [OverflowError] on an infinity. *)
Definition int (x : float) : Z + Py.exn :=
  match x with
  | Finite q => inl (Z.quot (Qnum q) (Z.pos (Qden q)))
  | NaN => inr Py.ValueError
  | Infinite => inr Py.OverflowError
  end.

(** The forecast object of one beer type, by what the planner asks of
    it: [predicted_mean[dt]], where [None] is [KeyError]. *)
Record t : Type := mk { predicted_mean : Calendar.datetime -> option float }.

End Forecast.

(** ** The state kept in [app.config] and the outcome of a request *)

Record config : Type := mkconfig {
  batches : Py.dict Batch.t;
  customer_orders : Py.dict Order.t;
  monthly_sales_forecasts : Py.dict Forecast.t;
  inventory : Inventory.t;
  log : list log_entry
}.

(** The state the module sets up when it is loaded. *)
Definition initial_config : config := mkconfig [] [] [] Inventory.init [].

Definition with_batches (c : config) (bs : Py.dict Batch.t) : config :=
  mkconfig bs (customer_orders c) (monthly_sales_forecasts c) (inventory c) (log c).

Definition with_orders (c : config) (os : Py.dict Order.t) : config :=
  mkconfig (batches c) os (monthly_sales_forecasts c) (inventory c) (log c).

Definition with_forecasts (c : config) (fs : Py.dict Forecast.t) : config :=
  mkconfig (batches c) (customer_orders c) fs (inventory c) (log c).

Definition with_inventory (c : config) (inv : Inventory.t) : config :=
  mkconfig (batches c) (customer_orders c) (monthly_sales_forecasts c) inv (log c).

Definition logged (c : config) (l : list log_entry) : config :=
  mkconfig (batches c) (customer_orders c) (monthly_sales_forecasts c) (inventory c)
           (log c ++ l).

(** The three months of one beer type in the planner's tables. *)
Record three_months : Type := mk3 { this_month : Z; next_month : Z; third_month : Z }.

(** What the planner's page reports. *)
Record plan : Type := mkplan {
  produce_beer : string;
  use_tank : string;
  use_tank_volume : Z;
  capable_tanks : Py.dict Z;
  three_month_end_inv : Py.dict three_months;
  three_month_forecast : Py.dict three_months;
  diff_3months_forecast_actual : Py.dict Z
}.

(** What a handler returns: its page, or one of the messages it returns
      in place of the page. *)
Inductive response : Type :=
| Page
| Select_available_tank (available_tanks : list string)
| Select_right_tank
| Already_dispatched
| Not_enough_bottles (beer_type : string)
| No_prediction
| Plan_page (p : plan).

Inductive outcome : Type :=
| Returned (r : response)
| Raised (e : Py.exn).

(** ** The handlers that change the state *)

(** [add_delete_batch], up to its last change of the state: [Returned Page]
    stands for going on to the table of the batches and the page, which
    [add_delete_batch_page] below adds. *)
Definition add_delete_batch (c : config) (f : Form.batch_form) : config * outcome :=
  match f with
  | Form.Add_batch id_input volume_input beer_type_input =>
      let batch_id_input := Form.remove_blanks id_input in
      match Form.int volume_input with
      | None => (c, Raised Py.ValueError)
      | Some batch_volume_input =>
          match Py.get (batches c) batch_id_input with
          | None =>
              (logged (with_batches c
                         (Py.set (batches c) batch_id_input
                            (Batch.init batch_id_input beer_type_input batch_volume_input)))
                      [Info_batch_added batch_id_input beer_type_input batch_volume_input],
               Returned Page)
          | Some _ => (c, Returned Page)
          end
      end
  | Form.Delete_batch delete_batch_input =>
      if Py.contains (batches c) delete_batch_input then
        (logged (with_batches c (Py.del (batches c) delete_batch_input))
                [Info_batch_deleted delete_batch_input],
         Returned Page)
      else (c, Returned Page)
  | Form.No_batch_form => (c, Returned Page)
  end.

(** The tanks named by the batches: [used_tanks] after the loop over
    [batches.values()]. *)
Definition used_tanks (bs : Py.dict Batch.t) : list string :=
  filter (fun tank => negb (String.eqb tank ""))
         (map Batch.phase_current_tank (Py.values bs)).

(** [[tank for tank in all_tanks if tank not in used_tanks]] *)
Definition unused_tanks (bs : Py.dict Batch.t) : list string :=
  filter (fun tank => negb (Py.mem tank (used_tanks bs))) Tanks.get_tank_names.

(** [available_tanks] of [change_batchs_phase]: the unused tanks and,
    last, the tank the batch itself is in. *)
Definition available_tanks (bs : Py.dict Batch.t) (b : Batch.t) : list string :=
  unused_tanks bs ++
  (if negb (String.eqb (Batch.phase_current_tank b) "")
   then [Batch.phase_current_tank b] else []).

(** [change_batchs_phase], up to its last change of the state: [Returned
    Page] stands for going on to the list of ids, the table of the batches
    and the page, which [change_batchs_phase_page] below adds. *)
Definition change_batchs_phase (c : config) (now : Calendar.datetime)
                               (f : Form.phase_form) : config * outcome :=
  match f with
  | Form.No_phase_form => (c, Returned Page)
  | Form.Change_phase id_input phase_input tank_input =>
      match Py.get (batches c) id_input with
      | None => (c, Raised (Py.KeyError (Py.Str id_input)))
      | Some b =>
          if negb (String.eqb (Batch.phase_current b) "finished") then
            (* the batch is changed and the page returned, or a message *)
            let change (c : config) : config * outcome :=
              let '(b', inv') :=
                Batch.set_phase_start_end_datetimes now
                  (Batch.set_phase b phase_input tank_input) (inventory c) in
              (logged (with_inventory (with_batches c (Py.set (batches c) id_input b')) inv')
                      [Info_batch_changed id_input phase_input],
               Returned Page) in
            let refuse (c : config) : config * outcome :=
              (c, Returned Select_right_tank) in
            if Py.mem phase_input ["hot brewing"; "bottling"; "finished"]
               && String.eqb tank_input "not applicable" then change c
            else if Py.mem phase_input ["ferm"; "cond"]
                    && negb (String.eqb tank_input "not applicable") then
              let available := available_tanks (batches c) b in
              if negb (Py.mem tank_input available) then
                (c, Returned (Select_available_tank available))
              else
                let '(tank_value, l) := Tanks.get_tank_value tank_input in
                match tank_value with
                | Py.InstanceVar tv =>
                    if Py.mem phase_input (Tank.capability tv)
                       && (Batch.volume b <=? Tank.volume tv)
                    then change (logged c l) else refuse (logged c l)
                | Py.InstanceDict => (logged c l, Raised (Py.KeyError (Py.Str "capability")))
                | Py.Callable | Py.OtherData => (logged c l, Raised Py.TypeError)
                end
            else refuse c
          else (c, Returned Page)
      end
  end.

(** [register_dispatch_delete_order] *)
Definition register_dispatch_delete_order (c : config) (f : Form.order_form)
  : config * outcome :=
  match f with
  | Form.Register_order invoice_number_input customer_input date_required_input
                        recipe_input gyle_number_input quantity_input =>
      let invoice_num_input := Form.remove_blanks invoice_number_input in
      match date_required_input with
      | Form.Not_a_date => (c, Raised Py.ValueError)
      | Form.Date y m d =>
          match Py.get (customer_orders c) invoice_num_input with
          | None =>
              (logged (with_orders c
                         (Py.set (customer_orders c) invoice_num_input
                            (Order.mk invoice_num_input customer_input (y, m, d)
                                      recipe_input gyle_number_input quantity_input "")))
                      [Info_order_added invoice_num_input],
               Returned Page)
          | Some _ => (c, Returned Page)
          end
      end
  | Form.Dispatch_order dispatch_order_num =>
      match Py.get (customer_orders c) dispatch_order_num with
      | Some o =>
          if String.eqb (Order.dispatched o) "dispatched" then
            (c, Returned Already_dispatched)
          else
            let beer_type := Order.recipe o in
            let '(inventory_item_quantity, l) :=
              Inventory.get_inv_items_quantity beer_type in
            let c := logged c l in
            match Form.int (Order.quantity_ordered o) with
            | None => (c, Raised Py.ValueError)
            | Some quantity_ordered =>
                match inventory_item_quantity with
                | Py.InstanceVar cell =>
                    if quantity_ordered <=? Inventory.read (inventory c) cell then
                      (logged
                         (with_orders
                            (with_inventory c
                               (Inventory.write (inventory c) cell
                                  (Inventory.read (inventory c) cell - quantity_ordered)))
                            (Py.set (customer_orders c) dispatch_order_num
                                    (Order.set_dispatched o "dispatched")))
                         [Info_order_dispatched dispatch_order_num],
                       Returned Page)
                    else (c, Returned (Not_enough_bottles beer_type))
                | Py.InstanceDict => (c, Raised (Py.KeyError (Py.Str "num")))
                | Py.Callable | Py.OtherData => (c, Raised Py.TypeError)
                end
            end
      | None => (c, Returned Page)
      end
  | Form.Delete_order delete_order =>
      if Py.contains (customer_orders c) delete_order then
        (logged (with_orders c (Py.del (customer_orders c) delete_order))
                [Info_order_deleted delete_order],
         Returned Page)
      else (c, Returned Page)
  | Form.No_order_form => (c, Returned Page)
  end.

(** ** The production planner *)

Module Planner.

Definition table : Type := Py.dict three_months.

(** The literal both tables start from. *)
Definition zero_table : table :=
  [ ("dunkers", mk3 0 0 0); ("pilsner", mk3 0 0 0); ("red_helles", mk3 0 0 0) ].

(** [t[months[index]]] for [months = ["this_month", "next_month",
    "third_month"]] *)
Definition month_get (t : three_months) (index : nat) : Z :=
  match index with
  | O => this_month t
  | S O => next_month t
  | _ => third_month t
  end.

Definition month_set (t : three_months) (index : nat) (v : Z) : three_months :=
  match index with
  | O => mk3 v (next_month t) (third_month t)
  | S O => mk3 (this_month t) v (third_month t)
  | _ => mk3 (this_month t) (next_month t) v
  end.

(** [tbl[beer_type][months[index]] += v] *)
Definition table_add (tbl : table) (beer_type : string) (index : nat) (v : Z)
  : Py.M table :=
  t <- Py.item tbl beer_type ;;
  Py.ret (Py.set tbl beer_type (month_set t index (month_get t index + v))).

(** [tbl[beer_type][months[index]] = v] *)
Definition table_put (tbl : table) (beer_type : string) (index : nat) (v : Z)
  : Py.M table :=
  t <- Py.item tbl beer_type ;;
  Py.ret (Py.set tbl beer_type (month_set t index v)).

(** The four variables that hold the projected end of a batch; at most
    one of them is set. *)
Record ends : Type := mkends {
  end_phase4 : option Calendar.datetime;
  end_phase3_4 : option Calendar.datetime;
  end_phase2_4 : option Calendar.datetime;
  end_phase1_4 : option Calendar.datetime
}.

(** The sums are those of the code for the end times and volumes for which
    they stay within the years of the library. *)
Definition projected_ends (batch : Batch.t) : ends :=
  let duration_p4 := Batch.duration_phase4 (Batch.volume batch) in
  match Batch.time_end_phase4 batch with
  | Some e4 => mkends (Some e4) None None None
  | None =>
  match Batch.time_end_phase3 batch with
  | Some e3 => mkends None (Some (Calendar.add e3 duration_p4)) None None
  | None =>
  match Batch.time_end_phase2 batch with
  | Some e2 =>
      mkends None None
             (Some (Calendar.add (Calendar.add e2 (Calendar.hours 336)) duration_p4))
             None
  | None =>
  match Batch.time_end_phase1 batch with
  | Some e1 =>
      mkends None None None
             (Some (Calendar.add
                      (Calendar.add (Calendar.add e1 (Calendar.hours 672))
                                    (Calendar.hours 336))
                      duration_p4))
  | None => mkends None None None None
  end end end end.

(** [e != "" and e.month == incre_month] *)
Definition ends_in (e : option Calendar.datetime) (incre_month : Z) : bool :=
  match e with
  | Some d => Calendar.month d =? incre_month
  | None => false
  end.

(** One round of the loop over [months] for one batch. *)
Definition month_round (batch : Batch.t) (e : ends) (st : Z * table) (index : nat)
  : Py.M (Z * table) :=
  let '(incre_month, tbl) := st in
  let volume := Batch.volume batch * 2 in
  tbl <- (if ends_in (end_phase4 e) incre_month then
            table_add tbl (Batch.beer_type batch) index volume
          else if ends_in (end_phase3_4 e) incre_month then
            table_add tbl (Batch.beer_type batch) index volume
          else if ends_in (end_phase2_4 e) incre_month then
            table_add tbl (Batch.beer_type batch) index volume
          else if ends_in (end_phase1_4 e) incre_month then
            table_add tbl (Batch.beer_type batch) index volume
          else Py.ret tbl) ;;
  let incre_month := incre_month + 1 in
  let incre_month := if incre_month =? 13 then 1 else incre_month in
  Py.ret (incre_month, tbl).

(** The body of the loop over [batches.values()]. *)
Definition project_batch (now : Calendar.datetime) (tbl : table) (batch : Batch.t)
  : Py.M table :=
  if Batch.bottles_put_in_inventory batch then Py.ret tbl
  else
    st <- Py.for_each [0%nat; 1%nat; 2%nat]
                      (month_round batch (projected_ends batch)) (Calendar.month now, tbl) ;;
    Py.ret (snd st).

(** The loop that adds the inventory to [this_month]. *)
Definition add_inventory (inv : Inventory.t) (tbl : table) : Py.M table :=
  Py.for_each (Py.keys tbl)
    (fun tbl beer_type =>
       let '(inventory_item_quantity, l) :=
         Inventory.get_inv_items_quantity beer_type in
       _ <- Py.tell l ;;
       match inventory_item_quantity with
       | Py.InstanceVar cell => table_add tbl beer_type 0 (Inventory.read inv cell)
       | Py.InstanceDict => Py.raise (Py.KeyError (Py.Str "num"))
       | Py.Callable | Py.OtherData => Py.raise Py.TypeError
       end)
    tbl.

(** The three date indices [dt1st_month], [dt2nd_month], [dt3rd_month]. *)
Definition forecast_keys (current_datetime : Calendar.datetime)
  : Calendar.datetime * Calendar.datetime * Calendar.datetime :=
  let current_month := Calendar.month current_datetime in
  let current_year := Calendar.year current_datetime in
  let dt1st_month := Calendar.first_of_month current_year current_month in
  let number_days := Calendar.days_in_month current_year current_month in
  let next_datetime := Calendar.add current_datetime (Calendar.days number_days) in
  let next_month := Calendar.month next_datetime in
  let next_months_year := Calendar.year next_datetime in
  let dt2nd_month := Calendar.first_of_month next_months_year next_month in
  let number_days := Calendar.days_in_month next_months_year next_month in
  let third_datetime := Calendar.add next_datetime (Calendar.days number_days) in
  let third_month := Calendar.month third_datetime in
  let third_months_year := Calendar.year third_datetime in
  let dt3rd_month := Calendar.first_of_month third_months_year third_month in
  (dt1st_month, dt2nd_month, dt3rd_month).

(** [forecast.predicted_mean[dt]] *)
Definition predicted (f : Forecast.t) (dt : Calendar.datetime) : Py.M Forecast.float :=
  match Forecast.predicted_mean f dt with
  | Some x => Py.ret x
  | None => Py.raise (Py.KeyError (Py.Dt dt))
  end.

(** The three assignments under [try]; the right-hand side is evaluated
    first.  A [ValueError] ends them, with the error logged and the
    assignments already made kept. *)
Fixpoint try_assign (tbl : table) (beer_type : string) (index : nat)
                    (xs : list Forecast.float) : Py.M table :=
  match xs with
  | [] => Py.ret tbl
  | x :: xs' =>
      match Forecast.int x with
      | inl v =>
          tbl <- table_put tbl beer_type index v ;;
          try_assign tbl beer_type (S index) xs'
      | inr Py.ValueError =>
          _ <- Py.tell [Error_forecast_value] ;; Py.ret tbl
      | inr e => Py.raise e
      end
  end.

(** The body of the loop over [monthly_forecasts]. *)
Definition forecast_beer
           (keys : Calendar.datetime * Calendar.datetime * Calendar.datetime)
           (tbl : table) (entry : string * Forecast.t) : Py.M table :=
  let '(beer_type, f) := entry in
  let '(dt1st_month, dt2nd_month, dt3rd_month) := keys in
  forecast_1st <- predicted f dt1st_month ;;
  forecast_2nd <- predicted f dt2nd_month ;;
  forecast_3rd <- predicted f dt3rd_month ;;
  try_assign tbl beer_type 0 [forecast_1st; forecast_2nd; forecast_3rd].

(** The sum over the months of one beer type. *)
Definition total (t : three_months) : Z :=
  0 + this_month t + next_month t + third_month t.

(** The loop that fills [diff_3months_forecast_actual]. *)
Definition differences (end_inv forecast : table) : Py.M (Py.dict Z) :=
  Py.for_each (Py.keys end_inv)
    (fun diff beer_type =>
       inv_months <- Py.item end_inv beer_type ;;
       forecast_months <- Py.item forecast beer_type ;;
       let fin_inv_beer_3months := total inv_months in
       let forecast_beer_3months := total forecast_months in
       let diff_beer_3months := fin_inv_beer_3months - forecast_beer_3months in
       Py.ret (Py.set diff beer_type diff_beer_3months))
    [ ("dunkers", 0); ("pilsner", 0); ("red_helles", 0) ].

(** The loop that fills [capable_tanks]. *)
Definition capable (available : list string) : Py.M (Py.dict Z) :=
  Py.for_each available
    (fun capable_tanks tank_name =>
       let '(tank_value, l) := Tanks.get_tank_value tank_name in
       _ <- Py.tell l ;;
       match tank_value with
       | Py.InstanceVar tv =>
           if Py.mem "ferm" (Tank.capability tv)
           then Py.ret (Py.set capable_tanks tank_name (Tank.volume tv))
           else Py.ret capable_tanks
       | Py.InstanceDict => Py.raise (Py.KeyError (Py.Str "capability"))
       | Py.Callable | Py.OtherData => Py.raise Py.TypeError
       end)
    [].

(** What [use_tank] is when no tank is capable. *)
Definition no_tank_available : string :=
  "'currently no tank with right capability available'".

(** The computation after the check that a forecast exists. *)
Definition compute (c : config) (now : Calendar.datetime) : Py.M plan :=
  end_inv <- Py.for_each (Py.values (batches c)) (project_batch now) zero_table ;;
  end_inv <- add_inventory (inventory c) end_inv ;;
  forecast <- Py.for_each (monthly_sales_forecasts c)
                          (forecast_beer (forecast_keys now)) zero_table ;;
  diff <- differences end_inv forecast ;;
  beer <- match Py.min_by_value diff with
          | Some beer => Py.ret beer
          | None => Py.raise Py.ValueError
          end ;;
  capable_tanks <- capable (unused_tanks (batches c)) ;;
  tank <- match Py.max_by_value capable_tanks with
          | Some use_tank =>
              use_tank_volume <- Py.item capable_tanks use_tank ;;
              Py.ret (use_tank, use_tank_volume)
          | None => Py.ret (no_tank_available, 0)
          end ;;
  Py.ret (mkplan beer (fst tank) (snd tank) capable_tanks end_inv forecast diff).

End Planner.

(** [plan_production] *)
Definition plan_production (c : config) (now : Calendar.datetime) : config * outcome :=
  match monthly_sales_forecasts c with
  | [] => (c, Returned No_prediction)
  | _ :: _ =>
      match Planner.compute c now with
      | (inl p, l) => (logged c l, Returned (Plan_page p))
      | (inr e, l) => (logged c l, Raised e)
      end
  end.

(** ** Requests and reachable states *)

(** A request to one of the pages.  [Forecasts_stored] stands for
    [predict_sales], of which only the dictionary it leaves in
    [app.config["monthly_sales_forecasts"]] is modelled. *)
Inductive request : Type :=
| Batch_request (f : Form.batch_form)
| Phase_request (now : Calendar.datetime) (f : Form.phase_form)
| Order_request (f : Form.order_form)
| Plan_request (now : Calendar.datetime)
| Forecasts_stored (forecasts : Py.dict Forecast.t).

Definition handle (c : config) (r : request) : config * outcome :=
  match r with
  | Batch_request f => add_delete_batch c f
  | Phase_request now f => change_batchs_phase c now f
  | Order_request f => register_dispatch_delete_order c f
  | Plan_request now => plan_production c now
  | Forecasts_stored forecasts => (with_forecasts c forecasts, Returned Page)
  end.

(** The state after a sequence of requests. *)
Definition run (c : config) (rs : list request) : config :=
  fold_left (fun c r => fst (handle c r)) rs c.

(** The states the server can be in, from the start of the module on.
    [load_program_state], which puts a saved state in place of the
    current one, is not among the requests; nor is a request that a date
    sum beyond the year 9999 ends half way, for which see [in_service]. *)
Inductive reachable : config -> Prop :=
| reachable_initial : reachable initial_config
| reachable_handle c r : reachable c -> reachable (fst (handle c r)).

(** The state after a sequence of phase-change requests. *)
Definition run_phases (c : config) (fs : list (Calendar.datetime * Form.phase_form))
  : config :=
  fold_left (fun c '(now, f) => fst (change_batchs_phase c now f)) fs c.

(** A request changed the phase of a batch when the handler logged the
    message [Batch ... was changed to phase ...], the last thing it does on
    that path. *)
Definition accepted (c : config) (now : Calendar.datetime) (f : Form.phase_form)
  : Prop :=
  match f with
  | Form.Change_phase id_input phase_input _ =>
      exists l, log (fst (change_batchs_phase c now f))
                = (log c ++ l ++ [Info_batch_changed id_input phase_input])%list
  | Form.No_phase_form => False
  end.


(** A state in which batch [b1] of 500 litres has been finished. *)
Definition finished_example : config :=
  run initial_config
      [ Batch_request (Form.Add_batch "b1" (Form.Num 500) "pilsner");
        Phase_request (Calendar.mkdt 2019 11 20 0)
                      (Form.Change_phase "b1" "finished" "not applicable") ].

(** The bottles that the credited batches of [bs] account for in the
    inventory item [i]: [volume * 2] for each batch of that beer type whose
    flag [bottles_put_in_inventory] is set. *)
Definition credited (b : Batch.t) (i : Inventory.item) : Z :=
  if Batch.bottles_put_in_inventory b
     && String.eqb (Batch.beer_type b) (Inventory.item_name i)
  then Batch.volume b * 2 else 0.

Definition credited_total (bs : Py.dict Batch.t) (i : Inventory.item) : Z :=
  fold_right Z.add 0 (map (fun b => credited b i) (Py.values bs)).

(** A state in which batch [b1] of 500 litres of pilsner has been added. *)
Definition added_example : config :=
  run initial_config [ Batch_request (Form.Add_batch "b1" (Form.Num 500) "pilsner") ].

(** An order for 100 bottles of pilsner, and a state that holds it with
    [n] bottles of pilsner in the inventory. *)
Definition order_example : Order.t :=
  Order.mk "17" "Ann" (2019, 12, 1) "pilsner" "3" (Form.Num 100) "".

Definition stock_example (n : Z) : config :=
  mkconfig [] [("17", order_example)] [] (Inventory.mk 0 n 0) [].

(** The fixed order of the phases: each phase with the one before it, as
    [set_phase_start_end_datetimes] records it in [phase_last_completed]. *)
Definition phase_before (phase : string) : string :=
  if String.eqb phase "ferm" then "hot brewing"
  else if String.eqb phase "cond" then "ferm"
  else if String.eqb phase "bottling" then "cond"
  else if String.eqb phase "finished" then "bottling"
  else "".

(** One step along [unset, hot brewing, ferm, cond, bottling, finished]. *)
Definition one_step (p q : string) : Prop :=
  In (p, q) [ ("", "hot brewing"); ("hot brewing", "ferm"); ("ferm", "cond");
              ("cond", "bottling"); ("bottling", "finished") ].

(** Tank [tank] is held by an active batch other than [id_input]. *)
Definition held_by_other (c : config) (id_input tank : string) : Prop :=
  exists id' b', id' <> id_input /\ Py.get (batches c) id' = Some b'
                 /\ Batch.phase_current b' <> "finished"
                 /\ Batch.phase_current_tank b' = tank.

(** Tank [tank] is held by an active batch. *)
Definition occupied (c : config) (tank : string) : Prop :=
  exists id' b', Py.get (batches c) id' = Some b'
                 /\ Batch.phase_current b' <> "finished"
                 /\ Batch.phase_current_tank b' = tank.

(** [tank] is a tank of the catalog that can host [phase] and hold
    [volume] litres. *)
Definition tank_fits (tank phase : string) (volume : Z) : Prop :=
  exists tv, In (tank, tv) Tanks.instance_vars
             /\ In phase (Tank.capability tv) /\ volume <= Tank.volume tv.

(** The condition under which [change_batchs_phase] sets [change_batch]
    for a batch [b] that is not finished. *)
Definition changes (bs : Py.dict Batch.t) (b : Batch.t) (phase tank : string) : bool :=
  (Py.mem phase ["hot brewing"; "bottling"; "finished"]
   && String.eqb tank "not applicable")
  || (Py.mem phase ["ferm"; "cond"] && negb (String.eqb tank "not applicable")
      && Py.mem tank (available_tanks bs b)
      && match fst (Tanks.get_tank_value tank) with
         | Py.InstanceVar tv =>
             Py.mem phase (Tank.capability tv) && (Batch.volume b <=? Tank.volume tv)
         | _ => false
         end).

(** What holds of the batches in every reachable state. *)
Definition batch_ok (b : Batch.t) : Prop :=
  (In (Batch.phase_current b) ["ferm"; "cond"] ->
   tank_fits (Batch.phase_current_tank b) (Batch.phase_current b) (Batch.volume b)) /\
  (~ In (Batch.phase_current b) ["ferm"; "cond"] ->
   In (Batch.phase_current_tank b) [""; "not applicable"]) /\
  In (Batch.phase_current b)
     [""; "hot brewing"; "ferm"; "cond"; "bottling"; "finished"].

Record well_formed (c : config) : Prop := mkwf {
  wf_keys : NoDup (Py.keys (batches c));
  wf_batch : forall id_ b, Py.get (batches c) id_ = Some b -> batch_ok b;
  wf_tanks : forall id1 id2 b1 b2,
      Py.get (batches c) id1 = Some b1 -> Py.get (batches c) id2 = Some b2 ->
      id1 <> id2 ->
      Batch.phase_current_tank b1 = Batch.phase_current_tank b2 ->
      ~ In (Batch.phase_current_tank b1) Tanks.get_tank_names
}.

(** A state with batch [b1] of 500 litres fermenting in tank [albert] and
    batch [b2] of 700 litres not yet in any phase. *)
Definition ferm_example : config :=
  run initial_config
      [ Batch_request (Form.Add_batch "b1" (Form.Num 500) "pilsner");
        Batch_request (Form.Add_batch "b2" (Form.Num 700) "dunkers");
        Phase_request (Calendar.mkdt 2019 11 20 0)
                      (Form.Change_phase "b1" "ferm" "albert") ].

(** A state with batch [b1] of 500 litres in the phase [bottling]. *)
Definition bottling_example : config :=
  run initial_config
      [ Batch_request (Form.Add_batch "b1" (Form.Num 500) "pilsner");
        Phase_request (Calendar.mkdt 2019 11 20 0)
                      (Form.Change_phase "b1" "bottling" "not applicable") ].

(** The fixed order of the beer types, that of the dictionary literals
    of the planner and of the instance variables of [Inventory]. *)
Definition beer_rank (i : Inventory.item) : nat :=
  match i with
  | Inventory.dunkers => 0
  | Inventory.pilsner => 1
  | Inventory.red_helles => 2
  end.

(** The sum of the three monthly buckets of a beer type in a table of the
    planner's report. *)
Definition bucket_total (tbl : Py.dict three_months) (i : Inventory.item) : option Z :=
  match Py.get tbl (Inventory.item_name i) with
  | Some t => Some (this_month t + next_month t + third_month t)
  | None => None
  end.

(** The deficit of a beer type in a report: the total of its projected
    inventory minus the total of its forecast. *)
Definition deficit (p : plan) (i : Inventory.item) : option Z :=
  match bucket_total (three_month_end_inv p) i,
        bucket_total (three_month_forecast p) i with
  | Some inv_total, Some forecast_total => Some (inv_total - forecast_total)
  | _, _ => None
  end.

(** A forecast of [a], [b] and [c] bottles for November 2019, December
    2019 and January 2020, and of nothing for any other date. *)
Definition forecast_example (a b c : Q) : Forecast.t :=
  Forecast.mk (fun dt =>
    if Calendar.eqb dt (Calendar.mkdt 2019 11 1 0) then Some (Forecast.Finite a)
    else if Calendar.eqb dt (Calendar.mkdt 2019 12 1 0) then Some (Forecast.Finite b)
    else if Calendar.eqb dt (Calendar.mkdt 2020 1 1 0) then Some (Forecast.Finite c)
    else None).

(** The scenario of the design document: projected totals of 10, 40 and 5
    bottles (here all in stock) against forecast totals of 50, 30 and 20. *)
Definition scenario_example : config :=
  mkconfig [] []
           [ ("dunkers", forecast_example (inject_Z 20) (inject_Z 20) (inject_Z 10));
             ("pilsner", forecast_example (inject_Z 10) (inject_Z 10) (inject_Z 10));
             ("red_helles", forecast_example (inject_Z 20) (inject_Z 0) (inject_Z 0)) ]
           (Inventory.mk 10 40 5) [].

(** A tank of the catalog whose capability list has ["ferm"]. *)
Definition fermenter (tank : string) : Prop :=
  exists tv, In (tank, tv) Tanks.instance_vars /\ In "ferm" (Tank.capability tv).

(** The volume of a tank of the catalog. *)
Definition capacity (tank : string) : Z :=
  match Tanks.getattr tank with
  | Some (Py.InstanceVar tv) => Tank.volume tv
  | _ => 0
  end.

(** The tanks the planner may recommend: fermenters that no active batch
    occupies. *)
Definition candidate (c : config) (tank : string) : Prop :=
  fermenter tank /\ ~ occupied c tank.

(** The entries that the planner's loop over the available tanks adds to
    [capable_tanks]. *)
Definition capable_entries (available : list string) : Py.dict Z :=
  flat_map (fun tank_name =>
              match Tanks.getattr tank_name with
              | Some (Py.InstanceVar tv) =>
                  if Py.mem "ferm" (Tank.capability tv)
                  then [(tank_name, Tank.volume tv)] else []
              | _ => []
              end) available.

(** The state of the C10 example: [ferm_example] with forecasts stored. *)
Definition planning_example : config :=
  run ferm_example
      [ Forecasts_stored
          [ ("dunkers", forecast_example (inject_Z 20) (inject_Z 20) (inject_Z 10));
            ("pilsner", forecast_example (inject_Z 10) (inject_Z 10) (inject_Z 10));
            ("red_helles", forecast_example (inject_Z 20) (inject_Z 0) (inject_Z 0)) ] ].

(** The month number of the bucket [i] (0, 1 or 2) when the current
    month is [m]: the months follow one another and 12 is followed by 1. *)
Definition bucket_month (m : Z) (i : nat) : Z := (m - 1 + Z.of_nat i) mod 12 + 1.

(** The projected finish of a batch: the one of the four end variables
    that is set, if any. *)
Definition projected_finish (batch : Batch.t) : option Calendar.datetime :=
  let e := Planner.projected_ends batch in
  match Planner.end_phase4 e with
  | Some d => Some d
  | None =>
  match Planner.end_phase3_4 e with
  | Some d => Some d
  | None =>
  match Planner.end_phase2_4 e with
  | Some d => Some d
  | None => Planner.end_phase1_4 e
  end end end.

(** The bottles that a batch adds to bucket [i] of [beer_type]. *)
Definition contribution (now : Calendar.datetime) (batch : Batch.t)
                        (beer_type : string) (i : nat) : Z :=
  if negb (Batch.bottles_put_in_inventory batch)
     && String.eqb (Batch.beer_type batch) beer_type
     && Planner.ends_in (projected_finish batch)
                        (bucket_month (Calendar.month now) i)
  then Batch.volume batch * 2 else 0.

Definition contributions (now : Calendar.datetime) (bs : Py.dict Batch.t)
                         (beer_type : string) (i : nat) : Z :=
  fold_right Z.add 0 (map (fun b => contribution now b beer_type i) (Py.values bs)).

(** A state with batch [b1] put into [bottling] on 25 November 2018 and
    never finished, and forecasts stored. *)
Definition stale_example : config :=
  run initial_config
      [ Batch_request (Form.Add_batch "b1" (Form.Num 500) "pilsner");
        Phase_request (Calendar.mkdt 2018 11 25 0)
                      (Form.Change_phase "b1" "bottling" "not applicable");
        Forecasts_stored
          [ ("dunkers", forecast_example (inject_Z 20) (inject_Z 20) (inject_Z 10));
            ("pilsner", forecast_example (inject_Z 10) (inject_Z 10) (inject_Z 10));
            ("red_helles", forecast_example (inject_Z 20) (inject_Z 0) (inject_Z 0)) ] ].

(** The beer types that the planner's tables have a row for. *)
Definition known_beer (beer_type : string) : Prop :=
  In beer_type ["dunkers"; "pilsner"; "red_helles"].

(** The forecasts let the planner run: there is one, each is of a known
    beer type, and each has a value that is not infinite for the three
    dates that the planner asks for. *)
Definition forecasts_ready (fs : Py.dict Forecast.t) (now : Calendar.datetime) : Prop :=
  fs <> [] /\
  forall k f, In (k, f) fs ->
    known_beer k /\
    forall dt,
      (let '(dt1, dt2, dt3) := Planner.forecast_keys now in
       dt = dt1 \/ dt = dt2 \/ dt = dt3) ->
      exists x, Forecast.predicted_mean f dt = Some x /\ x <> Forecast.Infinite.

(** ** The tables of the pages

    The HTML text of a table is kept by its rows and cells: a row is a
    record of the values that [format] puts between [<td>] and [</td>]. *)

Module Display.

(** A cell that holds a date: the text that [strftime("%d/%m/%Y %H:%M")]
    makes of it, kept by the date, or a literal text. *)
Inductive text : Type :=
| Formatted (dt : Calendar.datetime)
| Literal (s : string).

(** What can end the making of a page: the [AttributeError] of calling
    [strftime] on the string [""] of an unset timestamp, or an exception of
    a lookup. *)
Inductive exn : Type :=
| AttributeError
| Lookup (e : Py.exn).

(** A computation that makes a table: its value or the exception that
    ended it, with the messages logged on the way. *)
Definition M (A : Type) : Type := (A + exn) * list log_entry.

Definition ret {A} (a : A) : M A := (inl a, []).
Definition raise {A} (e : exn) : M A := (inr e, []).
Definition tell (l : list log_entry) : M unit := (inl tt, l).

Definition bind {A B} (m : M A) (f : A -> M B) : M B :=
  match m with
  | (inl a, l) => let '(r, l') := f a in (r, (l ++ l')%list)
  | (inr e, l) => (inr e, l)
  end.

Fixpoint for_each {A S} (l : list A) (body : S -> A -> M S) (s : S) : M S :=
  match l with
  | [] => ret s
  | a :: r => bind (body s a) (for_each r body)
  end.

(** [t.strftime(...)], where [t] is a date or the string [""]. *)
Definition strftime (t : option Calendar.datetime) : M text :=
  match t with
  | Some dt => ret (Formatted dt)
  | None => raise AttributeError
  end.

(** [Batch.get_start_end_dt]: the pair of the entries ["start"] and
    ["end"] of the dictionary it returns. *)
Definition get_start_end_dt (b : Batch.t) : M (text * text) :=
  if String.eqb (Batch.phase_current b) "hot brewing" then
    bind (strftime (Batch.time_start_phase1 b)) (fun s =>
    bind (strftime (Batch.time_end_phase1 b)) (fun e => ret (s, e)))
  else if String.eqb (Batch.phase_current b) "ferm" then
    bind (strftime (Batch.time_start_phase2 b)) (fun s =>
    bind (strftime (Batch.time_end_phase2 b)) (fun e => ret (s, e)))
  else if String.eqb (Batch.phase_current b) "cond" then
    bind (strftime (Batch.time_start_phase3 b)) (fun s =>
    bind (strftime (Batch.time_end_phase3 b)) (fun e => ret (s, e)))
  else if String.eqb (Batch.phase_current b) "bottling" then
    bind (strftime (Batch.time_start_phase4 b)) (fun s =>
    bind (strftime (Batch.time_end_phase4 b)) (fun e => ret (s, e)))
  else if String.eqb (Batch.phase_current b) "finished" then
    ret (Literal "finished", Literal "finished")
  else ret (Literal "", Literal "").

(** A row of the table of all batches. *)
Record batch_row : Type := mkbatch_row {
  row_id : string;
  row_beer_type : string;
  row_volume : Z;
  row_phase_current : string;
  row_phase_current_tank : string;
  row_end : text;
  row_phase_last_completed : string;
  row_num_bottles_to_inv : option Z
}.

(** [update_batch_table] *)
Definition update_batch_table (batches : Py.dict Batch.t) : M (list batch_row) :=
  for_each (Py.values batches)
    (fun batch_table batch =>
       bind (get_start_end_dt batch) (fun se =>
       ret (batch_table ++
            [mkbatch_row (Batch.id batch) (Batch.beer_type batch) (Batch.volume batch)
                         (Batch.phase_current batch) (Batch.phase_current_tank batch)
                         (snd se) (Batch.phase_last_completed batch)
                         (Batch.num_bottles_to_inv batch)])%list))
    [].

(** [x["num"]] and [x["volume"]] for what a getter returned. *)
Definition num_of (inv : Inventory.t) (x : Py.attr Inventory.cell) : M Z :=
  match x with
  | Py.InstanceVar cell => ret (Inventory.read inv cell)
  | Py.InstanceDict => raise (Lookup (Py.KeyError (Py.Str "num")))
  | Py.Callable | Py.OtherData => raise (Lookup Py.TypeError)
  end.

Definition volume_of (x : Py.attr Tank.t) : M Z :=
  match x with
  | Py.InstanceVar tv => ret (Tank.volume tv)
  | Py.InstanceDict => raise (Lookup (Py.KeyError (Py.Str "volume")))
  | Py.Callable | Py.OtherData => raise (Lookup Py.TypeError)
  end.

(** [update_inventory_table]: a row is an item name and its quantity. *)
Definition update_inventory_table (inv : Inventory.t) : M (list (string * Z)) :=
  for_each Inventory.get_inv_items_names
    (fun inventory_table inventory_item =>
       let '(inventory_item_quant, l) :=
         Inventory.get_inv_items_quantity inventory_item in
       bind (tell l) (fun _ =>
       bind (num_of inv inventory_item_quant) (fun inventory_quantity =>
       ret (inventory_table ++ [(inventory_item, inventory_quantity)])%list)))
    [].

(** [update_order_table]: a row is the dictionary of an order. *)
Definition update_order_table (orders : Py.dict Order.t) : list Order.t :=
  Py.values orders.

(** The rows of the four process tables; those of fermentation and
    conditioning have the cell of the tank's capacity, which is empty for a
    batch without tank. *)
Record process_row : Type := mkprocess_row {
  p_tank : string;
  p_volume : Z;
  p_start : text;
  p_end : text;
  p_id : string
}.

Record tank_row : Type := mktank_row {
  t_tank : string;
  t_max_capacity : option Z;
  t_volume : Z;
  t_start : text;
  t_end : text;
  t_id : string
}.

Record process_tables : Type := mktables {
  hot_brew_table : list process_row;
  ferm_table : list tank_row;
  cond_table : list tank_row;
  bottling_table : list process_row
}.

(** The body of the loop of [update_process_tables]. *)
Definition process_batch (tables : process_tables) (batch : Batch.t)
  : M process_tables :=
  bind (if Py.mem (Batch.phase_current_tank batch) [""; "not applicable"]
        then ret None
        else
          let '(tank_value, l) :=
            Tanks.get_tank_value (Batch.phase_current_tank batch) in
          bind (tell l) (fun _ =>
          bind (volume_of tank_value) (fun v => ret (Some v))))
       (fun max_capacity =>
  if String.eqb (Batch.phase_current batch) "hot brewing" then
    bind (get_start_end_dt batch) (fun s =>
    bind (get_start_end_dt batch) (fun e =>
    ret (mktables
           (hot_brew_table tables ++
            [mkprocess_row (Batch.phase_current_tank batch) (Batch.volume batch)
                           (fst s) (snd e) (Batch.id batch)])%list
           (ferm_table tables) (cond_table tables) (bottling_table tables))))
  else if String.eqb (Batch.phase_current batch) "ferm" then
    bind (get_start_end_dt batch) (fun s =>
    bind (get_start_end_dt batch) (fun e =>
    ret (mktables
           (hot_brew_table tables)
           (ferm_table tables ++
            [mktank_row (Batch.phase_current_tank batch) max_capacity
                        (Batch.volume batch) (fst s) (snd e) (Batch.id batch)])%list
           (cond_table tables) (bottling_table tables))))
  else if String.eqb (Batch.phase_current batch) "cond" then
    bind (get_start_end_dt batch) (fun s =>
    bind (get_start_end_dt batch) (fun e =>
    ret (mktables
           (hot_brew_table tables) (ferm_table tables)
           (cond_table tables ++
            [mktank_row (Batch.phase_current_tank batch) max_capacity
                        (Batch.volume batch) (fst s) (snd e) (Batch.id batch)])%list
           (bottling_table tables))))
  else if String.eqb (Batch.phase_current batch) "bottling" then
    bind (get_start_end_dt batch) (fun s =>
    bind (get_start_end_dt batch) (fun e =>
    ret (mktables
           (hot_brew_table tables) (ferm_table tables) (cond_table tables)
           (bottling_table tables ++
            [mkprocess_row (Batch.phase_current_tank batch) (Batch.volume batch)
                           (fst s) (snd e) (Batch.id batch)])%list)))
  else ret tables).

(** [update_process_tables] *)
Definition update_process_tables (batches : Py.dict Batch.t) : M process_tables :=
  match batches with
  | [] => ret (mktables [] [] [] [])
  | _ :: _ => for_each (Py.values batches) process_batch (mktables [] [] [] [])
  end.

(** What the start page shows. *)
Record tracking_page : Type := mkpage {
  html_batch_table : list batch_row;
  html_inventory_table : list (string * Z);
  html_order_table : list Order.t;
  html_process_tables : process_tables
}.

(** The ids that the loop of [change_batchs_phase] writes into the
    drop-down list, those of the batches that are not finished, in the
    order of the dictionary.  The loop writes each id as it is, as value
    and as text of one option tag; the tags are not modelled. *)
Definition htm_batch_ids (batches : Py.dict Batch.t) : list string :=
  map Batch.id
      (filter (fun batch => negb (String.eqb (Batch.phase_current batch) "finished"))
              (Py.values batches)).

End Display.

(** [interface_tracking]: the start page, or the exception that ended its
    making, and the state with the messages logged meanwhile. *)
Definition interface_tracking (c : config)
  : config * (Display.tracking_page + Display.exn) :=
  let '(r, l) :=
    Display.bind (Display.update_batch_table (batches c)) (fun bt =>
    Display.bind (Display.update_inventory_table (inventory c)) (fun it =>
    let ot := Display.update_order_table (customer_orders c) in
    Display.bind (Display.update_process_tables (batches c)) (fun pt =>
    Display.ret (Display.mkpage bt it ot pt)))) in
  (logged c l, r).

(** ** The records of the batches and orders *)

(** The start and the end variable of the phase a batch is in, with the
    duration of that phase; [None] outside the four phases of production. *)
Definition current_times (b : Batch.t)
  : option (option Calendar.datetime * option Calendar.datetime * Calendar.timedelta) :=
  if String.eqb (Batch.phase_current b) "hot brewing" then
    Some (Batch.time_start_phase1 b, Batch.time_end_phase1 b,
          Calendar.hours Batch.duration_phase1)
  else if String.eqb (Batch.phase_current b) "ferm" then
    Some (Batch.time_start_phase2 b, Batch.time_end_phase2 b,
          Calendar.hours Batch.duration_phase2)
  else if String.eqb (Batch.phase_current b) "cond" then
    Some (Batch.time_start_phase3 b, Batch.time_end_phase3 b,
          Calendar.hours Batch.duration_phase3)
  else if String.eqb (Batch.phase_current b) "bottling" then
    Some (Batch.time_start_phase4 b, Batch.time_end_phase4 b,
          Batch.duration_phase4 (Batch.volume b))
  else None.

(** A batch in production that lacks the start or the end of its phase. *)
Definition untimed (b : Batch.t) : bool :=
  match current_times b with
  | Some (Some _, Some _, _) => false
  | Some _ => true
  | None => false
  end.

(** What holds of the record stored under the key [k] in every reachable
    state. *)
Record batch_record (k : string) (b : Batch.t) : Prop := mkrecord {
  rec_id : Batch.id b = k;
  rec_key : Form.remove_blanks k = k;
  rec_last : Batch.phase_last_completed b = phase_before (Batch.phase_current b);
  rec_flag : Batch.bottles_put_in_inventory b = true
             <-> Batch.phase_current b = "finished";
  rec_num : Batch.num_bottles_to_inv b
            = if Batch.bottles_put_in_inventory b
              then Some (Batch.volume b * 2) else None;
  rec_times : match current_times b with
              | Some (s, e, d) => exists t, s = Some t /\ e = Some (Calendar.add t d)
              | None => True
              end
}.

(** What holds of the order stored under the key [k] in every reachable
    state. *)
Record order_record (k : string) (o : Order.t) : Prop := mkorder_record {
  ord_id : Order.invoice_number o = k;
  ord_key : Form.remove_blanks k = k;
  ord_dispatched : Order.dispatched o = "" \/ Order.dispatched o = "dispatched"
}.

(** No count of the inventory is negative. *)
Definition stock_nonneg (inv : Inventory.t) : Prop :=
  forall i, 0 <= Inventory.num inv i.

(** A request that adds no batch of negative volume. *)
Definition adds_nonneg (r : request) : Prop :=
  match r with
  | Batch_request (Form.Add_batch _ (Form.Num v) _) => 0 <= v
  | _ => True
  end.

(** A state with batch [b1] fermenting in tank [albert] and batch [b2]
    conditioning in tank [brigadier]. *)
Definition two_tanks_example : config :=
  run ferm_example
      [ Phase_request (Calendar.mkdt 2019 11 21 0)
                      (Form.Change_phase "b2" "cond" "brigadier") ].

(** The ids of the batches of a list that are in a phase, in the order of
    the list. *)
Definition ids_in_phase (phase : string) (xs : list Batch.t) : list string :=
  map Batch.id (filter (fun b => String.eqb (Batch.phase_current b) phase) xs).

(** A state with the order [17] registered, its invoice number typed with
    blanks. *)
Definition ordered_example : config :=
  run initial_config
      [ Order_request (Form.Register_order " 1 7" "Ann" (Form.Date 2019 12 1)
                                           "pilsner" "3" (Form.Num 100)) ].

(** An order for [q] bottles of a beer that the inventory does not have,
    and a state that holds it. *)
Definition stout_order (q : Z) : Order.t :=
  Order.mk "18" "Bob" (2019, 12, 1) "stout" "4" (Form.Num q) "".

Definition stout_example (q : Z) : config :=
  mkconfig [] [("18", stout_order q)] [] (Inventory.mk 5 5 5) [].

(** The first of the three dates of the planner for which a forecast has
    no value. *)
Definition first_missing (f : Forecast.t)
           (keys : Calendar.datetime * Calendar.datetime * Calendar.datetime)
  : option Calendar.datetime :=
  let '(dt1st_month, dt2nd_month, dt3rd_month) := keys in
  match Forecast.predicted_mean f dt1st_month with
  | None => Some dt1st_month
  | Some _ =>
  match Forecast.predicted_mean f dt2nd_month with
  | None => Some dt2nd_month
  | Some _ =>
  match Forecast.predicted_mean f dt3rd_month with
  | None => Some dt3rd_month
  | Some _ => None
  end end end.

(** A state with a batch of stout, a beer type that the planner has no
    row for, in [bottling] since 20 November 2019, and a forecast stored. *)
Definition stout_batch_example : config :=
  run initial_config
      [ Batch_request (Form.Add_batch "b1" (Form.Num 500) "stout");
        Phase_request (Calendar.mkdt 2019 11 20 0)
                      (Form.Change_phase "b1" "bottling" "not applicable");
        Forecasts_stored
          [ ("dunkers", forecast_example (inject_Z 20) (inject_Z 20) (inject_Z 10)) ] ].

(** A forecast whose values are all infinite, and one with not-a-number
    for December 2019 between 20 bottles for November and 10 for January;
    a state with the first stored for pilsner. *)
Definition infinite_forecast : Forecast.t :=
  Forecast.mk (fun _ => Some Forecast.Infinite).

Definition gap_forecast : Forecast.t :=
  Forecast.mk (fun dt =>
    if Calendar.eqb dt (Calendar.mkdt 2019 11 1 0)
    then Some (Forecast.Finite (inject_Z 20))
    else if Calendar.eqb dt (Calendar.mkdt 2019 12 1 0) then Some Forecast.NaN
    else Some (Forecast.Finite (inject_Z 10))).

Definition infinite_example : config :=
  mkconfig [] [] [("pilsner", infinite_forecast)] Inventory.init [].

(** ** The range in which dates and durations are exact

    The library refuses a date after the year 9999 with [OverflowError],
    and the float product [(1 / 60) * volume * 2] gives the exact number
    of minutes only up to 50331662 litres.  The sums of [Calendar.add] and
    the duration [Batch.duration_phase4] are those of the code for the
    volumes and the dates below, for which no sum of the program leaves the
    years of the library: the longest, from the end of hot brewing to the
    end of bottling, is short of four years. *)

Definition max_volume : Z := 1000000.

(** A date that [datetime.now()] returns, up to the year 9000. *)
Definition clock (now : Calendar.datetime) : Prop :=
  Calendar.valid now /\ 1 <= Calendar.year now <= 9000.

(** A request in that range: a batch is added with a volume from 0 to
    [max_volume], and the clock stands as above when a phase is changed or
    a plan is made. *)
Definition in_range (r : request) : Prop :=
  match r with
  | Batch_request (Form.Add_batch _ (Form.Num v) _) => 0 <= v <= max_volume
  | Phase_request now _ => clock now
  | Plan_request now => clock now
  | _ => True
  end.

(** The states of a server that has been sent requests in that range only,
    from the start of the module on; [load_program_state] is not among
    them.  No date sum of a handler leaves the years of the library on the
    way, so these are states of the program as well as of its model. *)
Inductive in_service : config -> Prop :=
| in_service_initial : in_service initial_config
| in_service_handle c r : in_service c -> in_range r -> in_service (fst (handle c r)).

(** ** The pages of the two handlers of the batches

    [add_delete_batch] and [change_batchs_phase] above end where the
    handlers have made their last change of the state: [Returned Page]
    there stands for going on to the page.  The page has the table of
    [update_batch_table], made of the state as it then is, and the making of
    the table can end the handler in an exception of its own. *)

(** What the handler gives back: its page, one of the messages it returns
    in place of the page, or the exception that ended it. *)
Inductive served : Type :=
| Batch_page (html_batch_table : list Display.batch_row)
| Phase_page (htm_batch_ids : list string) (html_batch_table : list Display.batch_row)
| Text (message : response)
| Uncaught (e : Display.exn).

(** [add_delete_batch], to its [return]. *)
Definition add_delete_batch_page (c : config) (f : Form.batch_form) : config * served :=
  match add_delete_batch c f with
  | (c', Returned _) =>
      match Display.update_batch_table (batches c') with
      | (inl html_batch_table, l) => (logged c' l, Batch_page html_batch_table)
      | (inr e, l) => (logged c' l, Uncaught e)
      end
  | (c', Raised e) => (c', Uncaught (Display.Lookup e))
  end.

(** [change_batchs_phase], to its [return]. *)
Definition change_batchs_phase_page (c : config) (now : Calendar.datetime)
                                    (f : Form.phase_form) : config * served :=
  match change_batchs_phase c now f with
  | (c', Returned Page) =>
      let htm_batch_ids := Display.htm_batch_ids (batches c') in
      match Display.update_batch_table (batches c') with
      | (inl html_batch_table, l) =>
          (logged c' l, Phase_page htm_batch_ids html_batch_table)
      | (inr e, l) => (logged c' l, Uncaught e)
      end
  | (c', Returned message) => (c', Text message)
  | (c', Raised e) => (c', Uncaught (Display.Lookup e))
  end.

(** The volume and the start times of a batch in a state of the service. *)
Definition batch_in_range (b : Batch.t) : Prop :=
  0 <= Batch.volume b <= max_volume /\
  forall t, In (Some t) [ Batch.time_start_phase1 b; Batch.time_start_phase2 b;
                          Batch.time_start_phase3 b; Batch.time_start_phase4 b ] ->
            clock t.

(** A state in which every fermenter of the catalog holds a batch, and
    forecasts are stored. *)
Definition no_fermenter_example : config :=
  run initial_config
      [ Batch_request (Form.Add_batch "b1" (Form.Num 500) "pilsner");
        Batch_request (Form.Add_batch "b2" (Form.Num 500) "pilsner");
        Batch_request (Form.Add_batch "b3" (Form.Num 500) "pilsner");
        Batch_request (Form.Add_batch "b4" (Form.Num 500) "pilsner");
        Batch_request (Form.Add_batch "b5" (Form.Num 500) "pilsner");
        Batch_request (Form.Add_batch "b6" (Form.Num 500) "pilsner");
        Batch_request (Form.Add_batch "b7" (Form.Num 500) "pilsner");
        Phase_request (Calendar.mkdt 2019 11 20 0) (Form.Change_phase "b1" "ferm" "albert");
        Phase_request (Calendar.mkdt 2019 11 20 0)
                      (Form.Change_phase "b2" "ferm" "brigadier");
        Phase_request (Calendar.mkdt 2019 11 20 0) (Form.Change_phase "b3" "ferm" "camilla");
        Phase_request (Calendar.mkdt 2019 11 20 0) (Form.Change_phase "b4" "ferm" "dylon");
        Phase_request (Calendar.mkdt 2019 11 20 0) (Form.Change_phase "b5" "ferm" "emily");
        Phase_request (Calendar.mkdt 2019 11 20 0)
                      (Form.Change_phase "b6" "ferm" "florence");
        Phase_request (Calendar.mkdt 2019 11 20 0) (Form.Change_phase "b7" "ferm" "r2d2");
        Forecasts_stored
          [ ("dunkers", forecast_example (inject_Z 20) (inject_Z 20) (inject_Z 10));
            ("pilsner", forecast_example (inject_Z 10) (inject_Z 10) (inject_Z 10));
            ("red_helles", forecast_example (inject_Z 20) (inject_Z 0) (inject_Z 0)) ] ].

(** * Properties *)

(** ** Dictionaries *)

Lemma get_set_eq {V} (d : Py.dict V) k v : Py.get (Py.set d k v) k = Some v.
Proof.
  induction d as [|[k' v'] d IH]; simpl.
  - now rewrite String.eqb_refl.
  - destruct (String.eqb k' k) eqn:E; simpl; rewrite E; auto.
Qed.

Lemma get_set_neq {V} (d : Py.dict V) k k' v :
  k <> k' -> Py.get (Py.set d k v) k' = Py.get d k'.
Proof.
  intros N. induction d as [|[k0 v0] d IH]; simpl.
  - destruct (String.eqb_spec k k'); congruence.
  - destruct (String.eqb_spec k0 k) as [->|]; simpl.
    + destruct (String.eqb_spec k k'); congruence.
    + destruct (String.eqb_spec k0 k'); auto.
Qed.

Lemma get_del_neq {V} (d : Py.dict V) k k' :
  k <> k' -> Py.get (Py.del d k) k' = Py.get d k'.
Proof.
  intros N. induction d as [|[k0 v0] d IH]; simpl; auto.
  destruct (String.eqb_spec k0 k) as [->|]; simpl.
  - destruct (String.eqb_spec k k'); congruence.
  - destruct (String.eqb_spec k0 k'); auto.
Qed.

Lemma mem_In x l : Py.mem x l = true <-> In x l.
Proof.
  unfold Py.mem. rewrite existsb_exists. split.
  - intros [y [H E]]. apply String.eqb_eq in E. now subst.
  - intros H. exists x. split; auto. apply String.eqb_refl.
Qed.

Lemma mem_false x l : Py.mem x l = false <-> ~ In x l.
Proof.
  rewrite <- mem_In. destruct (Py.mem x l); split; congruence.
Qed.

(** ** The tank catalog *)

Lemma get_tank_names_instance_vars :
  Tanks.get_tank_names = map fst Tanks.instance_vars.
Proof. reflexivity. Qed.

Lemma getattr_instance_var name tv :
  In (name, tv) Tanks.instance_vars -> Tanks.getattr name = Some (Py.InstanceVar tv).
Proof.
  unfold Tanks.instance_vars. simpl.
  intros H. repeat (destruct H as [H|H]; [inversion H; subst; reflexivity|]).
  contradiction.
Qed.

(** C8, as the code has it.  For each of the nine tanks of the catalog
    [get_tank_value] returns the tank's capability list and volume.  For a
    name that is no attribute of the [Tanks] object it does not fail: it
    logs an error and returns the tank [{"capability": [""], "volume": 0}]. *)
Theorem get_tank_value_catalog_or_default (tank_name : string) :
  (forall tv, In (tank_name, tv) Tanks.instance_vars ->
              Tanks.get_tank_value tank_name = (Py.InstanceVar tv, [])) /\
  (Tanks.getattr tank_name = None ->
   Tanks.get_tank_value tank_name
   = (Py.InstanceVar (Tank.mk [""] 0), [Error_tank_missing tank_name])).
Proof.
  split.
  - intros tv H. unfold Tanks.get_tank_value.
    now rewrite (getattr_instance_var _ _ H).
  - intros H. unfold Tanks.get_tank_value. now rewrite H.
Qed.

Lemma get_tank_value_catalog_or_default_witness :
  Tanks.get_tank_value "r2d2" = (Py.InstanceVar (Tank.mk ["ferm"] 800), []) /\
  Tanks.get_tank_value "zaphod"
  = (Py.InstanceVar (Tank.mk [""] 0), [Error_tank_missing "zaphod"]).
Proof.
  split.
  - apply (proj1 (get_tank_value_catalog_or_default "r2d2")).
    simpl. do 8 right. left. reflexivity.
  - apply (proj2 (get_tank_value_catalog_or_default "zaphod")). reflexivity.
Defined.

(** C8 as stated fails: ["zaphod"] is none of the nine tanks, and the
    lookup returns a tank value, the one without capability and volume. *)
Lemma get_tank_value_unknown_returns_default :
  ~ In "zaphod" Tanks.get_tank_names /\
  fst (Tanks.get_tank_value "zaphod") = Py.InstanceVar (Tank.mk [""] 0).
Proof.
  split; [|reflexivity].
  apply mem_false. reflexivity.
Qed.

(** ** Requests on missing and on finished batches *)

(** C9.  A phase change that names a batch id that is not in [batches]
    ends in the [KeyError] of the lookup [batches[id_input]], raised to the
    caller, and the state is what it was. *)
Theorem change_phase_unknown_id_raises
  (c : config) (now : Calendar.datetime) (id_input phase_input tank_input : string) :
  Py.get (batches c) id_input = None ->
  change_batchs_phase c now (Form.Change_phase id_input phase_input tank_input)
  = (c, Raised (Py.KeyError (Py.Str id_input))).
Proof.
  intros H. unfold change_batchs_phase. now rewrite H.
Qed.

Lemma change_phase_unknown_id_raises_witness :
  change_batchs_phase finished_example (Calendar.mkdt 2019 11 21 0)
                      (Form.Change_phase "b2" "ferm" "albert")
  = (finished_example, Raised (Py.KeyError (Py.Str "b2"))).
Proof.
  apply change_phase_unknown_id_raises. reflexivity.
Defined.

Lemma change_phase_finished_same
  (c : config) (now : Calendar.datetime) (id_input phase_input tank_input : string)
  (b : Batch.t) :
  Py.get (batches c) id_input = Some b ->
  Batch.phase_current b = "finished" ->
  change_batchs_phase c now (Form.Change_phase id_input phase_input tank_input)
  = (c, Returned Page).
Proof.
  intros H F. unfold change_batchs_phase. rewrite H, F. reflexivity.
Qed.


(** ** Crediting the inventory *)

Lemma credited_total_set (d : Py.dict Batch.t) k b b' i :
  Py.get d k = Some b ->
  credited_total (Py.set d k b') i = credited_total d i - credited b i + credited b' i.
Proof.
  unfold credited_total, Py.values.
  induction d as [|[k0 b0] d IH]; simpl; [discriminate|].
  destruct (String.eqb k0 k); simpl.
  - intros [= ->]. lia.
  - intros H. rewrite (IH H). lia.
Qed.

Lemma put_bottles_balance (b : Batch.t) (inv : Inventory.t) (i : Inventory.item) :
  let '(b', inv') := Batch.put_bottles_in_inventory b inv in
  Inventory.num inv' i - credited b' i = Inventory.num inv i - credited b i.
Proof.
  unfold Batch.put_bottles_in_inventory, credited.
  destruct (Batch.bottles_put_in_inventory b) eqn:F; simpl; [now rewrite F|].
  destruct (String.eqb_spec (Batch.beer_type b) "dunkers") as [E|N1];
    [simpl; rewrite E; destruct i, inv; simpl; lia|].
  destruct (String.eqb_spec (Batch.beer_type b) "pilsner") as [E|N2];
    [simpl; rewrite E; destruct i, inv; simpl; lia|].
  destruct (String.eqb_spec (Batch.beer_type b) "red_helles") as [E|N3];
    [simpl; rewrite E; destruct i, inv; simpl; lia|].
  destruct i; simpl;
    match goal with
    | |- context [String.eqb ?x ?y] =>
        destruct (String.eqb_spec x y); [contradiction|lia]
    end.
Qed.

Lemma set_phase_datetimes_balance now (b : Batch.t) (inv : Inventory.t) i :
  let '(b', inv') := Batch.set_phase_start_end_datetimes now b inv in
  Inventory.num inv' i - credited b' i = Inventory.num inv i - credited b i.
Proof.
  unfold Batch.set_phase_start_end_datetimes.
  repeat (match goal with
          | |- context [if String.eqb ?x ?y then _ else _] =>
              destruct (String.eqb x y); [reflexivity|]
          end).
  destruct (String.eqb (Batch.phase_current b) "finished"); [|reflexivity].
  apply (put_bottles_balance (Batch.set_last_completed b "bottling") inv i).
Qed.

(** Every phase-change request keeps, for each inventory item, the
    difference between the count and the bottles of the credited batches. *)
Lemma change_phase_balance (c : config) now f i :
  let c' := fst (change_batchs_phase c now f) in
  Inventory.num (inventory c') i - credited_total (batches c') i
  = Inventory.num (inventory c) i - credited_total (batches c) i.
Proof.
  destruct f as [id_input phase_input tank_input|]; [|reflexivity].
  unfold change_batchs_phase.
  destruct (Py.get (batches c) id_input) as [b|] eqn:G; [|reflexivity].
  destruct (negb (String.eqb (Batch.phase_current b) "finished")); [|reflexivity].
  assert (CH : forall l,
    let c0 := logged c l in
    let '(b', inv') :=
      Batch.set_phase_start_end_datetimes now
        (Batch.set_phase b phase_input tank_input) (inventory c0) in
    Inventory.num inv' i - credited_total (Py.set (batches c0) id_input b') i
    = Inventory.num (inventory c) i - credited_total (batches c) i).
  { intros l. simpl.
    pose proof (set_phase_datetimes_balance now
                  (Batch.set_phase b phase_input tank_input) (inventory c) i) as B.
    destruct (Batch.set_phase_start_end_datetimes now _ (inventory c)) as [b' inv'].
    rewrite (credited_total_set _ _ _ b' i G).
    change (credited (Batch.set_phase b phase_input tank_input) i)
      with (credited b i) in B. lia. }
  destruct (Py.mem phase_input ["hot brewing"; "bottling"; "finished"]
            && String.eqb tank_input "not applicable").
  { specialize (CH []). cbv zeta in CH.
    replace (logged c []) with c in CH
      by (destruct c; unfold logged; simpl; now rewrite app_nil_r).
    destruct (Batch.set_phase_start_end_datetimes now _ (inventory c)) as [b' inv'].
    exact CH. }
  destruct (Py.mem phase_input ["ferm"; "cond"]
            && negb (String.eqb tank_input "not applicable")); [|reflexivity].
  destruct (negb (Py.mem tank_input (available_tanks (batches c) b))); [reflexivity|].
  destruct (Tanks.get_tank_value tank_input) as [tank_value l].
  destruct tank_value as [tv| | |]; try reflexivity.
  destruct (Py.mem phase_input (Tank.capability tv) && (Batch.volume b <=? Tank.volume tv));
    [|reflexivity].
  specialize (CH l). cbv zeta in CH.
  destruct (Batch.set_phase_start_end_datetimes now _ (inventory (logged c l)))
    as [b' inv'].
  exact CH.
Qed.

Lemma run_phases_balance (fs : list (Calendar.datetime * Form.phase_form)) :
  forall (c : config) i,
  Inventory.num (inventory (run_phases c fs)) i
  - credited_total (batches (run_phases c fs)) i
  = Inventory.num (inventory c) i - credited_total (batches c) i.
Proof.
  unfold run_phases.
  induction fs as [|[now f] fs IH]; intros c i; simpl; [reflexivity|].
  rewrite IH. apply change_phase_balance.
Qed.

Lemma set_num_other (inv : Inventory.t) i j n :
  Inventory.num (Inventory.set_num inv i n) j
  = if Inventory.item_eqb j i then n else Inventory.num inv j.
Proof. destruct i, j; reflexivity. Qed.

Lemma first_finish_credits (c : config) now id_input (b : Batch.t) i :
  Py.get (batches c) id_input = Some b ->
  Batch.phase_current b <> "finished" ->
  Batch.bottles_put_in_inventory b = false ->
  Batch.beer_type b = Inventory.item_name i ->
  let c' := fst (change_batchs_phase c now
                   (Form.Change_phase id_input "finished" "not applicable")) in
  (forall j, Inventory.num (inventory c') j
             = Inventory.num (inventory c) j
               + (if Inventory.item_eqb j i then Batch.volume b * 2 else 0)) /\
  exists b', Py.get (batches c') id_input = Some b'
             /\ Batch.phase_current b' = "finished"
             /\ Batch.bottles_put_in_inventory b' = true
             /\ Batch.num_bottles_to_inv b' = Some (Batch.volume b * 2).
Proof.
  intros G NF F BT. unfold change_batchs_phase. rewrite G.
  apply String.eqb_neq in NF. rewrite NF. simpl.
  unfold Batch.set_phase_start_end_datetimes, Batch.put_bottles_in_inventory.
  simpl. rewrite F, BT. simpl.
  destruct i; simpl; (split; [intros j; destruct j, (inventory c); simpl; lia|]);
    rewrite get_set_eq; eexists; (split; [reflexivity|]); simpl; auto.
Qed.

Lemma repeated_finish_no_credit (c : config) now id_input tank_input (b : Batch.t) :
  Py.get (batches c) id_input = Some b ->
  Batch.phase_current b = "finished" \/ Batch.bottles_put_in_inventory b = true ->
  inventory (fst (change_batchs_phase c now
                    (Form.Change_phase id_input "finished" tank_input)))
  = inventory c.
Proof.
  intros G H. unfold change_batchs_phase. rewrite G.
  destruct (String.eqb_spec (Batch.phase_current b) "finished") as [E|N]; [reflexivity|].
  destruct H as [H|F]; [contradiction|]. simpl.
  destruct (String.eqb tank_input "not applicable"); simpl; [|reflexivity].
  unfold Batch.set_phase_start_end_datetimes, Batch.put_bottles_in_inventory.
  simpl. rewrite F. reflexivity.
Qed.

(** ** Dispatching an order *)

Lemma logged_nil (c : config) : logged c [] = c.
Proof. destruct c. unfold logged. simpl. now rewrite app_nil_r. Qed.

Lemma get_inv_items_quantity_item (i : Inventory.item) :
  Inventory.get_inv_items_quantity (Inventory.item_name i)
  = (Py.InstanceVar (Inventory.Shared i), []).
Proof. destruct i; reflexivity. Qed.

(** C3.  Dispatching a registered, not yet dispatched order for [q]
    bottles of an inventory item: when the count is below [q] the handler
    returns the not-enough-bottles message and the whole state, inventory
    and order included, is what it was; when the count is at least [q] the
    handler subtracts [q] from that count and from no other, marks the
    order dispatched, its entry [dispatched] being the string
    [dispatched] afterwards and its other entries what they were, and the
    count left is not negative. *)
Theorem dispatch_order_all_or_nothing
  (c : config) (dispatch_order : string) (o : Order.t) (q : Z) (i : Inventory.item) :
  Py.get (customer_orders c) dispatch_order = Some o ->
  Order.dispatched o <> "dispatched" ->
  Form.int (Order.quantity_ordered o) = Some q ->
  Order.recipe o = Inventory.item_name i ->
  let r := register_dispatch_delete_order c (Form.Dispatch_order dispatch_order) in
  (Inventory.num (inventory c) i < q ->
   r = (c, Returned (Not_enough_bottles (Order.recipe o)))) /\
  (q <= Inventory.num (inventory c) i ->
   snd r = Returned Page /\
   Inventory.num (inventory (fst r)) i = Inventory.num (inventory c) i - q /\
   0 <= Inventory.num (inventory (fst r)) i /\
   (forall j, j <> i ->
              Inventory.num (inventory (fst r)) j = Inventory.num (inventory c) j) /\
   (exists o', Py.get (customer_orders (fst r)) dispatch_order = Some o' /\
               Order.dispatched o' = "dispatched" /\
               Order.invoice_number o' = Order.invoice_number o /\
               Order.customer o' = Order.customer o /\
               Order.date_required o' = Order.date_required o /\
               Order.recipe o' = Order.recipe o /\
               Order.gyle_number o' = Order.gyle_number o /\
               Order.quantity_ordered o' = Order.quantity_ordered o) /\
   (forall k, k <> dispatch_order ->
              Py.get (customer_orders (fst r)) k = Py.get (customer_orders c) k) /\
   batches (fst r) = batches c).
Proof.
  intros G ND Q R r. subst r. unfold register_dispatch_delete_order.
  rewrite G. apply String.eqb_neq in ND. rewrite ND.
  rewrite R, get_inv_items_quantity_item, logged_nil, Q. simpl.
  split; intros H.
  - destruct (Z.leb_spec q (Inventory.num (inventory c) i)); [lia|reflexivity].
  - destruct (Z.leb_spec q (Inventory.num (inventory c) i)); [|lia]. simpl.
    rewrite set_num_other, get_set_eq.
    replace (Inventory.item_eqb i i) with true by (destruct i; reflexivity).
    split; [reflexivity|]. split; [reflexivity|]. split; [lia|].
    split; [|split; [|split; [|reflexivity]]].
    + intros j N. rewrite set_num_other.
      destruct i, j; simpl; try reflexivity; contradiction.
    + eexists. split; [reflexivity|]. simpl. repeat split. exact R.
    + intros k N. apply get_set_neq. congruence.
Qed.

(** With 40 bottles in stock the order for 100 is refused and nothing
    changes; with 140 it is dispatched, 40 are left and the order reads
    [dispatched]. *)
Lemma dispatch_order_all_or_nothing_witness :
  register_dispatch_delete_order (stock_example 40) (Form.Dispatch_order "17")
  = (stock_example 40, Returned (Not_enough_bottles "pilsner")) /\
  Inventory.num (inventory (fst (register_dispatch_delete_order
                                   (stock_example 140) (Form.Dispatch_order "17"))))
                Inventory.pilsner = 140 - 100 /\
  exists o', Py.get (customer_orders (fst (register_dispatch_delete_order
                                             (stock_example 140)
                                             (Form.Dispatch_order "17")))) "17"
             = Some o'
             /\ Order.dispatched o' = "dispatched" /\ Order.customer o' = "Ann".
Proof.
  split.
  - apply (proj1 (dispatch_order_all_or_nothing (stock_example 40) "17" order_example
                    100 Inventory.pilsner eq_refl ltac:(simpl; discriminate)
                    eq_refl eq_refl)).
    simpl. lia.
  - destruct (proj2 (dispatch_order_all_or_nothing (stock_example 140) "17"
                       order_example 100 Inventory.pilsner eq_refl
                       ltac:(simpl; discriminate) eq_refl eq_refl)
                    ltac:(simpl; lia))
      as [_ [N [_ [_ [[o' [G [D [_ [C _]]]]] _]]]]].
    split; [exact N|]. exists o'. split; [exact G|]. split; [exact D|exact C].
Defined.

(** ** Keys and entries of a dictionary *)

Lemma get_In {V} (d : Py.dict V) k v : Py.get d k = Some v -> In (k, v) d.
Proof.
  induction d as [|[k0 v0] d IH]; simpl; [discriminate|].
  destruct (String.eqb_spec k0 k) as [->|].
  - intros [= ->]. now left.
  - intros H. right. auto.
Qed.

Lemma get_None_keys {V} (d : Py.dict V) k : Py.get d k = None <-> ~ In k (Py.keys d).
Proof.
  induction d as [|[k0 v0] d IH]; simpl; [tauto|].
  destruct (String.eqb_spec k0 k) as [->|N].
  - split; [discriminate|]. intros H. exfalso. apply H. now left.
  - rewrite IH. tauto.
Qed.

Lemma In_get {V} (d : Py.dict V) k v :
  NoDup (Py.keys d) -> In (k, v) d -> Py.get d k = Some v.
Proof.
  induction d as [|[k0 v0] d IH]; simpl; [contradiction|].
  intros ND [E|H].
  - inversion E; subst. now rewrite String.eqb_refl.
  - inversion ND as [|? ? NI ND']; subst.
    destruct (String.eqb_spec k0 k) as [->|]; [|auto].
    exfalso. apply NI. change k with (fst (k, v)). now apply in_map.
Qed.

Lemma keys_set_present {V} (d : Py.dict V) k v v' :
  Py.get d k = Some v -> Py.keys (Py.set d k v') = Py.keys d.
Proof.
  unfold Py.keys. induction d as [|[k0 v0] d IH]; simpl; [discriminate|].
  destruct (String.eqb_spec k0 k) as [->|]; simpl; [reflexivity|].
  intros H. now rewrite IH.
Qed.

Lemma set_absent {V} (d : Py.dict V) k v :
  Py.get d k = None -> Py.set d k v = (d ++ [(k, v)])%list.
Proof.
  induction d as [|[k0 v0] d IH]; simpl; [reflexivity|].
  destruct (String.eqb_spec k0 k) as [->|]; [discriminate|].
  intros H. now rewrite IH.
Qed.

Lemma NoDup_keys_set {V} (d : Py.dict V) k v :
  NoDup (Py.keys d) -> NoDup (Py.keys (Py.set d k v)).
Proof.
  intros ND. destruct (Py.get d k) as [v0|] eqn:G.
  - now rewrite (keys_set_present _ _ _ _ G).
  - rewrite (set_absent _ _ _ G). unfold Py.keys. rewrite map_app. simpl.
    apply NoDup_app; auto.
    + repeat constructor. simpl. tauto.
    + intros a Ha [<-|[]]. now apply get_None_keys in G.
Qed.

Lemma keys_del_incl {V} (d : Py.dict V) k x :
  In x (Py.keys (Py.del d k)) -> In x (Py.keys d).
Proof.
  unfold Py.keys. induction d as [|[k0 v0] d IH]; simpl; [tauto|].
  destruct (String.eqb k0 k); simpl; [tauto|]. intros [H|H]; auto.
Qed.

Lemma NoDup_keys_del {V} (d : Py.dict V) k :
  NoDup (Py.keys d) -> NoDup (Py.keys (Py.del d k)).
Proof.
  induction d as [|[k0 v0] d IH]; simpl; [auto|].
  intros ND. inversion ND as [|? ? NI ND']; subst.
  destruct (String.eqb k0 k); simpl; [assumption|].
  constructor; [|now apply IH].
  intros H. apply NI. now apply (keys_del_incl d k).
Qed.

Lemma get_del_eq {V} (d : Py.dict V) k :
  NoDup (Py.keys d) -> Py.get (Py.del d k) k = None.
Proof.
  induction d as [|[k0 v0] d IH]; simpl; [auto|].
  intros ND. inversion ND as [|? ? NI ND']; subst.
  destruct (String.eqb_spec k0 k) as [->|N]; simpl.
  - now apply get_None_keys.
  - destruct (String.eqb_spec k0 k); [contradiction|]. now apply IH.
Qed.

Lemma used_tanks_spec (bs : Py.dict Batch.t) tank :
  NoDup (Py.keys bs) ->
  In tank (used_tanks bs) <->
  tank <> "" /\ exists id_ b, Py.get bs id_ = Some b /\ Batch.phase_current_tank b = tank.
Proof.
  intros ND. unfold used_tanks, Py.values.
  rewrite filter_In, in_map_iff. split.
  - intros [[b [E H]] N]. apply in_map_iff in H. destruct H as [[k b0] [E0 H]].
    simpl in E0. subst b0. split.
    + intros ->. discriminate.
    + exists k, b. split; auto. now apply In_get.
  - intros [N [k [b [G E]]]]. split.
    + exists b. split; auto. apply in_map_iff. exists (k, b). split; auto.
      now apply get_In.
    + destruct (String.eqb_spec tank ""); [contradiction|reflexivity].
Qed.

Lemma In_instance_vars_names tank tv :
  In (tank, tv) Tanks.instance_vars -> In tank Tanks.get_tank_names.
Proof.
  intros H. rewrite get_tank_names_instance_vars.
  change tank with (fst (tank, tv)). now apply in_map.
Qed.

Lemma names_instance_vars tank :
  In tank Tanks.get_tank_names -> exists tv, In (tank, tv) Tanks.instance_vars.
Proof.
  rewrite get_tank_names_instance_vars. intros H. apply in_map_iff in H.
  destruct H as [[n tv] [E H]]. simpl in E. subst. now exists tv.
Qed.

Lemma getattr_InstanceVar_inv tank tv :
  Tanks.getattr tank = Some (Py.InstanceVar tv) -> In (tank, tv) Tanks.instance_vars.
Proof.
  intros G. apply get_In in G. unfold Tanks.dir, Py.inherited in G. simpl in G.
  repeat (destruct G as [G|G];
          [try discriminate G; inversion G; subst; simpl; tauto|]).
  contradiction.
Qed.

(** For a catalog tank, the value [get_tank_value] returns. *)
Lemma get_tank_value_fits tank phase volume :
  tank_fits tank phase volume <->
  match fst (Tanks.get_tank_value tank) with
  | Py.InstanceVar tv =>
      Py.mem phase (Tank.capability tv) && (volume <=? Tank.volume tv) = true
      /\ phase <> ""
  | _ => False
  end.
Proof.
  unfold tank_fits, Tanks.get_tank_value. split.
  - intros [tv [I [C V]]]. rewrite (getattr_instance_var _ _ I). simpl.
    split.
    + apply andb_true_intro. split; [now apply mem_In|now apply Z.leb_le].
    + intros ->. revert I C. unfold Tanks.instance_vars. simpl.
      intros I. repeat (destruct I as [I|I];
        [inversion I; subst; simpl; intuition discriminate|]). contradiction.
  - destruct (Tanks.getattr tank) as [a|] eqn:G; simpl.
    + destruct a as [tv| | |]; try tauto.
      intros [H N]. apply andb_prop in H. destruct H as [C V].
      exists tv. split; [|split; [now apply mem_In|now apply Z.leb_le]].
      now apply getattr_InstanceVar_inv.
    + intros [H N]. apply andb_prop in H. destruct H as [C V].
      simpl in C. rewrite orb_false_r in C. apply String.eqb_eq in C. congruence.
Qed.

(** ** What a phase-change request does *)

Lemma change_phase_spec (c : config) now id_input phase_input tank_input (b : Batch.t) :
  Py.get (batches c) id_input = Some b ->
  Batch.phase_current b <> "finished" ->
  let r := change_batchs_phase c now
             (Form.Change_phase id_input phase_input tank_input) in
  let bi := Batch.set_phase_start_end_datetimes now
              (Batch.set_phase b phase_input tank_input) (inventory c) in
  if changes (batches c) b phase_input tank_input then
    exists l,
      r = (mkconfig (Py.set (batches c) id_input (fst bi)) (customer_orders c)
                    (monthly_sales_forecasts c) (snd bi)
                    (log c ++ l ++ [Info_batch_changed id_input phase_input]),
           Returned Page)
  else
    exists l o, r = (logged c l, o)
                /\ ~ In (Info_batch_changed id_input phase_input) l.
Proof.
  intros G NF. cbv zeta. unfold change_batchs_phase, changes.
  rewrite G. apply String.eqb_neq in NF. rewrite NF. cbn [negb].
  destruct (Py.mem phase_input ["hot brewing"; "bottling"; "finished"]
            && String.eqb tank_input "not applicable").
  { cbn [orb].
    destruct (Batch.set_phase_start_end_datetimes now _ (inventory c)) as [b' inv'].
    exists []. reflexivity. }
  cbn [orb].
  destruct (Py.mem phase_input ["ferm"; "cond"]
            && negb (String.eqb tank_input "not applicable")); cbn [andb].
  2:{ exists [], (Returned Select_right_tank). rewrite logged_nil. auto. }
  destruct (Py.mem tank_input (available_tanks (batches c) b)); cbn [andb negb].
  2:{ eexists [], _. rewrite logged_nil. auto. }
  destruct (Tanks.get_tank_value tank_input) as [tank_value l] eqn:TV.
  assert (L : ~ In (Info_batch_changed id_input phase_input) l).
  { revert TV. unfold Tanks.get_tank_value.
    destruct (Tanks.getattr tank_input); intros [= <- <-]; simpl;
      [tauto|intros [H|[]]; discriminate]. }
  cbn [fst].
  destruct tank_value as [tv| | |]; try (eexists l, _; split; [reflexivity|exact L]).
  destruct (Py.mem phase_input (Tank.capability tv) && (Batch.volume b <=? Tank.volume tv)).
  - change (inventory (logged c l)) with (inventory c).
    destruct (Batch.set_phase_start_end_datetimes now _ (inventory c)) as [b' inv'].
    exists l. unfold logged, with_inventory, with_batches. simpl.
    now rewrite <- app_assoc.
  - eexists l, _; split; [reflexivity|exact L].
Qed.

Lemma accepted_iff_changes (c : config) now id_input phase_input tank_input b :
  Py.get (batches c) id_input = Some b ->
  Batch.phase_current b <> "finished" ->
  accepted c now (Form.Change_phase id_input phase_input tank_input)
  <-> changes (batches c) b phase_input tank_input = true.
Proof.
  intros G NF. pose proof (change_phase_spec c now id_input phase_input tank_input b G NF) as S.
  cbv zeta in S. unfold accepted.
  destruct (changes (batches c) b phase_input tank_input).
  - destruct S as [l ->]. simpl. split; auto. intros _. now exists l.
  - destruct S as [l [o [-> N]]]. simpl. split; [|discriminate].
    intros [l' E]. apply app_inv_head in E. exfalso. apply N. rewrite E.
    apply in_or_app. right. now left.
Qed.

Lemma accepted_not_finished (c : config) now id_input phase_input tank_input :
  accepted c now (Form.Change_phase id_input phase_input tank_input) ->
  exists b, Py.get (batches c) id_input = Some b /\ Batch.phase_current b <> "finished".
Proof.
  unfold accepted, change_batchs_phase.
  destruct (Py.get (batches c) id_input) as [b|].
  - destruct (String.eqb_spec (Batch.phase_current b) "finished") as [E|N].
    + simpl. intros [l E']. rewrite <- (app_nil_r (log c)) in E' at 1.
      apply app_inv_head in E'. destruct l; discriminate.
    + intros _. now exists b.
  - simpl. intros [l E']. rewrite <- (app_nil_r (log c)) in E' at 1.
    apply app_inv_head in E'. destruct l; discriminate.
Qed.

(** ** The invariant of the reachable states *)

Lemma set_phase_datetimes_fields now (b : Batch.t) (inv : Inventory.t) :
  let b' := fst (Batch.set_phase_start_end_datetimes now b inv) in
  Batch.phase_current b' = Batch.phase_current b
  /\ Batch.phase_current_tank b' = Batch.phase_current_tank b
  /\ Batch.volume b' = Batch.volume b
  /\ Batch.beer_type b' = Batch.beer_type b
  /\ (In (Batch.phase_current b) ["hot brewing"; "ferm"; "cond"; "bottling"; "finished"] ->
      Batch.phase_last_completed b' = phase_before (Batch.phase_current b)).
Proof.
  unfold Batch.set_phase_start_end_datetimes, phase_before.
  destruct (String.eqb_spec (Batch.phase_current b) "hot brewing") as [E|N1];
    [rewrite E; simpl; auto 6|].
  destruct (String.eqb_spec (Batch.phase_current b) "ferm") as [E|N2];
    [simpl; auto 6|].
  destruct (String.eqb_spec (Batch.phase_current b) "cond") as [E|N3];
    [simpl; auto 6|].
  destruct (String.eqb_spec (Batch.phase_current b) "bottling") as [E|N4];
    [simpl; auto 6|].
  destruct (String.eqb_spec (Batch.phase_current b) "finished") as [E|N5].
  - unfold Batch.put_bottles_in_inventory.
    destruct (Batch.bottles_put_in_inventory (Batch.set_last_completed b "bottling"));
      simpl; [auto 6|].
    destruct (String.eqb (Batch.beer_type b) "dunkers"); [simpl; auto 6|].
    destruct (String.eqb (Batch.beer_type b) "pilsner"); [simpl; auto 6|].
    destruct (String.eqb (Batch.beer_type b) "red_helles"); simpl; auto 6.
  - simpl. repeat split; auto. intros H.
    repeat (destruct H as [H|H]; [congruence|]). contradiction.
Qed.

Lemma well_formed_set (c c' : config) id_input (b' : Batch.t) :
  well_formed c ->
  batches c' = Py.set (batches c) id_input b' ->
  batch_ok b' ->
  (forall id2 b2, id2 <> id_input -> Py.get (batches c) id2 = Some b2 ->
                  Batch.phase_current_tank b2 = Batch.phase_current_tank b' ->
                  ~ In (Batch.phase_current_tank b') Tanks.get_tank_names) ->
  well_formed c'.
Proof.
  intros [K B T] E OK FR. constructor; rewrite E.
  - now apply NoDup_keys_set.
  - intros k b. destruct (String.eqb_spec id_input k) as [<-|N].
    + rewrite get_set_eq. now intros [= <-].
    + rewrite get_set_neq by assumption. apply B.
  - intros id1 id2 b1 b2.
    destruct (String.eqb_spec id_input id1) as [<-|N1];
      destruct (String.eqb_spec id_input id2) as [E2|N2].
    + congruence.
    + rewrite get_set_eq, get_set_neq by assumption.
      intros [= <-] G2 _ ET. apply (FR id2 b2); auto.
    + subst id2. rewrite get_set_eq, get_set_neq by assumption.
      intros G1 [= <-] _ ET. rewrite ET. apply (FR id1 b1); auto.
    + rewrite !get_set_neq by assumption. apply T.
Qed.

Lemma well_formed_same_batches (c c' : config) :
  well_formed c -> batches c' = batches c -> well_formed c'.
Proof. intros [K B T] E. constructor; rewrite E; assumption. Qed.

Lemma well_formed_initial : well_formed initial_config.
Proof.
  constructor; simpl.
  - constructor.
  - discriminate.
  - discriminate.
Qed.

Lemma batch_ok_init batch_id beer_type volume :
  batch_ok (Batch.init batch_id beer_type volume).
Proof.
  unfold batch_ok. simpl. repeat split; try tauto.
  intros [H|[H|[]]]; discriminate.
Qed.

Lemma well_formed_add_delete_batch (c : config) f :
  well_formed c -> well_formed (fst (add_delete_batch c f)).
Proof.
  intros W. destruct f as [id_input volume_input beer_type_input|delete_batch_input|];
    simpl; [| |assumption].
  - destruct (Form.int volume_input) as [v|]; [|assumption].
    destruct (Py.get (batches c) (Form.remove_blanks id_input)) eqn:G; [assumption|].
    eapply well_formed_set; [exact W|reflexivity|apply batch_ok_init|].
    intros _ _ _ _ _. change (~ In "" Tanks.get_tank_names).
    apply mem_false. reflexivity.
  - destruct (Py.contains (batches c) delete_batch_input); [|assumption].
    destruct W as [K B T]. simpl.
    assert (GD : forall k b, Py.get (Py.del (batches c) delete_batch_input) k = Some b ->
                             Py.get (batches c) k = Some b).
    { intros k b. destruct (String.eqb_spec delete_batch_input k) as [<-|N].
      - now rewrite get_del_eq.
      - now rewrite get_del_neq. }
    constructor; simpl.
    + now apply NoDup_keys_del.
    + intros k b G. apply (B k). auto.
    + intros id1 id2 b1 b2 G1 G2. apply T; auto.
Qed.

Lemma changes_batch_ok (bs : Py.dict Batch.t) (b b' : Batch.t) phase tank :
  changes bs b phase tank = true ->
  Batch.phase_current b' = phase -> Batch.phase_current_tank b' = tank ->
  Batch.volume b' = Batch.volume b ->
  batch_ok b'.
Proof.
  unfold changes, batch_ok. intros C EP ET V. rewrite EP, ET, V.
  apply orb_prop in C. destruct C as [C|C].
  - apply andb_prop in C. destruct C as [P N].
    apply String.eqb_eq in N. apply mem_In in P. rewrite N.
    repeat split.
    + intros [H|[H|[]]]; rewrite <- H in P; simpl in P;
        repeat (destruct P as [P|P]; [discriminate|]); contradiction.
    + intros _. simpl. tauto.
    + simpl in *. tauto.
  - apply andb_prop in C. destruct C as [C F].
    apply andb_prop in C. destruct C as [C A].
    apply andb_prop in C. destruct C as [P N].
    apply mem_In in P.
    assert (TF : tank_fits tank phase (Batch.volume b)).
    { apply get_tank_value_fits.
      destruct (fst (Tanks.get_tank_value tank)); try discriminate.
      split; [assumption|]. intros E. rewrite E in P.
      destruct P as [P|[P|[]]]; discriminate. }
    repeat split; [auto|tauto|simpl in *; tauto].
Qed.

Lemma changes_tank_free (c : config) id_input (b : Batch.t) phase tank :
  well_formed c ->
  Py.get (batches c) id_input = Some b ->
  changes (batches c) b phase tank = true ->
  forall id2 b2, id2 <> id_input -> Py.get (batches c) id2 = Some b2 ->
                 Batch.phase_current_tank b2 = tank ->
                 ~ In tank Tanks.get_tank_names.
Proof.
  intros [K B T] G C id2 b2 N G2 E2. unfold changes in C.
  apply orb_prop in C. destruct C as [C|C].
  - apply andb_prop in C. destruct C as [_ NA]. apply String.eqb_eq in NA.
    rewrite NA. apply mem_false. reflexivity.
  - apply andb_prop in C. destruct C as [C _].
    apply andb_prop in C. destruct C as [_ A].
    apply mem_In in A. unfold available_tanks in A. apply in_app_or in A.
    destruct A as [A|A].
    + unfold unused_tanks in A. apply filter_In in A. destruct A as [I U].
      apply negb_true_iff, mem_false in U. exfalso. apply U.
      apply used_tanks_spec; [assumption|]. split.
      * intros ->. revert I. apply mem_false. reflexivity.
      * now exists id2, b2.
    + destruct (String.eqb_spec (Batch.phase_current_tank b) ""); [destruct A|].
      simpl in A. destruct A as [A|[]]. rewrite <- A.
      apply (T id_input id2 b b2); auto. congruence.
Qed.

Lemma well_formed_change_phase (c : config) now f :
  well_formed c -> well_formed (fst (change_batchs_phase c now f)).
Proof.
  intros W. destruct f as [id_input phase_input tank_input|]; [|assumption].
  destruct (Py.get (batches c) id_input) as [b|] eqn:G.
  2:{ unfold change_batchs_phase. now rewrite G. }
  destruct (String.eqb_spec (Batch.phase_current b) "finished") as [E|NF].
  { unfold change_batchs_phase. rewrite G, E. assumption. }
  pose proof (change_phase_spec c now id_input phase_input tank_input b G NF) as S.
  cbv zeta in S.
  destruct (changes (batches c) b phase_input tank_input) eqn:C.
  - destruct S as [l ->].
    pose proof (set_phase_datetimes_fields now
                  (Batch.set_phase b phase_input tank_input) (inventory c)) as F.
    cbv zeta in F. destruct F as [FP [FT [FV _]]]. simpl in FP, FT, FV.
    eapply well_formed_set; [exact W|reflexivity| |].
    + eapply changes_batch_ok; eauto.
    + intros id2 b2 N2 G2 E2. rewrite FT in E2 |- *.
      exact (changes_tank_free c id_input b phase_input tank_input W G C
               id2 b2 N2 G2 E2).
  - destruct S as [l [o [-> _]]]. eapply well_formed_same_batches; eauto.
Qed.

Lemma batches_register_dispatch_delete_order (c : config) f :
  batches (fst (register_dispatch_delete_order c f)) = batches c.
Proof.
  destruct f as [i cu d r g q|d|d|]; simpl; try reflexivity.
  - destruct d; [|reflexivity].
    destruct (Py.get (customer_orders c) (Form.remove_blanks i)); reflexivity.
  - destruct (Py.get (customer_orders c) d) as [o|]; [|reflexivity].
    destruct (String.eqb (Order.dispatched o) "dispatched"); [reflexivity|].
    destruct (Inventory.get_inv_items_quantity (Order.recipe o)) as [a l].
    destruct (Form.int (Order.quantity_ordered o)); [|reflexivity].
    destruct a; try reflexivity.
    destruct (z <=? _); reflexivity.
  - destruct (Py.contains (customer_orders c) d); reflexivity.
Qed.

Lemma batches_plan_production (c : config) now :
  batches (fst (plan_production c now)) = batches c.
Proof.
  unfold plan_production. destruct (monthly_sales_forecasts c); [reflexivity|].
  destruct (Planner.compute c now) as [[pl|e] l]; reflexivity.
Qed.

Lemma reachable_well_formed (c : config) : reachable c -> well_formed c.
Proof.
  induction 1 as [|c r R IH]; [apply well_formed_initial|].
  destruct r as [f|now f|f|now|fs]; simpl.
  - now apply well_formed_add_delete_batch.
  - now apply well_formed_change_phase.
  - eapply well_formed_same_batches; [exact IH|].
    apply batches_register_dispatch_delete_order.
  - eapply well_formed_same_batches; [exact IH|]. apply batches_plan_production.
  - eapply well_formed_same_batches; [exact IH|reflexivity].
Qed.

Lemma reachable_run (c : config) (rs : list request) :
  reachable c -> reachable (run c rs).
Proof.
  unfold run. revert c. induction rs as [|r rs IH]; intros c R; simpl; [assumption|].
  apply IH. now constructor.
Qed.

(** ** Tanks for fermenting and conditioning *)




(** ** The order of the phases *)

Lemma change_phase_other_batch (c : config) now id_input phase_input tank_input k :
  k <> id_input ->
  Py.get (batches (fst (change_batchs_phase c now
                          (Form.Change_phase id_input phase_input tank_input)))) k
  = Py.get (batches c) k.
Proof.
  intros N.
  destruct (Py.get (batches c) id_input) as [b|] eqn:G.
  2:{ unfold change_batchs_phase. now rewrite G. }
  destruct (String.eqb_spec (Batch.phase_current b) "finished") as [E|NF].
  { unfold change_batchs_phase. now rewrite G, E. }
  pose proof (change_phase_spec c now id_input phase_input tank_input b G NF) as S.
  cbv zeta in S. destruct (changes (batches c) b phase_input tank_input).
  - destruct S as [l ->]. simpl. apply get_set_neq. congruence.
  - destruct S as [l [o [-> _]]]. reflexivity.
Qed.

Lemma finished_stays (fs : list (Calendar.datetime * Form.phase_form)) :
  forall (c : config) id_input (b : Batch.t),
  Py.get (batches c) id_input = Some b ->
  Batch.phase_current b = "finished" ->
  Py.get (batches (run_phases c fs)) id_input = Some b.
Proof.
  unfold run_phases. induction fs as [|[now f] fs IH]; intros c k b G F; simpl; auto.
  apply IH; [|assumption].
  destruct f as [id_input phase_input tank_input|]; [|assumption].
  destruct (String.eqb_spec k id_input) as [->|N].
  - now rewrite (change_phase_finished_same c now id_input phase_input tank_input b G F).
  - now rewrite change_phase_other_batch.
Qed.

(** C2, as the code has it.  The handler does not compare the requested
    phase with the current one.  A batch that is not finished, of a volume
    up to [max_volume], can be moved to [hot brewing], [bottling] or
    [finished] from any phase, at any time of the [clock]; every
    accepted request sets the phase and the tank to the requested ones and
    records as last completed phase the one before the requested phase in
    the fixed order; and [finished] is never left: no sequence of
    phase-change requests changes a finished batch. *)
Theorem phase_change_sets_requested_phase
  (c : config) now id_input phase_input tank_input (b : Batch.t) :
  Py.get (batches c) id_input = Some b ->
  (Batch.phase_current b <> "finished" ->
   0 <= Batch.volume b <= max_volume ->
   clock now ->
   In phase_input ["hot brewing"; "bottling"; "finished"] ->
   accepted c now (Form.Change_phase id_input phase_input "not applicable")) /\
  (accepted c now (Form.Change_phase id_input phase_input tank_input) ->
   Batch.phase_current b <> "finished" /\
   In phase_input ["hot brewing"; "ferm"; "cond"; "bottling"; "finished"] /\
   exists b', Py.get (batches (fst (change_batchs_phase c now
                         (Form.Change_phase id_input phase_input tank_input))))
                     id_input = Some b'
              /\ Batch.phase_current b' = phase_input
              /\ Batch.phase_current_tank b' = tank_input
              /\ Batch.phase_last_completed b' = phase_before phase_input) /\
  (Batch.phase_current b = "finished" ->
   forall fs, Py.get (batches (run_phases c fs)) id_input = Some b).
Proof.
  intros G. split; [|split].
  - intros NF _ _ P. apply (accepted_iff_changes c now _ _ _ b G NF).
    unfold changes. apply mem_In in P. rewrite P. reflexivity.
  - intros A. destruct (accepted_not_finished _ _ _ _ _ A) as [b0 [G0 NF]].
    rewrite G in G0. injection G0 as <-. split; [assumption|].
    pose proof (proj1 (accepted_iff_changes c now _ _ _ b G NF) A) as C.
    pose proof (change_phase_spec c now id_input phase_input tank_input b G NF) as S.
    cbv zeta in S. rewrite C in S. destruct S as [l ->]. simpl.
    assert (P : In phase_input ["hot brewing"; "ferm"; "cond"; "bottling"; "finished"]).
    { unfold changes in C. apply orb_prop in C. destruct C as [C|C].
      - apply andb_prop in C. destruct C as [C _]. apply mem_In in C. simpl in *. tauto.
      - apply andb_prop in C. destruct C as [C _]. apply andb_prop in C.
        destruct C as [C _]. apply andb_prop in C. destruct C as [C _].
        apply mem_In in C. simpl in *. tauto. }
    split; [assumption|]. rewrite get_set_eq. eexists. split; [reflexivity|].
    pose proof (set_phase_datetimes_fields now
                  (Batch.set_phase b phase_input tank_input) (inventory c)) as F.
    cbv zeta in F. destruct F as [FP [FT [_ [_ FL]]]]. simpl in FP, FT, FL. auto.
  - intros F fs. now apply finished_stays.
Qed.

Lemma phase_change_sets_requested_phase_witness :
  accepted added_example (Calendar.mkdt 2019 11 20 0)
           (Form.Change_phase "b1" "bottling" "not applicable") /\
  (forall fs, Py.get (batches (run_phases finished_example fs)) "b1"
              = Py.get (batches finished_example) "b1").
Proof.
  split.
  - apply (proj1 (phase_change_sets_requested_phase added_example
                    (Calendar.mkdt 2019 11 20 0) "b1" "bottling" "not applicable"
                    (Batch.init "b1" "pilsner" 500) eq_refl));
      [simpl; discriminate | unfold max_volume; simpl; lia
       | unfold clock, Calendar.valid; repeat split; vm_compute;
         first [reflexivity | discriminate]
       | simpl; auto].
  - intros fs.
    apply (proj2 (proj2 (phase_change_sets_requested_phase finished_example
                    (Calendar.mkdt 2019 11 20 0) "b1" "bottling" "not applicable"
                    _ eq_refl))).
    reflexivity.
Defined.

(** C2 as stated fails.  The new batch [b1], in no phase yet, is moved
    straight to [finished], four phases skipped; and [b1] in [bottling] is
    moved back to [hot brewing]. *)
Lemma phase_order_not_enforced :
  (reachable added_example /\
   (exists b, Py.get (batches added_example) "b1" = Some b
              /\ Batch.phase_current b = "") /\
   accepted added_example (Calendar.mkdt 2019 11 20 0)
            (Form.Change_phase "b1" "finished" "not applicable") /\
   (exists b', Py.get (batches (fst (change_batchs_phase added_example
                                       (Calendar.mkdt 2019 11 20 0)
                                       (Form.Change_phase "b1" "finished"
                                                          "not applicable"))))
                      "b1" = Some b'
               /\ Batch.phase_current b' = "finished") /\
   ~ one_step "" "finished") /\
  (reachable bottling_example /\
   (exists b, Py.get (batches bottling_example) "b1" = Some b
              /\ Batch.phase_current b = "bottling") /\
   accepted bottling_example (Calendar.mkdt 2019 11 21 0)
            (Form.Change_phase "b1" "hot brewing" "not applicable") /\
   (exists b', Py.get (batches (fst (change_batchs_phase bottling_example
                                       (Calendar.mkdt 2019 11 21 0)
                                       (Form.Change_phase "b1" "hot brewing"
                                                          "not applicable"))))
                      "b1" = Some b'
               /\ Batch.phase_current b' = "hot brewing") /\
   ~ one_step "bottling" "hot brewing").
Proof.
  split; (split; [apply reachable_run; constructor|]);
    (split; [eexists; split; reflexivity|]);
    (split; [exists []; reflexivity|]);
    (split; [eexists; split; reflexivity|]);
    unfold one_step; simpl; intros H;
    repeat (destruct H as [H|H]; [discriminate|]); contradiction.
Qed.

(** ** Crediting the inventory, over sequences of requests *)

Lemma set_phase_datetimes_flag now (b : Batch.t) (inv : Inventory.t) :
  Batch.bottles_put_in_inventory b = true ->
  Batch.bottles_put_in_inventory (fst (Batch.set_phase_start_end_datetimes now b inv))
  = true.
Proof.
  intros F. unfold Batch.set_phase_start_end_datetimes.
  repeat match goal with
         | |- context [if String.eqb ?x ?y then _ else _] =>
             destruct (String.eqb x y); [exact F|]
         end.
  destruct (String.eqb (Batch.phase_current b) "finished"); [|exact F].
  unfold Batch.put_bottles_in_inventory. simpl. rewrite F. exact F.
Qed.

Lemma change_phase_keeps_batch (c : config) now f k (b : Batch.t) :
  Py.get (batches c) k = Some b ->
  exists b', Py.get (batches (fst (change_batchs_phase c now f))) k = Some b'
             /\ Batch.volume b' = Batch.volume b
             /\ Batch.beer_type b' = Batch.beer_type b
             /\ (Batch.bottles_put_in_inventory b = true ->
                 Batch.bottles_put_in_inventory b' = true).
Proof.
  intros G. destruct f as [id_input phase_input tank_input|]; [|exists b; auto].
  destruct (String.eqb_spec k id_input) as [->|N].
  2:{ rewrite change_phase_other_batch by assumption. exists b. auto. }
  destruct (String.eqb_spec (Batch.phase_current b) "finished") as [E|NF].
  { rewrite (change_phase_finished_same c now id_input phase_input tank_input b G E).
    exists b. auto. }
  pose proof (change_phase_spec c now id_input phase_input tank_input b G NF) as S.
  cbv zeta in S. destruct (changes (batches c) b phase_input tank_input).
  - destruct S as [l ->]. simpl. rewrite get_set_eq. eexists. split; [reflexivity|].
    pose proof (set_phase_datetimes_fields now
                  (Batch.set_phase b phase_input tank_input) (inventory c)) as F.
    cbv zeta in F. destruct F as [_ [_ [FV [FB _]]]]. simpl in FV, FB.
    repeat split; auto. intros FL.
    now apply set_phase_datetimes_flag.
  - destruct S as [l [o [-> _]]]. exists b. auto.
Qed.

Lemma run_phases_keeps_batch (fs : list (Calendar.datetime * Form.phase_form)) :
  forall (c : config) k (b : Batch.t),
  Py.get (batches c) k = Some b ->
  exists b', Py.get (batches (run_phases c fs)) k = Some b'
             /\ Batch.volume b' = Batch.volume b
             /\ Batch.beer_type b' = Batch.beer_type b
             /\ (Batch.bottles_put_in_inventory b = true ->
                 Batch.bottles_put_in_inventory b' = true).
Proof.
  unfold run_phases. induction fs as [|[now f] fs IH]; intros c k b G; simpl.
  - exists b. auto.
  - destruct (change_phase_keeps_batch c now f k b G) as [b1 [G1 [V1 [B1 F1]]]].
    destruct (IH _ k b1 G1) as [b2 [G2 [V2 [B2 F2]]]].
    exists b2. repeat split; try congruence. auto.
Qed.

(** C1.  Finishing a batch credits the inventory once.  The first change
    of a batch to [finished] adds [volume * 2] to the count of its beer
    type, to no other count, and sets [bottles_put_in_inventory]; a further
    request to finish it leaves the inventory as it is; over any sequence
    of phase-change requests each count stays equal to its start value plus
    the bottles of the batches credited meanwhile, each counted once by its
    flag; and over such a sequence a batch keeps its volume and beer type
    and, once credited, its flag. *)
Theorem finished_credits_exactly_once :
  (forall (c : config) now id_input (b : Batch.t) i,
     Py.get (batches c) id_input = Some b ->
     Batch.phase_current b <> "finished" ->
     Batch.bottles_put_in_inventory b = false ->
     Batch.beer_type b = Inventory.item_name i ->
     let c' := fst (change_batchs_phase c now
                      (Form.Change_phase id_input "finished" "not applicable")) in
     (forall j, Inventory.num (inventory c') j
                = Inventory.num (inventory c) j
                  + (if Inventory.item_eqb j i then Batch.volume b * 2 else 0)) /\
     exists b', Py.get (batches c') id_input = Some b'
                /\ Batch.phase_current b' = "finished"
                /\ Batch.bottles_put_in_inventory b' = true
                /\ Batch.num_bottles_to_inv b' = Some (Batch.volume b * 2)) /\
  (forall (c : config) now id_input tank_input (b : Batch.t),
     Py.get (batches c) id_input = Some b ->
     Batch.phase_current b = "finished" \/ Batch.bottles_put_in_inventory b = true ->
     inventory (fst (change_batchs_phase c now
                       (Form.Change_phase id_input "finished" tank_input)))
     = inventory c) /\
  (forall (c : config) fs i,
     Inventory.num (inventory (run_phases c fs)) i
     = Inventory.num (inventory c) i
       + (credited_total (batches (run_phases c fs)) i - credited_total (batches c) i)) /\
  (forall (c : config) fs id_input (b : Batch.t),
     Py.get (batches c) id_input = Some b ->
     exists b', Py.get (batches (run_phases c fs)) id_input = Some b'
                /\ Batch.volume b' = Batch.volume b
                /\ Batch.beer_type b' = Batch.beer_type b
                /\ (Batch.bottles_put_in_inventory b = true ->
                    Batch.bottles_put_in_inventory b' = true)).
Proof.
  split; [|split; [|split]].
  - exact first_finish_credits.
  - exact repeated_finish_no_credit.
  - intros c fs i. pose proof (run_phases_balance fs c i). lia.
  - intros c fs. apply run_phases_keeps_batch.
Qed.

Lemma finished_credits_exactly_once_witness :
  (let c' := fst (change_batchs_phase added_example (Calendar.mkdt 2019 11 20 0)
                    (Form.Change_phase "b1" "finished" "not applicable")) in
   (forall j, Inventory.num (inventory c') j
              = Inventory.num (inventory added_example) j
                + (if Inventory.item_eqb j Inventory.pilsner then 500 * 2 else 0)) /\
   exists b', Py.get (batches c') "b1" = Some b'
              /\ Batch.phase_current b' = "finished"
              /\ Batch.bottles_put_in_inventory b' = true
              /\ Batch.num_bottles_to_inv b' = Some (500 * 2)) /\
  inventory (fst (change_batchs_phase finished_example (Calendar.mkdt 2019 11 21 0)
                    (Form.Change_phase "b1" "finished" "not applicable")))
  = inventory finished_example.
Proof.
  split.
  - apply (proj1 finished_credits_exactly_once added_example
             (Calendar.mkdt 2019 11 20 0) "b1" (Batch.init "b1" "pilsner" 500)
             Inventory.pilsner);
      [reflexivity | simpl; discriminate | reflexivity | reflexivity].
  - eapply (proj1 (proj2 finished_credits_exactly_once) finished_example);
      [reflexivity | left; reflexivity].
Defined.

(** ** The planner: the stages of a run that ends in a plan *)

Lemma bind_inl_inv {A B} (m : Py.M A) (f : A -> Py.M B) b l :
  Py.bind m f = (inl b, l) ->
  exists a l1 l2, m = (inl a, l1) /\ f a = (inl b, l2) /\ l = (l1 ++ l2)%list.
Proof.
  unfold Py.bind. destruct m as [[a|e] l1]; [|discriminate].
  destruct (f a) as [r l2] eqn:F. intros [= -> <-]. now exists a, l1, l2.
Qed.

Lemma ret_inl_inv {A} (a b : A) l : Py.ret a = (inl b, l) -> a = b /\ l = [].
Proof. unfold Py.ret. now intros [= -> <-]. Qed.

Lemma compute_stages (c : config) now (p : plan) l :
  Planner.compute c now = (inl p, l) ->
  exists t0 l0 l1 l2 l3 l5,
    Py.for_each (Py.values (batches c)) (Planner.project_batch now) Planner.zero_table
    = (inl t0, l0) /\
    Planner.add_inventory (inventory c) t0 = (inl (three_month_end_inv p), l1) /\
    Py.for_each (monthly_sales_forecasts c)
                (Planner.forecast_beer (Planner.forecast_keys now)) Planner.zero_table
    = (inl (three_month_forecast p), l2) /\
    Planner.differences (three_month_end_inv p) (three_month_forecast p)
    = (inl (diff_3months_forecast_actual p), l3) /\
    Py.min_by_value (diff_3months_forecast_actual p) = Some (produce_beer p) /\
    Planner.capable (unused_tanks (batches c)) = (inl (capable_tanks p), l5) /\
    match Py.max_by_value (capable_tanks p) with
    | Some t => use_tank p = t /\ Py.get (capable_tanks p) t = Some (use_tank_volume p)
    | None => use_tank p = Planner.no_tank_available /\ use_tank_volume p = 0
    end.
Proof.
  unfold Planner.compute. intros H.
  apply bind_inl_inv in H. destruct H as [t0 [l0 [l0' [H0 [H _]]]]].
  apply bind_inl_inv in H. destruct H as [t1 [l1 [l1' [H1 [H _]]]]].
  apply bind_inl_inv in H. destruct H as [fc [l2 [l2' [H2 [H _]]]]].
  apply bind_inl_inv in H. destruct H as [diff [l3 [l3' [H3 [H _]]]]].
  apply bind_inl_inv in H. destruct H as [beer [l4 [l4' [H4 [H _]]]]].
  apply bind_inl_inv in H. destruct H as [ct [l5 [l5' [H5 [H _]]]]].
  apply bind_inl_inv in H. destruct H as [tank [l6 [l6' [H6 [H _]]]]].
  apply ret_inl_inv in H. destruct H as [<- _]. simpl.
  exists t0, l0, l1, l2, l3, l5. repeat (split; [assumption|]).
  split.
  { destruct (Py.min_by_value diff); [|discriminate].
    apply ret_inl_inv in H4. destruct H4 as [-> _]. reflexivity. }
  split; [assumption|].
  destruct (Py.max_by_value ct) as [t|].
  - apply bind_inl_inv in H6. destruct H6 as [v [l7 [l7' [H6 [H _]]]]].
    apply ret_inl_inv in H. destruct H as [<- _]. simpl. split; [reflexivity|].
    unfold Py.item in H6. destruct (Py.get ct t); [|discriminate].
    apply ret_inl_inv in H6. destruct H6 as [-> _]. reflexivity.
  - apply ret_inl_inv in H6. destruct H6 as [<- _]. auto.
Qed.

Lemma plan_page_inv (c c' : config) now (p : plan) :
  plan_production c now = (c', Returned (Plan_page p)) ->
  exists l, Planner.compute c now = (inl p, l).
Proof.
  unfold plan_production. destruct (monthly_sales_forecasts c); [discriminate|].
  destruct (Planner.compute c now) as [[p'|e] l]; intros [= _ <-]. now exists l.
Qed.

(** ** The planner: the tables keep their three beer types *)

Lemma for_each_invariant {A S} (P : S -> Prop) (body : S -> A -> Py.M S) :
  (forall s a s' l, body s a = (inl s', l) -> P s -> P s') ->
  forall xs s s' l, Py.for_each xs body s = (inl s', l) -> P s -> P s'.
Proof.
  intros B xs. induction xs as [|a xs IH]; intros s s' l H Ps; simpl in H.
  - apply ret_inl_inv in H. destruct H as [<- _]. assumption.
  - apply bind_inl_inv in H. destruct H as [s1 [l1 [l2 [H1 [H2 _]]]]].
    eapply IH; [exact H2|]. eapply B; eauto.
Qed.

Lemma table_add_keys tbl beer_type index v tbl' l :
  Planner.table_add tbl beer_type index v = (inl tbl', l) ->
  Py.keys tbl' = Py.keys tbl.
Proof.
  unfold Planner.table_add, Py.item. intros H.
  destruct (Py.get tbl beer_type) as [t|] eqn:G; [|discriminate].
  simpl in H. injection H as <- _. now apply keys_set_present with t.
Qed.

Lemma table_put_keys tbl beer_type index v tbl' l :
  Planner.table_put tbl beer_type index v = (inl tbl', l) ->
  Py.keys tbl' = Py.keys tbl.
Proof.
  unfold Planner.table_put, Py.item. intros H.
  destruct (Py.get tbl beer_type) as [t|] eqn:G; [|discriminate].
  simpl in H. injection H as <- _. now apply keys_set_present with t.
Qed.

Lemma month_round_keys batch e st index st' l :
  Planner.month_round batch e st index = (inl st', l) ->
  Py.keys (snd st') = Py.keys (snd st).
Proof.
  unfold Planner.month_round. destruct st as [incre_month tbl]. intros H.
  apply bind_inl_inv in H. destruct H as [tbl' [l1 [l2 [H1 [H2 _]]]]].
  apply ret_inl_inv in H2. destruct H2 as [<- _]. simpl.
  repeat (match type of H1 with
          | (if ?b then _ else _) = _ =>
              destruct b; [now apply table_add_keys in H1|]
          end).
  apply ret_inl_inv in H1. destruct H1 as [<- _]. reflexivity.
Qed.

Lemma project_batch_keys now tbl batch tbl' l :
  Planner.project_batch now tbl batch = (inl tbl', l) ->
  Py.keys tbl' = Py.keys tbl.
Proof.
  unfold Planner.project_batch.
  destruct (Batch.bottles_put_in_inventory batch).
  - intros H. apply ret_inl_inv in H. destruct H as [<- _]. reflexivity.
  - intros H. apply bind_inl_inv in H. destruct H as [st [l1 [l2 [H1 [H2 _]]]]].
    apply ret_inl_inv in H2. destruct H2 as [<- _].
    apply (for_each_invariant (fun st => Py.keys (snd st) = Py.keys tbl)) in H1;
      [assumption| |reflexivity].
    intros s a s' l' B Ps. apply month_round_keys in B. cbv beta in *. exact (eq_trans B Ps).
Qed.

Lemma add_inventory_keys inv tbl tbl' l :
  Planner.add_inventory inv tbl = (inl tbl', l) -> Py.keys tbl' = Py.keys tbl.
Proof.
  unfold Planner.add_inventory. intros H.
  apply (for_each_invariant (fun t => Py.keys t = Py.keys tbl)) in H;
    [assumption| |reflexivity].
  intros s a s' l' B Ps.
  destruct (Inventory.get_inv_items_quantity a) as [q lq].
  apply bind_inl_inv in B. destruct B as [u [l1 [l2 [_ [B _]]]]].
  destruct q; try discriminate. apply table_add_keys in B. cbv beta in *. exact (eq_trans B Ps).
Qed.

Lemma try_assign_keys xs : forall tbl beer_type index tbl' l,
  Planner.try_assign tbl beer_type index xs = (inl tbl', l) ->
  Py.keys tbl' = Py.keys tbl.
Proof.
  induction xs as [|x xs IH]; intros tbl beer_type index tbl' l H; simpl in H.
  - apply ret_inl_inv in H. destruct H as [<- _]. reflexivity.
  - destruct (Forecast.int x) as [v|[k| | |]]; try discriminate.
    + apply bind_inl_inv in H. destruct H as [t1 [l1 [l2 [H1 [H2 _]]]]].
      apply IH in H2. apply table_put_keys in H1. congruence.
    + injection H as <- _. reflexivity.
Qed.

Lemma forecast_beer_keys keys tbl entry tbl' l :
  Planner.forecast_beer keys tbl entry = (inl tbl', l) ->
  Py.keys tbl' = Py.keys tbl.
Proof.
  unfold Planner.forecast_beer. destruct entry as [beer_type f].
  destruct keys as [[k1 k2] k3]. intros H.
  apply bind_inl_inv in H. destruct H as [f1 [la [la' [_ [H _]]]]].
  apply bind_inl_inv in H. destruct H as [f2 [lb [lb' [_ [H _]]]]].
  apply bind_inl_inv in H. destruct H as [f3 [lc [lc' [_ [H _]]]]].
  now apply try_assign_keys in H.
Qed.

Lemma plan_tables_keys (c : config) now (p : plan) l :
  Planner.compute c now = (inl p, l) ->
  Py.keys (three_month_end_inv p) = ["dunkers"; "pilsner"; "red_helles"] /\
  Py.keys (three_month_forecast p) = ["dunkers"; "pilsner"; "red_helles"].
Proof.
  intros H. apply compute_stages in H.
  destruct H as [t0 [l0 [l1 [l2 [l3 [l5 [H0 [H1 [H2 _]]]]]]]]].
  split.
  - apply add_inventory_keys in H1. rewrite H1.
    apply (for_each_invariant
             (fun t => Py.keys t = ["dunkers"; "pilsner"; "red_helles"])) in H0;
      [assumption| |reflexivity].
    intros s a s' l' B Ps. apply project_batch_keys in B. cbv beta in *. exact (eq_trans B Ps).
  - apply (for_each_invariant
             (fun t => Py.keys t = ["dunkers"; "pilsner"; "red_helles"])) in H2;
      [assumption| |reflexivity].
    intros s a s' l' B Ps. apply forecast_beer_keys in B. cbv beta in *. exact (eq_trans B Ps).
Qed.

(** ** The planner: the beer to produce *)

Lemma keys3_inv {V} (d : Py.dict V) a b c :
  Py.keys d = [a; b; c] -> exists x y z, d = [(a, x); (b, y); (c, z)].
Proof.
  unfold Py.keys.
  destruct d as [|[k1 x] [|[k2 y] [|[k3 z] [|? ?]]]]; simpl; try discriminate.
  intros [= -> -> ->]. now exists x, y, z.
Qed.

(** C5.  Whenever the planner returns a plan, the beer it recommends is
    one of the three beer types, its deficit (the sum of its three buckets
    of projected inventory minus the sum of its three forecast buckets) is
    the least of the three deficits, and among beer types of equal deficit
    it is the first in the fixed order dunkers, pilsner, red_helles.  In
    particular projected totals of 10, 40 and 5 against forecast totals of
    50, 30 and 20 give dunkers. *)
Theorem planner_recommends_largest_deficit (c c' : config) now (p : plan) :
  plan_production c now = (c', Returned (Plan_page p)) ->
  (exists i d,
     produce_beer p = Inventory.item_name i /\ deficit p i = Some d /\
     forall j, exists d',
       deficit p j = Some d' /\ d <= d' /\ (d' = d -> (beer_rank i <= beer_rank j)%nat)) /\
  (bucket_total (three_month_end_inv p) Inventory.dunkers = Some 10 ->
   bucket_total (three_month_end_inv p) Inventory.pilsner = Some 40 ->
   bucket_total (three_month_end_inv p) Inventory.red_helles = Some 5 ->
   bucket_total (three_month_forecast p) Inventory.dunkers = Some 50 ->
   bucket_total (three_month_forecast p) Inventory.pilsner = Some 30 ->
   bucket_total (three_month_forecast p) Inventory.red_helles = Some 20 ->
   produce_beer p = "dunkers").
Proof.
  intros H. apply plan_page_inv in H. destruct H as [l H].
  destruct (plan_tables_keys c now p l H) as [KI KF].
  apply compute_stages in H.
  destruct H as [t0 [l0 [l1 [l2 [l3 [l5 [_ [_ [_ [HD [HM _]]]]]]]]]]].
  apply keys3_inv in KI, KF.
  destruct KI as [i1 [i2 [i3 KI]]]. destruct KF as [f1 [f2 [f3 KF]]].
  unfold deficit, bucket_total. rewrite KI, KF in *.
  unfold Planner.differences in HD. simpl in HD. injection HD as HD _.
  rewrite <- HD in HM. unfold Py.min_by_value, Planner.total in HM. simpl in HM.
  injection HM as HM.
  set (d1 := this_month i1 + next_month i1 + third_month i1
             - (this_month f1 + next_month f1 + third_month f1)) in *.
  set (d2 := this_month i2 + next_month i2 + third_month i2
             - (this_month f2 + next_month f2 + third_month f2)) in *.
  set (d3 := this_month i3 + next_month i3 + third_month i3
             - (this_month f3 + next_month f3 + third_month f3)) in *.
  assert (HM' : produce_beer p
                = if d2 <? d1
                  then (if d3 <? d2 then "red_helles" else "pilsner")
                  else (if d3 <? d1 then "red_helles" else "dunkers")).
  { rewrite <- HM. subst d1 d2 d3.
    repeat match goal with
           | |- context [?a <? ?b] => destruct (Z.ltb_spec a b)
           end; try reflexivity; lia. }
  clear HM. split.
  - destruct (Z.ltb_spec d2 d1) as [L21|L21].
    + destruct (Z.ltb_spec d3 d2) as [L32|L32].
      * exists Inventory.red_helles, d3. repeat split; auto.
        intros [ | | ]; simpl; eexists; (split; [reflexivity|]); split; lia.
      * exists Inventory.pilsner, d2. repeat split; auto.
        intros [ | | ]; simpl; eexists; (split; [reflexivity|]); split; lia.
    + destruct (Z.ltb_spec d3 d1) as [L31|L31].
      * exists Inventory.red_helles, d3. repeat split; auto.
        intros [ | | ]; simpl; eexists; (split; [reflexivity|]); split; lia.
      * exists Inventory.dunkers, d1. repeat split; auto.
        intros [ | | ]; simpl; eexists; (split; [reflexivity|]); split; lia.
  - simpl. intros [= A1] [= A2] [= A3] [= B1] [= B2] [= B3]. rewrite HM'.
    destruct (Z.ltb_spec d2 d1); [lia|]. destruct (Z.ltb_spec d3 d1); [lia|reflexivity].
Qed.

Lemma planner_recommends_largest_deficit_witness :
  exists c' p,
    plan_production scenario_example (Calendar.mkdt 2019 11 20 0)
    = (c', Returned (Plan_page p))
    /\ produce_beer p = "dunkers"
    /\ deficit p Inventory.dunkers = Some (-40)
    /\ deficit p Inventory.pilsner = Some 10
    /\ deficit p Inventory.red_helles = Some (-15).
Proof.
  eexists. eexists. split; [vm_compute; reflexivity|].
  split; [|repeat split; vm_compute; reflexivity].
  apply (proj2 (planner_recommends_largest_deficit scenario_example _
                  (Calendar.mkdt 2019 11 20 0) _ ltac:(vm_compute; reflexivity)));
    vm_compute; reflexivity.
Defined.

(** ** The planner: the tank to use *)

Lemma capable_for_each (xs : list string) : forall acc : Py.dict Z,
  (forall t, In t xs -> In t Tanks.get_tank_names) ->
  NoDup xs ->
  (forall t, In t xs -> ~ In t (Py.keys acc)) ->
  Py.for_each xs
    (fun capable_tanks tank_name =>
       let '(tank_value, l) := Tanks.get_tank_value tank_name in
       _ <- Py.tell l ;;
       match tank_value with
       | Py.InstanceVar tv =>
           if Py.mem "ferm" (Tank.capability tv)
           then Py.ret (Py.set capable_tanks tank_name (Tank.volume tv))
           else Py.ret capable_tanks
       | Py.InstanceDict => Py.raise (Py.KeyError (Py.Str "capability"))
       | Py.Callable | Py.OtherData => Py.raise Py.TypeError
       end) acc
  = (inl (acc ++ capable_entries xs)%list, []).
Proof.
  induction xs as [|t xs IH]; intros acc IN ND DJ; simpl.
  - now rewrite app_nil_r.
  - destruct (names_instance_vars t (IN t (or_introl eq_refl))) as [tv I].
    unfold Tanks.get_tank_value. rewrite (getattr_instance_var _ _ I). simpl.
    inversion ND as [|? ? NI ND']; subst.
    destruct (Py.mem "ferm" (Tank.capability tv)); simpl.
    + rewrite IH; auto.
      * rewrite set_absent by (apply get_None_keys; apply DJ; now left).
        now rewrite <- app_assoc.
      * intros t' H. apply IN. now right.
      * intros t' H. rewrite set_absent by (apply get_None_keys; apply DJ; now left).
        unfold Py.keys. rewrite map_app, in_app_iff. simpl.
        intros [K|[K|[]]]; [apply (DJ t'); [now right|exact K]|congruence].
    + rewrite IH; auto.
      * intros t' H. apply IN. now right.
      * intros t' H. apply DJ. now right.
Qed.

Lemma capable_unused (bs : Py.dict Batch.t) :
  Planner.capable (unused_tanks bs) = (inl (capable_entries (unused_tanks bs)), []).
Proof.
  unfold Planner.capable. rewrite capable_for_each; [reflexivity| | |].
  - intros t H. unfold unused_tanks in H. now apply filter_In in H.
  - unfold unused_tanks. apply NoDup_filter.
    repeat (constructor; [apply mem_false; reflexivity|]). constructor.
  - intros t _ [].
Qed.

Lemma capable_entries_In (xs : list string) t v :
  In (t, v) (capable_entries xs) <-> In t xs /\ fermenter t /\ v = capacity t.
Proof.
  unfold capable_entries, fermenter, capacity. rewrite in_flat_map. split.
  - intros [x [X H]]. destruct (Tanks.getattr x) as [[tv| | |]|] eqn:G;
      try contradiction.
    destruct (Py.mem "ferm" (Tank.capability tv)) eqn:F; [|contradiction].
    destruct H as [[= -> <-]|[]]. rewrite G. split; [assumption|]. split; [|reflexivity].
    exists tv. split; [now apply getattr_InstanceVar_inv|now apply mem_In].
  - intros [X [[tv [I F]] ->]]. exists t. split; [assumption|].
    rewrite (getattr_instance_var _ _ I). apply mem_In in F. rewrite F. now left.
Qed.

Lemma capable_entries_keys (xs : list string) :
  Py.keys (capable_entries xs)
  = filter (fun t => match Tanks.getattr t with
                     | Some (Py.InstanceVar tv) => Py.mem "ferm" (Tank.capability tv)
                     | _ => false
                     end) xs.
Proof.
  unfold Py.keys. induction xs as [|t xs IH]; simpl; [reflexivity|].
  rewrite map_app, IH.
  destruct (Tanks.getattr t) as [[tv| | |]|]; try reflexivity.
  destruct (Py.mem "ferm" (Tank.capability tv)); reflexivity.
Qed.

Lemma max_from_first (d : Py.dict Z) : forall best vbest,
  exists v l1 l2,
    ((best, vbest) :: d = l1 ++ (Py.max_from best vbest d, v) :: l2)%list
    /\ (forall k' v', In (k', v') l1 -> v' < v)
    /\ (forall k' v', In (k', v') l2 -> v' <= v).
Proof.
  induction d as [|[k v] d IH]; intros best vbest; simpl.
  - exists vbest, [], []. repeat split; simpl; tauto.
  - destruct (Z.ltb_spec vbest v) as [L|L].
    + destruct (IH k v) as [v0 [l1 [l2 [E [H1 H2]]]]].
      exists v0, ((best, vbest) :: l1), l2. split; [simpl; f_equal; exact E|].
      split; [|assumption]. intros k' v' [[= <- <-]|H]; [|eauto].
      assert (v <= v0); [|lia].
      destruct l1 as [|[k1 v1] l1]; simpl in E.
      * injection E as _ <-. lia.
      * injection E as <- <- _. apply Z.lt_le_incl. apply (H1 k v). now left.
    + destruct (IH best vbest) as [v0 [l1 [l2 [E [H1 H2]]]]].
      destruct l1 as [|[k1 v1] l1]; simpl in E.
      * injection E as E0 <- <-. exists vbest, [], ((k, v) :: d). rewrite <- E0.
        split; [reflexivity|]. split; [simpl; tauto|].
        intros k' v' [[= <- <-]|H]; [lia|eauto].
      * injection E as <- <- E.
        exists v0, ((best, vbest) :: (k, v) :: l1), l2.
        split; [simpl; do 2 f_equal; exact E|]. split; [|assumption].
        intros k' v' [[= <- <-]|[[= <- <-]|H]].
        -- apply (H1 best vbest). now left.
        -- assert (vbest < v0) by (apply (H1 best vbest); now left). lia.
        -- apply (H1 k' v'). now right.
Qed.

Lemma get_tank_names_sorted :
  StronglySorted (fun x y => String.leb x y = true) Tanks.get_tank_names.
Proof.
  repeat (constructor; [|repeat (constructor; [reflexivity|]); constructor]).
  constructor.
Qed.

Lemma StronglySorted_filter {A} (R : A -> A -> Prop) (f : A -> bool) l :
  StronglySorted R l -> StronglySorted R (filter f l).
Proof.
  induction 1 as [|a l S IH F]; simpl; [constructor|].
  destruct (f a); [|assumption]. constructor; [assumption|].
  apply Forall_forall. intros x X. apply filter_In in X.
  rewrite Forall_forall in F. now apply F.
Qed.

Lemma StronglySorted_after {A} (R : A -> A -> Prop) (l1 l2 : list A) x :
  StronglySorted R (l1 ++ x :: l2) -> Forall (R x) l2.
Proof.
  induction l1 as [|a l1 IH]; simpl; intros S; inversion S; subst; auto.
Qed.

Lemma unused_iff_not_occupied (c : config) t :
  well_formed c -> In t Tanks.get_tank_names ->
  In t (unused_tanks (batches c)) <-> ~ occupied c t.
Proof.
  intros W IN. unfold unused_tanks. rewrite filter_In, negb_true_iff, mem_false.
  rewrite (used_tanks_spec _ _ (wf_keys _ W)). unfold occupied. split.
  - intros [_ NU] [k [b [G [_ E]]]]. apply NU. split.
    + intros ->. revert IN. apply mem_false. reflexivity.
    + now exists k, b.
  - intros NO. split; [assumption|]. intros [_ [k [b [G E]]]].
    destruct (String.eqb_spec (Batch.phase_current b) "finished") as [F|NF].
    + destruct (wf_batch _ W k b G) as [_ [OK _]]. rewrite F, E in OK.
      assert (X : In t [""; "not applicable"]).
      { apply OK. intros [H|[H|[]]]; discriminate. }
      destruct X as [<-|[<-|[]]]; revert IN; apply mem_false; reflexivity.
    + apply NO. now exists k, b.
Qed.

Lemma capable_keys_candidate (c : config) t :
  well_formed c ->
  In t (Py.keys (capable_entries (unused_tanks (batches c)))) <-> candidate c t.
Proof.
  intros W. unfold Py.keys. rewrite in_map_iff. unfold candidate. split.
  - intros [[t' v] [E H]]. simpl in E. subst t'.
    apply capable_entries_In in H. destruct H as [U [F _]]. split; [assumption|].
    destruct F as [tv [I _]].
    apply (proj1 (unused_iff_not_occupied c t W (In_instance_vars_names t tv I))).
    exact U.
  - intros [F NO]. exists (t, capacity t). split; [reflexivity|].
    apply capable_entries_In. split; [|split; [exact F|reflexivity]].
    destruct F as [tv [I _]].
    apply (proj2 (unused_iff_not_occupied c t W (In_instance_vars_names t tv I))).
    exact NO.
Qed.

(** C10.  In a reachable state, whenever the planner returns a plan: the
    tanks it considers are exactly the fermenters of the catalog that no
    active batch occupies; if there is one, it recommends one of them of
    the largest volume, the first by name among those of that volume, and
    reports its volume; if there is none, it reports in place of a tank the
    text ['currently no tank with right capability available'], which is
    the name of no tank, and the volume 0. *)
Theorem planner_selects_largest_free_fermenter (c c' : config) now (p : plan) :
  reachable c ->
  plan_production c now = (c', Returned (Plan_page p)) ->
  (forall t, In t (Py.keys (capable_tanks p)) <-> candidate c t) /\
  ((exists t, candidate c t) ->
   candidate c (use_tank p) /\
   use_tank_volume p = capacity (use_tank p) /\
   forall t, candidate c t ->
             capacity t <= capacity (use_tank p) /\
             (capacity t = capacity (use_tank p) ->
              String.leb (use_tank p) t = true)) /\
  (~ (exists t, candidate c t) ->
   use_tank p = "'currently no tank with right capability available'" /\
   use_tank_volume p = 0 /\
   ~ In (use_tank p) Tanks.get_tank_names).
Proof.
  intros R H. apply reachable_well_formed in R.
  apply plan_page_inv in H. destruct H as [l H]. apply compute_stages in H.
  destruct H as [t0 [l0 [l1 [l2 [l3 [l5 [_ [_ [_ [_ [_ [HC HT]]]]]]]]]]]].
  rewrite capable_unused in HC. injection HC as HC _.
  assert (K : forall t, In t (Py.keys (capable_tanks p)) <-> candidate c t).
  { intros t. rewrite <- HC. now apply capable_keys_candidate. }
  split; [exact K|].
  remember (capable_tanks p) as ct eqn:CT. clear CT.
  destruct ct as [|[k v] d].
  - (* no capable tank *)
    unfold Py.max_by_value in HT. destruct HT as [HU HV]. split.
    + intros [t C]. apply K in C. destruct C.
    + intros _. rewrite HU. split; [reflexivity|]. split; [assumption|].
      apply mem_false. reflexivity.
  - unfold Py.max_by_value in HT. destruct HT as [HU HV]. split.
    2:{ intros NC. exfalso. apply NC. exists k. apply K. now left. }
    intros _.
    destruct (max_from_first d k v) as [v0 [d1 [d2 [E [H1 H2]]]]].
    rewrite <- HU in E, HV.
    assert (IU : In (use_tank p, v0) (capable_entries (unused_tanks (batches c)))).
    { rewrite HC, E. apply in_elt. }
    apply capable_entries_In in IU. destruct IU as [_ [_ V0]].
    split.
    { apply K. rewrite E. unfold Py.keys. rewrite map_app. simpl.
      apply in_or_app. right. now left. }
    split.
    { apply get_In in HV. rewrite <- HC in HV.
      apply capable_entries_In in HV. tauto. }
    intros t' C'. apply K in C'. unfold Py.keys in C'. apply in_map_iff in C'.
    destruct C' as [[t'' v'] [Et I']]. simpl in Et. subst t''.
    assert (V' : v' = capacity t').
    { rewrite <- HC in I'. apply capable_entries_In in I'. tauto. }
    rewrite E in I'. apply in_app_or in I'. rewrite <- V0, <- V'.
    assert (S : StronglySorted (fun x y => String.leb x y = true)
                               (map fst d1 ++ use_tank p :: map fst d2)).
    { assert (KS : Py.keys (capable_entries (unused_tanks (batches c)))
                   = (map fst d1 ++ use_tank p :: map fst d2)%list).
      { rewrite HC, E. unfold Py.keys. now rewrite map_app. }
      rewrite <- KS, capable_entries_keys. unfold unused_tanks.
      apply StronglySorted_filter, StronglySorted_filter, get_tank_names_sorted. }
    apply StronglySorted_after in S. rewrite Forall_forall in S.
    destruct I' as [I'|[I'|I']].
    + apply H1 in I'. split; [lia|]. intros; lia.
    + injection I' as <- <-. split; [lia|]. intros _.
      destruct (String.leb_total (use_tank p) (use_tank p)); assumption.
    + split; [now apply (H2 t')|]. intros _. apply S.
      change t' with (fst (t', v')). now apply in_map.
Qed.

(** In [planning_example] tank [albert] is occupied; of the free
    fermenters of 1000 litres, [camilla] comes first by name.  In
    [no_fermenter_example] every fermenter holds a batch, and the plan names
    the text in place of a tank. *)
Lemma planner_selects_largest_free_fermenter_witness :
  (exists c' p,
     plan_production planning_example (Calendar.mkdt 2019 11 21 0)
     = (c', Returned (Plan_page p))
     /\ use_tank p = "camilla" /\ use_tank_volume p = 1000
     /\ (forall t, In t (Py.keys (capable_tanks p)) <-> candidate planning_example t)) /\
  (exists c' p,
     plan_production no_fermenter_example (Calendar.mkdt 2019 11 21 0)
     = (c', Returned (Plan_page p))
     /\ capable_tanks p = []
     /\ use_tank p = "'currently no tank with right capability available'"
     /\ use_tank_volume p = 0).
Proof.
  split.
  - eexists. eexists. split; [vm_compute; reflexivity|].
    split; [vm_compute; reflexivity|]. split; [vm_compute; reflexivity|].
    apply (proj1 (planner_selects_largest_free_fermenter planning_example _
                    (Calendar.mkdt 2019 11 21 0) _
                    ltac:(apply reachable_run; apply reachable_run; constructor)
                    ltac:(vm_compute; reflexivity))).
  - assert (E : exists c' p,
               plan_production no_fermenter_example (Calendar.mkdt 2019 11 21 0)
               = (c', Returned (Plan_page p)) /\ capable_tanks p = []).
    { eexists. eexists. split; vm_compute; reflexivity. }
    destruct E as [c' [p [E CT]]]. exists c', p.
    split; [exact E|]. split; [exact CT|].
    destruct (planner_selects_largest_free_fermenter no_fermenter_example c'
                (Calendar.mkdt 2019 11 21 0) p
                ltac:(apply reachable_run; constructor) E) as [K [_ N]].
    assert (NC : ~ (exists t, candidate no_fermenter_example t)).
    { intros [t C]. apply K in C. rewrite CT in C. destruct C. }
    destruct (N NC) as [U [V _]]. split; assumption.
Defined.

(** ** The planner: the monthly buckets *)

Lemma month_get_set (t : three_months) idx i v :
  (idx < 3)%nat -> (i < 3)%nat ->
  Planner.month_get (Planner.month_set t idx v) i
  = if Nat.eqb idx i then v else Planner.month_get t i.
Proof.
  intros Hx Hi.
  destruct idx as [|[|[|idx]]]; destruct i as [|[|[|i]]]; try lia; reflexivity.
Qed.

Lemma table_add_effect tbl k idx v tbl' l :
  Planner.table_add tbl k idx v = (inl tbl', l) ->
  (idx < 3)%nat ->
  forall beer i t, (i < 3)%nat -> Py.get tbl beer = Some t ->
  exists t', Py.get tbl' beer = Some t'
             /\ Planner.month_get t' i
                = Planner.month_get t i
                  + (if String.eqb k beer && Nat.eqb idx i then v else 0).
Proof.
  unfold Planner.table_add, Py.item. intros H Hx beer i t Hi G.
  destruct (Py.get tbl k) as [tk|] eqn:GK; [|discriminate].
  simpl in H. injection H as <- _.
  destruct (String.eqb_spec k beer) as [->|N].
  - rewrite get_set_eq. eexists. split; [reflexivity|].
    rewrite month_get_set by assumption. rewrite G in GK. injection GK as <-.
    simpl. destruct (Nat.eqb_spec idx i) as [->|]; lia.
  - rewrite get_set_neq by assumption. exists t. split; [assumption|]. simpl. lia.
Qed.

Lemma ends_chain (batch : Batch.t) (m : Z) :
  let e := Planner.projected_ends batch in
  (if Planner.ends_in (Planner.end_phase4 e) m then true
   else if Planner.ends_in (Planner.end_phase3_4 e) m then true
   else if Planner.ends_in (Planner.end_phase2_4 e) m then true
   else Planner.ends_in (Planner.end_phase1_4 e) m)
  = Planner.ends_in (projected_finish batch) m.
Proof.
  unfold projected_finish, Planner.projected_ends.
  destruct (Batch.time_end_phase4 batch); simpl.
  { destruct (_ =? m); reflexivity. }
  destruct (Batch.time_end_phase3 batch); simpl.
  { destruct (_ =? m); reflexivity. }
  destruct (Batch.time_end_phase2 batch); simpl.
  { destruct (_ =? m); reflexivity. }
  destruct (Batch.time_end_phase1 batch); reflexivity.
Qed.

Lemma month_round_effect batch m tbl idx m' tbl' l :
  Planner.month_round batch (Planner.projected_ends batch) (m, tbl) idx
  = (inl (m', tbl'), l) ->
  (idx < 3)%nat ->
  m' = (if m + 1 =? 13 then 1 else m + 1) /\
  forall beer i t, (i < 3)%nat -> Py.get tbl beer = Some t ->
  exists t', Py.get tbl' beer = Some t'
             /\ Planner.month_get t' i
                = Planner.month_get t i
                  + (if String.eqb (Batch.beer_type batch) beer && Nat.eqb idx i
                        && Planner.ends_in (projected_finish batch) m
                     then Batch.volume batch * 2 else 0).
Proof.
  unfold Planner.month_round. intros H Hx.
  apply bind_inl_inv in H. destruct H as [tbl1 [l1 [l2 [H1 [H2 _]]]]].
  apply ret_inl_inv in H2. destruct H2 as [[= <- <-] _]. split; [reflexivity|].
  intros beer i t Hi G. rewrite <- (ends_chain batch m). cbv zeta.
  destruct (Planner.ends_in (Planner.end_phase4 _) m);
    [rewrite andb_true_r; eapply table_add_effect; eauto|].
  destruct (Planner.ends_in (Planner.end_phase3_4 _) m);
    [rewrite andb_true_r; eapply table_add_effect; eauto|].
  destruct (Planner.ends_in (Planner.end_phase2_4 _) m);
    [rewrite andb_true_r; eapply table_add_effect; eauto|].
  destruct (Planner.ends_in (Planner.end_phase1_4 _) m);
    [rewrite andb_true_r; eapply table_add_effect; eauto|].
  apply ret_inl_inv in H1. destruct H1 as [<- _].
  exists t. split; [assumption|]. rewrite andb_false_r. lia.
Qed.

Lemma bucket_month_steps (m : Z) :
  1 <= m <= 12 ->
  let step m := if m + 1 =? 13 then 1 else m + 1 in
  bucket_month m 0 = m /\ bucket_month m 1 = step m
  /\ bucket_month m 2 = step (step m).
Proof.
  intros H. assert (C : m = 1 \/ m = 2 \/ m = 3 \/ m = 4 \/ m = 5 \/ m = 6 \/ m = 7
                        \/ m = 8 \/ m = 9 \/ m = 10 \/ m = 11 \/ m = 12) by lia.
  repeat (destruct C as [->|C]; [repeat split; reflexivity|]).
  subst. repeat split; reflexivity.
Qed.

Lemma project_batch_effect now tbl batch tbl' l :
  Planner.project_batch now tbl batch = (inl tbl', l) ->
  1 <= Calendar.month now <= 12 ->
  forall beer i t, (i < 3)%nat -> Py.get tbl beer = Some t ->
  exists t', Py.get tbl' beer = Some t'
             /\ Planner.month_get t' i
                = Planner.month_get t i + contribution now batch beer i.
Proof.
  unfold Planner.project_batch, contribution. intros H M beer i t Hi G.
  destruct (Batch.bottles_put_in_inventory batch).
  { apply ret_inl_inv in H. destruct H as [<- _]. exists t. split; [assumption|].
    simpl. lia. }
  apply bind_inl_inv in H. destruct H as [[m3 t3] [l1 [l2 [H [H' _]]]]].
  apply ret_inl_inv in H'. destruct H' as [<- _]. simpl in H.
  apply bind_inl_inv in H. destruct H as [[m1 t1] [la [la' [R0 [H _]]]]].
  apply bind_inl_inv in H. destruct H as [[m2 t2] [lb [lb' [R1 [H _]]]]].
  apply bind_inl_inv in H. destruct H as [[m3' t3'] [lc [lc' [R2 [H _]]]]].
  apply ret_inl_inv in H. destruct H as [[= -> ->] _].
  apply month_round_effect in R0; [|lia]. destruct R0 as [-> E0].
  apply month_round_effect in R1; [|lia]. destruct R1 as [-> E1].
  apply month_round_effect in R2; [|lia]. destruct R2 as [_ E2].
  destruct (E0 beer i t Hi G) as [ta [Ga Va]].
  destruct (E1 beer i ta Hi Ga) as [tb [Gb Vb]].
  destruct (E2 beer i tb Hi Gb) as [tc [Gc Vc]].
  exists tc. split; [assumption|]. rewrite Vc, Vb, Va.
  destruct (bucket_month_steps (Calendar.month now) M) as [B0 [B1 B2]].
  cbv zeta in B1, B2. cbn [negb andb].
  destruct (String.eqb (Batch.beer_type batch) beer); cbn [andb]; [|lia].
  destruct i as [|[|[|i]]]; try lia; cbn [Nat.eqb andb];
    rewrite ?B0, ?B1, ?B2;
    repeat match goal with
           | |- context [if Planner.ends_in ?a ?b then _ else _] =>
               destruct (Planner.ends_in a b)
           end; lia.
Qed.

Lemma project_batches_effect now (bs : list Batch.t) : forall tbl tbl' l,
  Py.for_each bs (Planner.project_batch now) tbl = (inl tbl', l) ->
  1 <= Calendar.month now <= 12 ->
  forall beer i t, (i < 3)%nat -> Py.get tbl beer = Some t ->
  exists t', Py.get tbl' beer = Some t'
             /\ Planner.month_get t' i
                = Planner.month_get t i
                  + fold_right Z.add 0 (map (fun b => contribution now b beer i) bs).
Proof.
  induction bs as [|b bs IH]; intros tbl tbl' l H M beer i t Hi G; simpl in H.
  - apply ret_inl_inv in H. destruct H as [<- _]. exists t. split; [assumption|].
    simpl. lia.
  - apply bind_inl_inv in H. destruct H as [tbl1 [l1 [l2 [H1 [H2 _]]]]].
    destruct (project_batch_effect now tbl b tbl1 l1 H1 M beer i t Hi G)
      as [t1 [G1 V1]].
    destruct (IH tbl1 tbl' l2 H2 M beer i t1 Hi G1) as [t' [G' V']].
    exists t'. split; [assumption|]. simpl. lia.
Qed.

Lemma add_inventory_effect (inv : Inventory.t) (tbl tbl' : Planner.table) l :
  Planner.add_inventory inv tbl = (inl tbl', l) ->
  Py.keys tbl = ["dunkers"; "pilsner"; "red_helles"] ->
  forall j i t, (i < 3)%nat -> Py.get tbl (Inventory.item_name j) = Some t ->
  exists t', Py.get tbl' (Inventory.item_name j) = Some t'
             /\ Planner.month_get t' i
                = Planner.month_get t i
                  + (if Nat.eqb i 0 then Inventory.num inv j else 0).
Proof.
  intros H K j i t Hi G. apply keys3_inv in K. destruct K as [x [y [z ->]]].
  unfold Planner.add_inventory in H. simpl in H. injection H as <- _.
  destruct j; simpl in G; injection G as <-; simpl;
    eexists; (split; [reflexivity|]);
    destruct i as [|[|[|i]]]; try lia; simpl; lia.
Qed.

(** The buckets of projected inventory in a plan: bucket [i] of a beer
    type holds the bottles of the batches that contribute to it and, for
    the first bucket, the bottles in stock. *)
Lemma plan_buckets (c c' : config) now (p : plan) :
  plan_production c now = (c', Returned (Plan_page p)) ->
  1 <= Calendar.month now <= 12 ->
  forall j i, (i < 3)%nat ->
  exists t, Py.get (three_month_end_inv p) (Inventory.item_name j) = Some t
            /\ Planner.month_get t i
               = (if Nat.eqb i 0 then Inventory.num (inventory c) j else 0)
                 + contributions now (batches c) (Inventory.item_name j) i.
Proof.
  intros H M j i Hi. apply plan_page_inv in H. destruct H as [l H].
  apply compute_stages in H.
  destruct H as [t0 [l0 [l1 [l2 [l3 [l5 [H0 [H1 _]]]]]]]].
  assert (G0 : Py.get Planner.zero_table (Inventory.item_name j) = Some (mk3 0 0 0))
    by (destruct j; reflexivity).
  destruct (project_batches_effect now _ _ _ _ H0 M _ i _ Hi G0) as [ta [Ga Va]].
  assert (K0 : Py.keys t0 = ["dunkers"; "pilsner"; "red_helles"]).
  { apply (for_each_invariant
             (fun t => Py.keys t = ["dunkers"; "pilsner"; "red_helles"])) in H0;
      [assumption| |reflexivity].
    intros s a s' l' B Ps. apply project_batch_keys in B. cbv beta in *.
    exact (eq_trans B Ps). }
  destruct (add_inventory_effect _ _ _ _ H1 K0 j i ta Hi Ga) as [tb [Gb Vb]].
  exists tb. split; [assumption|]. rewrite Vb, Va. unfold contributions.
  destruct i as [|[|[|i]]]; try lia; simpl; lia.
Qed.

(** ** The planner: the dates of the forecast *)

Lemma days_in_month_bounds (y m : Z) : 28 <= Calendar.days_in_month y m <= 31.
Proof.
  unfold Calendar.days_in_month.
  destruct (m =? 2); [destruct (Calendar.isleap y); lia|].
  destruct ((m =? 4) || (m =? 6) || (m =? 9) || (m =? 11)); lia.
Qed.

Lemma carry_one_month (fuel : nat) (y m d : Z) :
  1 <= d <= 28 ->
  Calendar.carry (S (S fuel)) y m (d + Calendar.days_in_month y m)
  = (Calendar.next_month y m, d).
Proof.
  intros D. pose proof (days_in_month_bounds y m) as B.
  cbn [Calendar.carry].
  destruct (Z.ltb_spec (d + Calendar.days_in_month y m) 1); [lia|].
  destruct (Z.ltb_spec (Calendar.days_in_month y m) (d + Calendar.days_in_month y m));
    [|lia].
  destruct (Calendar.next_month y m) as [y' m'].
  pose proof (days_in_month_bounds y' m') as B'.
  replace (d + Calendar.days_in_month y m - Calendar.days_in_month y m) with d by lia.
  destruct (Z.ltb_spec d 1); [lia|].
  destruct (Z.ltb_spec (Calendar.days_in_month y' m') d); [lia|]. reflexivity.
Qed.

Lemma add_month_length (dt : Calendar.datetime) :
  1 <= Calendar.day dt <= 28 ->
  0 <= Calendar.tod dt < Calendar.us_per_day ->
  Calendar.add dt (Calendar.days (Calendar.days_in_month (Calendar.year dt)
                                                         (Calendar.month dt)))
  = Calendar.mkdt (fst (Calendar.next_month (Calendar.year dt) (Calendar.month dt)))
                  (snd (Calendar.next_month (Calendar.year dt) (Calendar.month dt)))
                  (Calendar.day dt) (Calendar.tod dt).
Proof.
  intros D T. unfold Calendar.add, Calendar.days.
  pose proof (days_in_month_bounds (Calendar.year dt) (Calendar.month dt)) as B.
  set (n := Calendar.days_in_month (Calendar.year dt) (Calendar.month dt)) in *.
  assert (U : 0 < Calendar.us_per_day) by (unfold Calendar.us_per_day; lia).
  rewrite Z.div_add by lia. rewrite Z.mod_add by lia.
  rewrite Z.div_small, Z.mod_small by assumption. simpl (0 + n).
  destruct (Z.to_nat (Z.abs n)) as [|[|fuel]] eqn:F; try lia.
  subst n. rewrite carry_one_month by assumption.
  destruct (Calendar.next_month _ _). reflexivity.
Qed.

Lemma forecast_keys_next_months (now : Calendar.datetime) :
  1 <= Calendar.day now <= 28 ->
  0 <= Calendar.tod now < Calendar.us_per_day ->
  let '(y1, m1) := Calendar.next_month (Calendar.year now) (Calendar.month now) in
  let '(y2, m2) := Calendar.next_month y1 m1 in
  Planner.forecast_keys now
  = (Calendar.first_of_month (Calendar.year now) (Calendar.month now),
     Calendar.first_of_month y1 m1, Calendar.first_of_month y2 m2).
Proof.
  intros D T. unfold Planner.forecast_keys.
  rewrite (add_month_length now D T).
  destruct (Calendar.next_month (Calendar.year now) (Calendar.month now)) as [y1 m1].
  cbn [fst snd Calendar.year Calendar.month].
  pose proof (add_month_length (Calendar.mkdt y1 m1 (Calendar.day now)
                                              (Calendar.tod now)) D T) as A.
  cbn [Calendar.year Calendar.month Calendar.day Calendar.tod] in A. rewrite A.
  destruct (Calendar.next_month y1 m1) as [y2 m2]. reflexivity.
Qed.

(** C6, as the code has it.  The three buckets are those of the month
    numbers [m], [m + 1], [m + 2] counted from the current month [m], with
    12 followed by 1.  Whenever the planner returns a plan, bucket [i] of a
    beer type holds, besides the stock in the first bucket, [volume * 2]
    bottles for each batch of that type, not yet credited, whose projected
    finish has the month number of the bucket; the year of the finish is
    not compared.  The first date of the forecast is the first day of the
    current month, and when the current day of the month is at most 28 the
    second and third are the first days of the two months that follow, the
    year going up after month 12. *)
Theorem planner_month_windows (c c' : config) now (p : plan) :
  plan_production c now = (c', Returned (Plan_page p)) ->
  1 <= Calendar.month now <= 12 ->
  (forall i, (i < 3)%nat ->
     1 <= bucket_month (Calendar.month now) i <= 12 /\
     (Calendar.month now + Z.of_nat i <= 12 ->
      bucket_month (Calendar.month now) i = Calendar.month now + Z.of_nat i) /\
     (12 < Calendar.month now + Z.of_nat i ->
      bucket_month (Calendar.month now) i = Calendar.month now + Z.of_nat i - 12)) /\
  (forall j i, (i < 3)%nat ->
     exists t, Py.get (three_month_end_inv p) (Inventory.item_name j) = Some t
               /\ Planner.month_get t i
                  = (if Nat.eqb i 0 then Inventory.num (inventory c) j else 0)
                    + contributions now (batches c) (Inventory.item_name j) i) /\
  fst (fst (Planner.forecast_keys now))
  = Calendar.first_of_month (Calendar.year now) (Calendar.month now) /\
  (1 <= Calendar.day now <= 28 ->
   0 <= Calendar.tod now < Calendar.us_per_day ->
   let '(y1, m1) := Calendar.next_month (Calendar.year now) (Calendar.month now) in
   let '(y2, m2) := Calendar.next_month y1 m1 in
   Planner.forecast_keys now
   = (Calendar.first_of_month (Calendar.year now) (Calendar.month now),
      Calendar.first_of_month y1 m1, Calendar.first_of_month y2 m2)).
Proof.
  intros H M. split; [|split; [|split; [reflexivity|]]].
  - intros i Hi. unfold bucket_month.
    assert (I : Z.of_nat i = 0 \/ Z.of_nat i = 1 \/ Z.of_nat i = 2) by lia.
    set (m := Calendar.month now) in *.
    assert (C : m = 1 \/ m = 2 \/ m = 3 \/ m = 4 \/ m = 5 \/ m = 6 \/ m = 7
                \/ m = 8 \/ m = 9 \/ m = 10 \/ m = 11 \/ m = 12) by lia.
    clearbody m.
    destruct I as [I|[I|I]]; rewrite I;
      repeat (destruct C as [C|C]; [rewrite C; simpl; lia|]); rewrite C; simpl; lia.
  - now apply (plan_buckets c c' now p H M).
  - apply forecast_keys_next_months.
Qed.

(** In [planning_example] on 21 November 2019, batch [b1], fermenting
    since the day before, is projected to finish on 1 January 2020 and so
    counts in the third bucket, that of month 1. *)
Lemma planner_month_windows_witness :
  exists c' p,
    plan_production planning_example (Calendar.mkdt 2019 11 21 0)
    = (c', Returned (Plan_page p))
    /\ bucket_month 11 2 = 11 + 2 - 12
    /\ (exists t, Py.get (three_month_end_inv p) "pilsner" = Some t
                  /\ Planner.month_get t 2
                     = 0 + contributions (Calendar.mkdt 2019 11 21 0)
                                         (batches planning_example) "pilsner" 2
                  /\ Planner.month_get t 2 = 1000)
    /\ Planner.forecast_keys (Calendar.mkdt 2019 11 21 0)
       = (Calendar.mkdt 2019 11 1 0, Calendar.mkdt 2019 12 1 0,
          Calendar.mkdt 2020 1 1 0).
Proof.
  eexists. eexists. split; [vm_compute; reflexivity|].
  pose proof (planner_month_windows planning_example _ (Calendar.mkdt 2019 11 21 0) _
                ltac:(vm_compute; reflexivity) ltac:(simpl; lia)) as [W1 [W2 [_ W3]]].
  split; [|split].
  - apply (W1 2%nat); simpl; lia.
  - destruct (W2 Inventory.pilsner 2%nat ltac:(lia)) as [t [G V]].
    exists t. split; [exact G|]. split; [exact V|].
    vm_compute in G. injection G as <-. reflexivity.
  - apply W3; simpl; unfold Calendar.us_per_day; lia.
Defined.

(** C6 as stated fails on both counts.  On 31 January 2019 the date of the
    second month is 1 March, February being skipped.  And in
    [stale_example] on 20 November 2019 the batch [b1], whose bottling
    ended on 25 November 2018, a year earlier, is counted with 1000 bottles
    in the bucket of the current month. *)
Lemma planner_windows_skip_month_and_ignore_year :
  Planner.forecast_keys (Calendar.mkdt 2019 1 31 0)
  = (Calendar.mkdt 2019 1 1 0, Calendar.mkdt 2019 3 1 0, Calendar.mkdt 2019 4 1 0)
  /\
  exists c' p b,
    plan_production stale_example (Calendar.mkdt 2019 11 20 0)
    = (c', Returned (Plan_page p))
    /\ Py.get (batches stale_example) "b1" = Some b
    /\ projected_finish b = Some (Calendar.mkdt 2018 11 25 60000000000)
    /\ Inventory.num (inventory stale_example) Inventory.pilsner = 0
    /\ Py.get (three_month_end_inv p) "pilsner" = Some (mk3 1000 0 0).
Proof.
  split; [vm_compute; reflexivity|].
  eexists. eexists. eexists.
  split; [vm_compute; reflexivity|]. split; [vm_compute; reflexivity|].
  repeat split; vm_compute; reflexivity.
Qed.


(** ** The calendar: sums of dates and durations are dates *)

Lemma next_month_range (y m : Z) :
  1 <= m <= 12 -> 1 <= snd (Calendar.next_month y m) <= 12.
Proof.
  intros M. unfold Calendar.next_month.
  destruct (Z.eqb_spec m 12); simpl; lia.
Qed.

Lemma prev_month_range (y m : Z) :
  1 <= m <= 12 -> 1 <= snd (Calendar.prev_month y m) <= 12.
Proof.
  intros M. unfold Calendar.prev_month.
  destruct (Z.eqb_spec m 1); simpl; lia.
Qed.

(** With a round of fuel for every 28 days out of range, [carry] ends on
    a day of the month it ends in. *)
Lemma carry_in_range (fuel : nat) : forall y m d,
  1 <= m <= 12 ->
  1 - 28 * Z.of_nat fuel <= d ->
  (d <= Calendar.days_in_month y m \/ d <= 28 * (Z.of_nat fuel + 1)) ->
  let '(y', m', d') := Calendar.carry fuel y m d in
  1 <= m' <= 12 /\ 1 <= d' <= Calendar.days_in_month y' m'.
Proof.
  induction fuel as [|fuel IH]; intros y m d M L U.
  - simpl. pose proof (days_in_month_bounds y m). lia.
  - cbn [Calendar.carry]. pose proof (days_in_month_bounds y m) as B.
    destruct (Z.ltb_spec d 1) as [D|D].
    + pose proof (prev_month_range y m M) as PM.
      destruct (Calendar.prev_month y m) as [y' m']. simpl in PM.
      pose proof (days_in_month_bounds y' m') as B'.
      apply IH; [assumption|lia|left; lia].
    + destruct (Z.ltb_spec (Calendar.days_in_month y m) d) as [D'|D'].
      * pose proof (next_month_range y m M) as NM.
        destruct (Calendar.next_month y m) as [y' m']. simpl in NM.
        apply IH; [assumption|lia|right; lia].
      * lia.
Qed.

(** [dt + td] is a date and time of the calendar whenever [dt] is. *)
Lemma add_valid (dt : Calendar.datetime) (td : Calendar.timedelta) :
  Calendar.valid dt -> Calendar.valid (Calendar.add dt td).
Proof.
  unfold Calendar.valid, Calendar.add. intros [M [D T]].
  assert (U : 0 < Calendar.us_per_day) by (unfold Calendar.us_per_day; lia).
  set (dd := (Calendar.tod dt + td) / Calendar.us_per_day).
  pose proof (carry_in_range (Z.to_nat (Z.abs dd)) (Calendar.year dt)
                (Calendar.month dt) (Calendar.day dt + dd) M) as C.
  pose proof (days_in_month_bounds (Calendar.year dt) (Calendar.month dt)) as B.
  destruct (Calendar.carry _ _ _ _) as [[y' m'] d'].
  simpl. destruct C as [M' D']; [lia|lia|].
  repeat split; try lia; apply Z.mod_pos_bound; assumption.
Qed.


(** ** The planner returns a plan *)

Lemma for_each_total {A S} (P : S -> Prop) (body : S -> A -> Py.M S) (xs : list A) :
  (forall s a, In a xs -> P s -> exists s' l, body s a = (inl s', l) /\ P s') ->
  forall s, P s -> exists s' l, Py.for_each xs body s = (inl s', l) /\ P s'.
Proof.
  induction xs as [|a xs IH]; intros B s Ps; simpl.
  - exists s, []. auto.
  - destruct (B s a (or_introl eq_refl) Ps) as [s1 [l1 [E1 P1]]].
    destruct (IH (fun s a H => B s a (or_intror H)) s1 P1) as [s2 [l2 [E2 P2]]].
    rewrite E1. simpl. rewrite E2. eauto.
Qed.

Lemma known_beer_get {V} (tbl : Py.dict V) k :
  Py.keys tbl = ["dunkers"; "pilsner"; "red_helles"] -> known_beer k ->
  exists t, Py.get tbl k = Some t.
Proof.
  intros K H. destruct (Py.get tbl k) as [t|] eqn:G; [now exists t|].
  apply get_None_keys in G. rewrite K in G. contradiction.
Qed.

Lemma table_add_total tbl k idx v :
  Py.keys tbl = ["dunkers"; "pilsner"; "red_helles"] -> known_beer k ->
  exists tbl', Planner.table_add tbl k idx v = (inl tbl', [])
               /\ Py.keys tbl' = ["dunkers"; "pilsner"; "red_helles"].
Proof.
  intros K H. destruct (known_beer_get tbl k K H) as [t G].
  unfold Planner.table_add, Py.item. rewrite G. simpl. eexists. split; [reflexivity|].
  now rewrite (keys_set_present _ _ _ _ G).
Qed.

Lemma table_put_total tbl k idx v :
  Py.keys tbl = ["dunkers"; "pilsner"; "red_helles"] -> known_beer k ->
  exists tbl', Planner.table_put tbl k idx v = (inl tbl', [])
               /\ Py.keys tbl' = ["dunkers"; "pilsner"; "red_helles"].
Proof.
  intros K H. destruct (known_beer_get tbl k K H) as [t G].
  unfold Planner.table_put, Py.item. rewrite G. simpl. eexists. split; [reflexivity|].
  now rewrite (keys_set_present _ _ _ _ G).
Qed.

Lemma month_round_total batch e (st : Z * Planner.table) idx :
  Py.keys (snd st) = ["dunkers"; "pilsner"; "red_helles"] ->
  known_beer (Batch.beer_type batch) ->
  exists st' l, Planner.month_round batch e st idx = (inl st', l)
                /\ Py.keys (snd st') = ["dunkers"; "pilsner"; "red_helles"].
Proof.
  destruct st as [m tbl]. simpl. intros K H. unfold Planner.month_round.
  destruct (table_add_total tbl (Batch.beer_type batch) idx (Batch.volume batch * 2) K H)
    as [tbl' [E K']].
  repeat match goal with
         | |- context [if ?b then Planner.table_add _ _ _ _ else _] =>
             destruct b; [rewrite E; simpl; eauto|]
         end.
  simpl. eauto.
Qed.

Lemma project_batch_total now (tbl : Planner.table) batch :
  Py.keys tbl = ["dunkers"; "pilsner"; "red_helles"] ->
  known_beer (Batch.beer_type batch) ->
  exists tbl' l, Planner.project_batch now tbl batch = (inl tbl', l)
                 /\ Py.keys tbl' = ["dunkers"; "pilsner"; "red_helles"].
Proof.
  intros K H. unfold Planner.project_batch.
  destruct (Batch.bottles_put_in_inventory batch); [unfold Py.ret; solve [eauto]|].
  destruct (for_each_total
              (fun st : Z * Planner.table =>
                 Py.keys (snd st) = ["dunkers"; "pilsner"; "red_helles"])
              (Planner.month_round batch (Planner.projected_ends batch))
              [0%nat; 1%nat; 2%nat]) with (s := (Calendar.month now, tbl))
    as [st [l [E K']]].
  - intros s a _ Ps. now apply month_round_total.
  - exact K.
  - rewrite E. simpl. eauto.
Qed.

Lemma try_assign_total (xs : list Forecast.float) : forall tbl k idx,
  Py.keys tbl = ["dunkers"; "pilsner"; "red_helles"] -> known_beer k ->
  Forall (fun x => x <> Forecast.Infinite) xs ->
  exists tbl' l, Planner.try_assign tbl k idx xs = (inl tbl', l)
                 /\ Py.keys tbl' = ["dunkers"; "pilsner"; "red_helles"].
Proof.
  induction xs as [|x xs IH]; intros tbl k idx K H F.
  { exists tbl, []. split; [reflexivity|exact K]. }
  apply Forall_cons_iff in F. destruct F as [NX F'].
  cbn [Planner.try_assign]. destruct x as [q| |].
  - cbn [Forecast.int].
    destruct (table_put_total tbl k idx (Z.quot (Qnum q) (Z.pos (Qden q))) K H)
      as [tbl1 [E K1]].
    rewrite E. cbn [Py.bind].
    destruct (IH tbl1 k (S idx) K1 H F') as [tbl2 [l2 [E2 K2]]].
    rewrite E2. eauto.
  - exists tbl, [Error_forecast_value]. split; [reflexivity|exact K].
  - contradiction.
Qed.

Lemma max_from_get (d : Py.dict Z) k v :
  exists v', Py.get ((k, v) :: d) (Py.max_from k v d) = Some v'.
Proof.
  destruct (max_from_first d k v) as [v0 [l1 [l2 [E _]]]].
  destruct (Py.get ((k, v) :: d) (Py.max_from k v d)) as [v'|] eqn:G; [eauto|].
  apply get_None_keys in G. exfalso. apply G. rewrite E.
  unfold Py.keys. rewrite map_app. apply in_or_app. right. now left.
Qed.

(** The planner returns a plan whenever the forecasts are ready and the
    batches are of known beer types. *)
Lemma plan_production_returns_plan (c : config) now :
  forecasts_ready (monthly_sales_forecasts c) now ->
  (forall k b, In (k, b) (batches c) -> known_beer (Batch.beer_type b)) ->
  exists c' p, plan_production c now = (c', Returned (Plan_page p)).
Proof.
  intros [NE FR] KB. unfold plan_production.
  destruct (monthly_sales_forecasts c) as [|e0 fs0] eqn:FS; [contradiction|].
  rewrite <- FS in *. clear FS e0 fs0 NE.
  assert (Z0 : Py.keys Planner.zero_table = ["dunkers"; "pilsner"; "red_helles"])
    by reflexivity.
  destruct (for_each_total
              (fun t : Planner.table => Py.keys t = ["dunkers"; "pilsner"; "red_helles"])
              (Planner.project_batch now) (Py.values (batches c)))
    with (s := Planner.zero_table) as [t0 [l0 [E0 K0]]]; [|exact Z0|].
  { intros s b I Ps. apply project_batch_total; [exact Ps|].
    unfold Py.values in I. apply in_map_iff in I. destruct I as [[k b'] [<- I]].
    now apply (KB k). }
  assert (E1 : exists t1 l1, Planner.add_inventory (inventory c) t0 = (inl t1, l1)
                             /\ Py.keys t1 = ["dunkers"; "pilsner"; "red_helles"]).
  { destruct (keys3_inv _ _ _ _ K0) as [x [y [z ->]]].
    unfold Planner.add_inventory. simpl. eauto. }
  destruct E1 as [t1 [l1 [E1 K1]]].
  destruct (for_each_total
              (fun t : Planner.table => Py.keys t = ["dunkers"; "pilsner"; "red_helles"])
              (Planner.forecast_beer (Planner.forecast_keys now))
              (monthly_sales_forecasts c))
    with (s := Planner.zero_table) as [t2 [l2 [E2 K2]]]; [|exact Z0|].
  { intros s [k f] I Ps. destruct (FR k f I) as [KN PM].
    unfold Planner.forecast_beer.
    destruct (Planner.forecast_keys now) as [[dt1 dt2] dt3].
    destruct (PM dt1 (or_introl eq_refl)) as [x1 [P1 N1]].
    destruct (PM dt2 (or_intror (or_introl eq_refl))) as [x2 [P2 N2]].
    destruct (PM dt3 (or_intror (or_intror eq_refl))) as [x3 [P3 N3]].
    unfold Planner.predicted. rewrite P1, P2, P3. cbn [Py.bind Py.ret].
    destruct (try_assign_total [x1; x2; x3] s k 0 Ps KN) as [s' [l' [E' K']]];
      [repeat constructor; assumption|].
    rewrite E'. eauto. }
  assert (E3 : exists diff k v d, Planner.differences t1 t2 = (inl diff, [])
                                  /\ diff = (k, v) :: d).
  { destruct (keys3_inv _ _ _ _ K1) as [x [y [z ->]]].
    destruct (keys3_inv _ _ _ _ K2) as [x' [y' [z' ->]]].
    unfold Planner.differences. simpl. eauto 6. }
  destruct E3 as [diff [k [v [d [E3 ->]]]]].
  unfold Planner.compute. rewrite E0. cbn [Py.bind]. rewrite E1. cbn [Py.bind].
  rewrite E2. cbn [Py.bind]. rewrite E3. cbn [Py.bind Py.min_by_value Py.ret].
  rewrite capable_unused. cbn [Py.bind].
  destruct (capable_entries (unused_tanks (batches c))) as [|[tk tv] ct] eqn:CE.
  - cbn. eauto.
  - cbn [Py.max_by_value]. destruct (max_from_get ct tk tv) as [v' G].
    unfold Py.item. rewrite G. cbn. eauto.
Qed.

(** ** The records of the batches in the reachable states *)

Lemma remove_blanks_idempotent (s : string) :
  Form.remove_blanks (Form.remove_blanks s) = Form.remove_blanks s.
Proof.
  induction s as [|a s IH]; simpl; [reflexivity|].
  destruct (Ascii.eqb a " ") eqn:E; [exact IH|].
  simpl. rewrite E. now f_equal.
Qed.

Lemma get_del_some {V} (d : Py.dict V) k k' v :
  NoDup (Py.keys d) -> Py.get (Py.del d k) k' = Some v -> Py.get d k' = Some v.
Proof.
  intros ND. destruct (String.eqb_spec k k') as [<-|N].
  - now rewrite get_del_eq.
  - now rewrite get_del_neq.
Qed.

Lemma changes_phase_known (bs : Py.dict Batch.t) (b : Batch.t) phase tank :
  changes bs b phase tank = true ->
  In phase ["hot brewing"; "ferm"; "cond"; "bottling"; "finished"].
Proof.
  unfold changes. intros H. apply orb_true_iff in H. destruct H as [H|H].
  - apply andb_true_iff in H. destruct H as [H _]. apply mem_In in H.
    simpl in H |- *. tauto.
  - rewrite !andb_true_iff in H. destruct H as [[[H _] _] _]. apply mem_In in H.
    simpl in H |- *. tauto.
Qed.

Lemma batch_record_init k beer_type volume :
  Form.remove_blanks k = k -> batch_record k (Batch.init k beer_type volume).
Proof.
  intros K. constructor; simpl; auto.
  split; discriminate.
Qed.

Lemma set_phase_record now k (b : Batch.t) inv phase tank :
  batch_record k b -> Batch.phase_current b <> "finished" ->
  In phase ["hot brewing"; "ferm"; "cond"; "bottling"; "finished"] ->
  batch_record k (fst (Batch.set_phase_start_end_datetimes now
                         (Batch.set_phase b phase tank) inv)).
Proof.
  intros [I K L F N T] NF H.
  assert (FL : Batch.bottles_put_in_inventory b = false).
  { destruct (Batch.bottles_put_in_inventory b); [|reflexivity].
    exfalso. apply NF. now apply F. }
  rewrite FL in N.
  unfold Batch.set_phase_start_end_datetimes.
  simpl in H. destruct H as [<-|[<-|[<-|[<-|[<-|[]]]]]]; cbn.
  - constructor; cbn; auto.
    + rewrite FL. split; discriminate.
    + now rewrite FL.
    + eauto.
  - constructor; cbn; auto.
    + rewrite FL. split; discriminate.
    + now rewrite FL.
    + eauto.
  - constructor; cbn; auto.
    + rewrite FL. split; discriminate.
    + now rewrite FL.
    + eauto.
  - constructor; cbn; auto.
    + rewrite FL. split; discriminate.
    + now rewrite FL.
    + eauto.
  - unfold Batch.put_bottles_in_inventory. cbn. rewrite FL. cbn.
    destruct (String.eqb (Batch.beer_type b) "dunkers");
      [constructor; cbn; auto; tauto|].
    destruct (String.eqb (Batch.beer_type b) "pilsner");
      [constructor; cbn; auto; tauto|].
    destruct (String.eqb (Batch.beer_type b) "red_helles");
      constructor; cbn; auto; tauto.
Qed.

Lemma records_add_delete_batch (c : config) f :
  well_formed c ->
  (forall k b, Py.get (batches c) k = Some b -> batch_record k b) ->
  forall k b, Py.get (batches (fst (add_delete_batch c f))) k = Some b ->
              batch_record k b.
Proof.
  intros W IH k b. destruct f as [i v t|d|]; simpl; [| |apply IH].
  - destruct (Form.int v) as [z|]; [|apply IH].
    destruct (Py.get (batches c) (Form.remove_blanks i)) eqn:G; [apply IH|]. simpl.
    destruct (String.eqb_spec (Form.remove_blanks i) k) as [<-|N].
    + rewrite get_set_eq. intros [= <-]. apply batch_record_init.
      apply remove_blanks_idempotent.
    + rewrite get_set_neq by assumption. apply IH.
  - unfold Py.contains. destruct (Py.get (batches c) d); [|apply IH]. simpl.
    intros G. apply (IH k). eapply get_del_some; [apply W|exact G].
Qed.

Lemma records_change_phase (c : config) now f :
  (forall k b, Py.get (batches c) k = Some b -> batch_record k b) ->
  forall k b, Py.get (batches (fst (change_batchs_phase c now f))) k = Some b ->
              batch_record k b.
Proof.
  intros IH k b. destruct f as [id_input phase_input tank_input|]; [|apply IH].
  destruct (Py.get (batches c) id_input) as [b0|] eqn:G.
  2:{ unfold change_batchs_phase. rewrite G. apply IH. }
  destruct (String.eqb_spec (Batch.phase_current b0) "finished") as [E|NF].
  { unfold change_batchs_phase. rewrite G, E. apply IH. }
  pose proof (change_phase_spec c now id_input phase_input tank_input b0 G NF) as S.
  cbv zeta in S.
  destruct (changes (batches c) b0 phase_input tank_input) eqn:C.
  - destruct S as [l ->]. simpl.
    destruct (String.eqb_spec id_input k) as [<-|N].
    + rewrite get_set_eq. intros [= <-]. apply set_phase_record.
      * now apply IH.
      * exact NF.
      * eapply changes_phase_known; eauto.
    + rewrite get_set_neq by assumption. apply IH.
  - destruct S as [l [o [-> _]]]. apply IH.
Qed.

Lemma reachable_records (c : config) :
  reachable c -> forall k b, Py.get (batches c) k = Some b -> batch_record k b.
Proof.
  induction 1 as [|c r R IH]; [discriminate|].
  destruct r as [f|now f|f|now|fs]; simpl.
  - apply records_add_delete_batch; [now apply reachable_well_formed|exact IH].
  - now apply records_change_phase.
  - rewrite batches_register_dispatch_delete_order. exact IH.
  - rewrite batches_plan_production. exact IH.
  - exact IH.
Qed.

(** ** The states of the service *)

Ltac in_the_range :=
  repeat first [apply Forall_cons | apply Forall_nil];
  unfold in_range, clock, Calendar.valid, max_volume;
  repeat split; vm_compute; first [reflexivity | discriminate | exact I].

Lemma in_service_reachable (c : config) : in_service c -> reachable c.
Proof. induction 1; constructor; assumption. Qed.

Lemma in_service_run (c : config) (rs : list request) :
  in_service c -> Forall in_range rs -> in_service (run c rs).
Proof.
  unfold run. intros S F. revert c S.
  induction F as [|r rs Hr F IH]; intros c S; simpl; [assumption|].
  apply IH. now constructor.
Qed.

Lemma set_phase_in_range now (b : Batch.t) inv phase tank :
  batch_in_range b -> clock now ->
  batch_in_range (fst (Batch.set_phase_start_end_datetimes now
                         (Batch.set_phase b phase tank) inv)).
Proof.
  intros [V T] K. unfold Batch.set_phase_start_end_datetimes. cbn.
  assert (OLD : forall t,
             In (Some t) [ Batch.time_start_phase1 b; Batch.time_start_phase2 b;
                           Batch.time_start_phase3 b; Batch.time_start_phase4 b ] ->
             clock t) by exact T.
  simpl in OLD.
  destruct (String.eqb phase "hot brewing").
  { split; [exact V|]. cbn. intros t [H|[H|[H|[H|[]]]]];
      [injection H as <-; exact K|apply OLD; auto..]. }
  destruct (String.eqb phase "ferm").
  { split; [exact V|]. cbn. intros t [H|[H|[H|[H|[]]]]];
      [apply OLD; auto|injection H as <-; exact K|apply OLD; auto..]. }
  destruct (String.eqb phase "cond").
  { split; [exact V|]. cbn. intros t [H|[H|[H|[H|[]]]]];
      [apply OLD; auto|apply OLD; auto|injection H as <-; exact K|apply OLD; auto]. }
  destruct (String.eqb phase "bottling").
  { split; [exact V|]. cbn. intros t [H|[H|[H|[H|[]]]]];
      [apply OLD; auto..|injection H as <-; exact K]. }
  destruct (String.eqb phase "finished"); [|split; [exact V|exact T]].
  unfold Batch.put_bottles_in_inventory. cbn.
  destruct (Batch.bottles_put_in_inventory b); cbn; [split; [exact V|exact T]|].
  destruct (String.eqb (Batch.beer_type b) "dunkers"); [split; [exact V|exact T]|].
  destruct (String.eqb (Batch.beer_type b) "pilsner"); [split; [exact V|exact T]|].
  destruct (String.eqb (Batch.beer_type b) "red_helles"); split; assumption.
Qed.

Lemma in_service_batches (c : config) :
  in_service c -> forall k b, Py.get (batches c) k = Some b -> batch_in_range b.
Proof.
  induction 1 as [|c r S IH Hr]; [discriminate|].
  pose proof (reachable_well_formed c (in_service_reachable c S)) as W.
  destruct r as [f|now f|f|now|fs]; cbn [handle].
  - destruct f as [i v bt|d|]; simpl; [| |exact IH].
    + destruct v as [z|]; simpl; [|exact IH].
      destruct (Py.get (batches c) (Form.remove_blanks i)) eqn:G; [exact IH|].
      simpl. intros k b.
      destruct (String.eqb_spec (Form.remove_blanks i) k) as [<-|N].
      * rewrite get_set_eq. intros [= <-]. split; [exact Hr|].
        simpl. intros t [H|[H|[H|[H|[]]]]]; discriminate.
      * rewrite get_set_neq by assumption. apply IH.
    + unfold Py.contains. destruct (Py.get (batches c) d); [|exact IH]. simpl.
      intros k b G. apply (IH k). eapply get_del_some; [apply W|exact G].
  - destruct f as [id_input phase_input tank_input|]; [|exact IH].
    destruct (Py.get (batches c) id_input) as [b0|] eqn:G.
    2:{ unfold change_batchs_phase. rewrite G. exact IH. }
    destruct (String.eqb_spec (Batch.phase_current b0) "finished") as [E|NF].
    { unfold change_batchs_phase. rewrite G, E. exact IH. }
    pose proof (change_phase_spec c now id_input phase_input tank_input b0 G NF) as P.
    cbv zeta in P.
    destruct (changes (batches c) b0 phase_input tank_input).
    + destruct P as [l ->]. cbn [fst batches]. intros k b.
      destruct (String.eqb_spec id_input k) as [<-|N].
      * rewrite get_set_eq. intros [= <-]. apply set_phase_in_range; [|exact Hr].
        eapply IH; eauto.
      * rewrite get_set_neq by assumption. apply IH.
    + destruct P as [l [o [-> _]]]. exact IH.
  - rewrite batches_register_dispatch_delete_order. exact IH.
  - rewrite batches_plan_production. exact IH.
  - exact IH.
Qed.

(** X1.  In every reachable state a tank of the catalog is named by one
    batch at most: two batches stored under different ids never have the
    same catalog tank as their current tank. *)
Theorem reachable_tank_held_once (c : config) id1 id2 (b1 b2 : Batch.t) :
  reachable c ->
  Py.get (batches c) id1 = Some b1 -> Py.get (batches c) id2 = Some b2 ->
  id1 <> id2 ->
  In (Batch.phase_current_tank b1) Tanks.get_tank_names ->
  Batch.phase_current_tank b2 <> Batch.phase_current_tank b1.
Proof.
  intros R G1 G2 N I E. apply reachable_well_formed in R.
  exact (wf_tanks c R id1 id2 b1 b2 G1 G2 N (eq_sym E) I).
Qed.

(** In [two_tanks_example] the tank of [b2], [brigadier], is not
    [albert], the tank of [b1]. *)
Lemma reachable_tank_held_once_witness :
  exists b1 b2,
    Py.get (batches two_tanks_example) "b1" = Some b1 /\
    Py.get (batches two_tanks_example) "b2" = Some b2 /\
    Batch.phase_current_tank b1 = "albert" /\
    Batch.phase_current_tank b2 = "brigadier" /\
    Batch.phase_current_tank b2 <> Batch.phase_current_tank b1.
Proof.
  assert (R : reachable two_tanks_example)
    by (unfold two_tanks_example, ferm_example; do 2 apply reachable_run; constructor).
  do 2 eexists. split; [vm_compute; reflexivity|]. split; [vm_compute; reflexivity|].
  split; [reflexivity|]. split; [reflexivity|].
  apply (reachable_tank_held_once two_tanks_example "b1" "b2" _ _ R);
    [vm_compute; reflexivity | vm_compute; reflexivity | discriminate |].
  simpl. auto.
Defined.

(** X2.  In every reachable state the current phase of a batch is the
    unset phase or one of the five phases, and a batch that is neither
    fermenting nor conditioning has no tank: its current tank is [""] or
    ["not applicable"]. *)
Theorem reachable_phase_and_tank (c : config) id_ (b : Batch.t) :
  reachable c ->
  Py.get (batches c) id_ = Some b ->
  In (Batch.phase_current b)
     [""; "hot brewing"; "ferm"; "cond"; "bottling"; "finished"] /\
  (~ In (Batch.phase_current b) ["ferm"; "cond"] ->
   In (Batch.phase_current_tank b) [""; "not applicable"]).
Proof.
  intros R G. apply reachable_well_formed in R.
  destruct (wf_batch c R id_ b G) as [_ [T P]]. auto.
Qed.

(** In [bottling_example] batch [b1] is in [bottling] and has no tank. *)
Lemma reachable_phase_and_tank_witness :
  exists b, Py.get (batches bottling_example) "b1" = Some b /\
            Batch.phase_current b = "bottling" /\
            In (Batch.phase_current_tank b) [""; "not applicable"].
Proof.
  assert (R : reachable bottling_example)
    by (unfold bottling_example; apply reachable_run; constructor).
  eexists. split; [vm_compute; reflexivity|]. split; [reflexivity|].
  apply (proj2 (reachable_phase_and_tank bottling_example "b1" _ R eq_refl)).
  simpl. intros [H|[H|[]]]; discriminate.
Defined.

(** X3.  In every reachable state the flag [bottles_put_in_inventory] of a
    batch is set exactly when the batch is finished, and
    [num_bottles_to_inv] is then twice the volume and is unset before. *)
Theorem reachable_credited_iff_finished (c : config) id_ (b : Batch.t) :
  reachable c ->
  Py.get (batches c) id_ = Some b ->
  (Batch.bottles_put_in_inventory b = true <-> Batch.phase_current b = "finished") /\
  Batch.num_bottles_to_inv b
  = (if String.eqb (Batch.phase_current b) "finished"
     then Some (Batch.volume b * 2) else None).
Proof.
  intros R G. destruct (reachable_records c R id_ b G) as [_ _ _ F N _].
  split; [exact F|]. rewrite N.
  destruct (String.eqb_spec (Batch.phase_current b) "finished") as [E|NE].
  - apply F in E. now rewrite E.
  - destruct (Batch.bottles_put_in_inventory b); [|reflexivity].
    exfalso. apply NE. now apply F.
Qed.

(** In [finished_example] batch [b1] of 500 litres has 1000 bottles
    recorded. *)
Lemma reachable_credited_iff_finished_witness :
  exists b, Py.get (batches finished_example) "b1" = Some b /\
            Batch.num_bottles_to_inv b = Some 1000.
Proof.
  assert (R : reachable finished_example)
    by (unfold finished_example; apply reachable_run; constructor).
  eexists. split; [vm_compute; reflexivity|].
  apply (proj2 (reachable_credited_iff_finished finished_example "b1" _ R eq_refl)).
Defined.

(** X4.  In every state of the service the start and the end of the phase
    a batch is in are set: the start is the time of the clock at which the
    batch was put into the phase, and the end is the start plus the
    duration of the phase, 5 hours of hot brewing, 672 of fermenting, 336
    of conditioning and one minute a bottle of bottling.  The volume of the
    batch is within the range in which that duration is exact. *)
Theorem in_service_phase_times (c : config) id_ (b : Batch.t) s e d :
  in_service c ->
  Py.get (batches c) id_ = Some b ->
  current_times b = Some (s, e, d) ->
  0 <= Batch.volume b <= max_volume /\
  exists t, clock t /\ s = Some t /\ e = Some (Calendar.add t d).
Proof.
  intros S G C. destruct (in_service_batches c S id_ b G) as [V T].
  split; [exact V|].
  destruct (reachable_records c (in_service_reachable c S) id_ b G)
    as [_ _ _ _ _ R].
  rewrite C in R. destruct R as [t [-> ->]]. exists t.
  split; [|split; reflexivity].
  apply T. unfold current_times in C. simpl.
  destruct (String.eqb (Batch.phase_current b) "hot brewing");
    [injection C as <- _ _; auto|].
  destruct (String.eqb (Batch.phase_current b) "ferm");
    [injection C as <- _ _; auto|].
  destruct (String.eqb (Batch.phase_current b) "cond");
    [injection C as <- _ _; auto|].
  destruct (String.eqb (Batch.phase_current b) "bottling");
    [injection C as <- _ _; auto|discriminate].
Qed.

(** In [ferm_example] batch [b1], put to ferment on 20 November 2019, is
    to end 672 hours later, on 18 December. *)
Lemma in_service_phase_times_witness :
  exists b t, Py.get (batches ferm_example) "b1" = Some b /\
              Batch.time_start_phase2 b = Some t /\
              Batch.time_end_phase2 b = Some (Calendar.add t (Calendar.hours 672)) /\
              Calendar.add t (Calendar.hours 672) = Calendar.mkdt 2019 12 18 0.
Proof.
  assert (S : in_service ferm_example)
    by (unfold ferm_example; apply in_service_run; [constructor|in_the_range]).
  destruct (in_service_phase_times ferm_example "b1" _ _ _ _ S eq_refl eq_refl)
    as [_ [t [_ [A E]]]].
  eexists _, t. split; [vm_compute; reflexivity|]. split; [exact A|].
  split; [exact E|]. injection A as <-. vm_compute. reflexivity.
Defined.

(** X5.  In every state of the service [phase_last_completed] of a batch
    is the phase that comes before its current phase in the fixed order,
    whatever phase the batch was in before. *)
Theorem in_service_last_completed (c : config) id_ (b : Batch.t) :
  in_service c ->
  Py.get (batches c) id_ = Some b ->
  Batch.phase_last_completed b = phase_before (Batch.phase_current b).
Proof.
  intros S G.
  now destruct (reachable_records c (in_service_reachable c S) id_ b G).
Qed.

(** In [bottling_example] batch [b1], which went from the unset phase
    straight to [bottling], has [cond] as its last completed phase. *)
Lemma in_service_last_completed_witness :
  exists b, Py.get (batches bottling_example) "b1" = Some b /\
            Batch.phase_last_completed b = "cond".
Proof.
  assert (S : in_service bottling_example)
    by (unfold bottling_example; apply in_service_run; [constructor|in_the_range]).
  eexists. split; [vm_compute; reflexivity|].
  apply (in_service_last_completed bottling_example "b1" _ S eq_refl).
Defined.

(** X6.  In every reachable state a batch is stored under its own id, and
    that id has no blank. *)
Theorem reachable_batch_key (c : config) id_ (b : Batch.t) :
  reachable c ->
  Py.get (batches c) id_ = Some b ->
  Batch.id b = id_ /\ Form.remove_blanks id_ = id_.
Proof.
  intros R G. now destruct (reachable_records c R id_ b G).
Qed.

Lemma reachable_batch_key_witness :
  exists b, Py.get (batches added_example) "b1" = Some b /\ Batch.id b = "b1".
Proof.
  assert (R : reachable added_example)
    by (unfold added_example; apply reachable_run; constructor).
  eexists. split; [vm_compute; reflexivity|].
  apply (proj1 (reachable_batch_key added_example "b1" _ R eq_refl)).
Defined.

(** ** The tables of the pages *)

Lemma get_start_end_dt_spec (b : Batch.t) :
  Display.get_start_end_dt b =
  match current_times b with
  | Some (Some s, Some e, _) => (inl (Display.Formatted s, Display.Formatted e), [])
  | Some _ => (inr Display.AttributeError, [])
  | None =>
      if String.eqb (Batch.phase_current b) "finished"
      then (inl (Display.Literal "finished", Display.Literal "finished"), [])
      else (inl (Display.Literal "", Display.Literal ""), [])
  end.
Proof.
  unfold Display.get_start_end_dt, current_times.
  destruct (String.eqb (Batch.phase_current b) "hot brewing").
  { destruct (Batch.time_start_phase1 b), (Batch.time_end_phase1 b); reflexivity. }
  destruct (String.eqb (Batch.phase_current b) "ferm").
  { destruct (Batch.time_start_phase2 b), (Batch.time_end_phase2 b); reflexivity. }
  destruct (String.eqb (Batch.phase_current b) "cond").
  { destruct (Batch.time_start_phase3 b), (Batch.time_end_phase3 b); reflexivity. }
  destruct (String.eqb (Batch.phase_current b) "bottling").
  { destruct (Batch.time_start_phase4 b), (Batch.time_end_phase4 b); reflexivity. }
  reflexivity.
Qed.

Lemma get_start_end_dt_timed (b : Batch.t) :
  untimed b = false -> exists se, Display.get_start_end_dt b = (inl se, []).
Proof.
  rewrite get_start_end_dt_spec. unfold untimed.
  destruct (current_times b) as [[[[s|] [e|]] d]|]; try discriminate; eauto.
  destruct (String.eqb (Batch.phase_current b) "finished"); eauto.
Qed.

Lemma get_start_end_dt_untimed (b : Batch.t) :
  untimed b = true -> Display.get_start_end_dt b = (inr Display.AttributeError, []).
Proof.
  rewrite get_start_end_dt_spec. unfold untimed.
  destruct (current_times b) as [[[[s|] [e|]] d]|]; try discriminate; reflexivity.
Qed.

Lemma batch_rows_timed (xs : list Batch.t) : forall acc,
  (forall b, In b xs -> untimed b = false) ->
  exists rows,
    Display.for_each xs
      (fun batch_table batch =>
         Display.bind (Display.get_start_end_dt batch) (fun se =>
         Display.ret (batch_table ++
            [Display.mkbatch_row (Batch.id batch) (Batch.beer_type batch)
               (Batch.volume batch) (Batch.phase_current batch)
               (Batch.phase_current_tank batch) (snd se)
               (Batch.phase_last_completed batch)
               (Batch.num_bottles_to_inv batch)])%list)) acc
    = (inl (acc ++ rows)%list, []) /\
    Forall2 (fun b r =>
               Display.row_id r = Batch.id b /\
               Display.row_beer_type r = Batch.beer_type b /\
               Display.row_volume r = Batch.volume b /\
               Display.row_phase_current r = Batch.phase_current b /\
               Display.row_phase_current_tank r = Batch.phase_current_tank b /\
               Display.row_phase_last_completed r = Batch.phase_last_completed b /\
               Display.row_num_bottles_to_inv r = Batch.num_bottles_to_inv b /\
               exists s, Display.get_start_end_dt b = (inl (s, Display.row_end r), []))
            xs rows.
Proof.
  induction xs as [|x xs IH]; intros acc T.
  - exists []. simpl. rewrite app_nil_r. split; [reflexivity|constructor].
  - destruct (get_start_end_dt_timed x (T x (or_introl eq_refl))) as [[s e] E].
    cbn [Display.for_each]. rewrite E. cbn [Display.bind Display.ret snd].
    match goal with
    | |- context [Display.for_each xs ?body ?a] =>
        destruct (IH a (fun b I => T b (or_intror I))) as [rows [ER FR]]
    end.
    rewrite ER. rewrite <- app_assoc. simpl.
    eexists. split; [reflexivity|].
    constructor; [|exact FR]. cbn. repeat split; eauto.
Qed.

Lemma batch_rows_untimed (xs : list Batch.t) : forall acc,
  (exists b, In b xs /\ untimed b = true) ->
  Display.for_each xs
    (fun batch_table batch =>
       Display.bind (Display.get_start_end_dt batch) (fun se =>
       Display.ret (batch_table ++
          [Display.mkbatch_row (Batch.id batch) (Batch.beer_type batch)
             (Batch.volume batch) (Batch.phase_current batch)
             (Batch.phase_current_tank batch) (snd se)
             (Batch.phase_last_completed batch)
             (Batch.num_bottles_to_inv batch)])%list)) acc
  = (inr Display.AttributeError, []).
Proof.
  induction xs as [|x xs IH]; intros acc [b [I U]]; [destruct I|].
  cbn [Display.for_each].
  destruct (untimed x) eqn:UX.
  - rewrite (get_start_end_dt_untimed x UX). reflexivity.
  - destruct (get_start_end_dt_timed x UX) as [[s e] E]. rewrite E.
    cbn [Display.bind Display.ret snd].
    destruct I as [<-|I]; [congruence|].
    rewrite IH by eauto. reflexivity.
Qed.

(** X7.  [update_batch_table] makes the table exactly when no batch in
    production lacks the start or the end of its phase: it then returns one
    row for each batch, in the order of the dictionary, and logs nothing;
    with such a batch it ends in the [AttributeError] of [strftime] on the
    string of an unset timestamp. *)
Theorem update_batch_table_raises_iff (bs : Py.dict Batch.t) :
  ((forall b, In b (Py.values bs) -> untimed b = false) ->
   exists rows, Display.update_batch_table bs = (inl rows, []) /\
                map Display.row_id rows = map Batch.id (Py.values bs)) /\
  ((exists b, In b (Py.values bs) /\ untimed b = true) ->
   Display.update_batch_table bs = (inr Display.AttributeError, [])).
Proof.
  unfold Display.update_batch_table. split.
  - intros T. destruct (batch_rows_timed (Py.values bs) [] T) as [rows [E F]].
    exists rows. split; [exact E|].
    clear E T. induction F as [|b r xs rows [I _] F IH]; simpl; congruence.
  - apply batch_rows_untimed.
Qed.

(** A batch in [hot brewing] without timestamps, as a saved state may
    hold it, ends the making of the table; the batch of [added_example]
    does not. *)
Lemma update_batch_table_raises_iff_witness :
  Display.update_batch_table
    [("b1", Batch.set_phase (Batch.init "b1" "pilsner" 500) "hot brewing"
                            "not applicable")]
  = (inr Display.AttributeError, []) /\
  exists rows, Display.update_batch_table (batches added_example) = (inl rows, []) /\
               map Display.row_id rows = ["b1"].
Proof.
  split.
  - apply (proj2 (update_batch_table_raises_iff _)).
    eexists. split; [left; reflexivity|reflexivity].
  - apply (proj1 (update_batch_table_raises_iff (batches added_example))).
    intros b [<-|[]]. reflexivity.
Defined.

Lemma reachable_timed (c : config) k (b : Batch.t) :
  reachable c -> Py.get (batches c) k = Some b -> untimed b = false.
Proof.
  intros R G. destruct (reachable_records c R k b G) as [_ _ _ _ _ T].
  unfold untimed. destruct (current_times b) as [[[s e] d]|]; [|reflexivity].
  destruct T as [t [-> ->]]. reflexivity.
Qed.

Lemma In_values_get {V} (d : Py.dict V) v :
  NoDup (Py.keys d) -> In v (Py.values d) -> exists k, Py.get d k = Some v.
Proof.
  intros ND I. unfold Py.values in I. apply in_map_iff in I.
  destruct I as [[k v'] [E I]]. simpl in E. subst v'.
  exists k. now apply In_get.
Qed.

Lemma reachable_values_timed (c : config) :
  reachable c -> forall b, In b (Py.values (batches c)) -> untimed b = false.
Proof.
  intros R b I.
  destruct (In_values_get (batches c) b) as [k G]; [|exact I|].
  - apply reachable_well_formed in R. apply R.
  - eapply reachable_timed; eauto.
Qed.

Lemma Forall2_dict {V B} (P : V -> B -> Prop) (Q : string -> V -> B -> Prop)
      (d : Py.dict V) (rows : list B) :
  Forall2 P (Py.values d) rows ->
  (forall k v r, In (k, v) d -> P v r -> Q k v r) ->
  Forall2 (fun kv r => Q (fst kv) (snd kv) r) d rows.
Proof.
  revert rows. induction d as [|[k v] d IH]; intros rows F H; simpl in F.
  - inversion F. constructor.
  - inversion F as [|? r ? rows' Pv F']; subst. constructor.
    + apply H; [now left|exact Pv].
    + apply IH; [exact F'|]. intros k' v' r' I. apply H. now right.
Qed.

(** X8.  In every state of the service [update_batch_table] returns the
    table and logs nothing.  The table has one row for each batch, in the order
    of the dictionary, with the id under which the batch is stored; the
    cell of the end of the phase shows, for a batch in production, the
    start of its phase plus the duration of the phase and otherwise the
    phase itself, [finished] or the empty string; the cell of the bottles
    is filled for the finished batches only. *)
Theorem in_service_batch_table (c : config) :
  in_service c ->
  exists rows,
    Display.update_batch_table (batches c) = (inl rows, []) /\
    Forall2 (fun kv r =>
               Display.row_id r = fst kv /\
               Display.row_phase_current r = Batch.phase_current (snd kv) /\
               Display.row_end r
               = (match current_times (snd kv) with
                  | Some (Some t, _, d) => Display.Formatted (Calendar.add t d)
                  | _ => Display.Literal (Batch.phase_current (snd kv))
                  end) /\
               Display.row_num_bottles_to_inv r
               = (if String.eqb (Batch.phase_current (snd kv)) "finished"
                  then Some (Batch.volume (snd kv) * 2) else None))
            (batches c) rows.
Proof.
  intros S. pose proof (in_service_reachable c S) as R.
  pose proof (reachable_well_formed c R) as W.
  destruct (batch_rows_timed (Py.values (batches c)) [] (reachable_values_timed c R))
    as [rows [E F]].
  exists rows. split; [exact E|]. clear E.
  apply (Forall2_dict _
           (fun k b r =>
              Display.row_id r = k /\
              Display.row_phase_current r = Batch.phase_current b /\
              Display.row_end r
              = (match current_times b with
                 | Some (Some t, _, d) => Display.Formatted (Calendar.add t d)
                 | _ => Display.Literal (Batch.phase_current b)
                 end) /\
              Display.row_num_bottles_to_inv r
              = (if String.eqb (Batch.phase_current b) "finished"
                 then Some (Batch.volume b * 2) else None))
           (batches c) rows F).
  clear F rows.
  intros k b r I [RI [_ [_ [RP [_ [_ [RN [s RE]]]]]]]]. cbn [fst snd].
  assert (G : Py.get (batches c) k = Some b) by (apply In_get; [apply W|exact I]).
  destruct (reachable_records c R k b G) as [HI _ _ HF HN HT].
  split; [congruence|]. split; [exact RP|]. split.
  - rewrite get_start_end_dt_spec in RE.
    destruct (current_times b) as [[[s0 e0] d]|] eqn:CT.
    + destruct HT as [t [-> ->]]. now injection RE as _ <-.
    + destruct (wf_batch c W k b G) as [_ [_ P]].
      unfold current_times in CT.
      destruct (String.eqb_spec (Batch.phase_current b) "finished") as [EF|NF].
      * injection RE as _ <-. now rewrite EF.
      * injection RE as _ <-. simpl in P.
        destruct P as [P|[P|[P|[P|[P|[P|[]]]]]]]; rewrite <- P in *;
          try discriminate; try reflexivity; congruence.
  - rewrite RN, HN.
    destruct (String.eqb_spec (Batch.phase_current b) "finished") as [EF|NF].
    + apply HF in EF. now rewrite EF.
    + destruct (Batch.bottles_put_in_inventory b); [|reflexivity].
      exfalso. apply NF. now apply HF.
Qed.

(** The table of [ferm_example]: the row of [b1] ends on 18 December
    2019, that of [b2], which is in no phase, shows the empty string. *)
Lemma in_service_batch_table_witness :
  exists r1 r2,
    Display.update_batch_table (batches ferm_example) = (inl [r1; r2], []) /\
    Display.row_id r1 = "b1" /\
    Display.row_end r1 = Display.Formatted (Calendar.mkdt 2019 12 18 0) /\
    Display.row_id r2 = "b2" /\ Display.row_end r2 = Display.Literal "".
Proof.
  assert (S : in_service ferm_example)
    by (unfold ferm_example; apply in_service_run; [constructor|in_the_range]).
  destruct (in_service_batch_table ferm_example S) as [rows [E F]].
  let d := eval vm_compute in (batches ferm_example) in
  change (batches ferm_example) with d in F.
  inversion F as [|kv1 r1 d1 rows1 [I1 [_ [E1 _]]] F1]; subst.
  inversion F1 as [|kv2 r2 d2 rows2 [I2 [_ [E2 _]]] F2]; subst.
  inversion F2; subst.
  vm_compute in E1. vm_compute in E2.
  exists r1, r2. split; [exact E|]. split; [exact I1|]. split; [exact E1|].
  split; [exact I2|exact E2].
Defined.

(** X9.  [update_inventory_table] returns, whatever the inventory holds,
    the three rows of [dunkers], [pilsner] and [red_helles], in this order,
    each with the count of its item, and logs nothing: the names that
    [get_inv_items_names] finds are those of the three counts, and
    [get_inv_items_quantity] finds each of them. *)
Theorem update_inventory_table_rows (inv : Inventory.t) :
  Display.update_inventory_table inv
  = (inl [ ("dunkers", Inventory.num inv Inventory.dunkers);
           ("pilsner", Inventory.num inv Inventory.pilsner);
           ("red_helles", Inventory.num inv Inventory.red_helles) ], []).
Proof. destruct inv. vm_compute. reflexivity. Qed.

(** ** The process tables *)

Lemma display_for_each_inv {A S} (P : list A -> S -> Prop)
      (body : S -> A -> Display.M S) :
  (forall pre x s s' l, P pre s -> body s x = (inl s', l) -> P (pre ++ [x])%list s') ->
  forall xs pre s s' l,
    P pre s -> Display.for_each xs body s = (inl s', l) -> P (pre ++ xs)%list s'.
Proof.
  intros H. induction xs as [|x xs IH]; intros pre s s' l Ps E.
  - injection E as <- _. now rewrite app_nil_r.
  - cbn [Display.for_each] in E. unfold Display.bind in E.
    destruct (body s x) as [[s1|e] l1] eqn:B; [|discriminate].
    destruct (Display.for_each xs body s1) as [r l2] eqn:F.
    injection E as -> _.
    replace (pre ++ x :: xs)%list with ((pre ++ [x]) ++ xs)%list
      by (now rewrite <- app_assoc).
    eapply IH; [|exact F]. eapply H; eauto.
Qed.

Lemma display_for_each_total {A S} (body : S -> A -> Display.M S) (xs : list A) :
  (forall x s, In x xs -> exists s', body s x = (inl s', [])) ->
  forall s, exists s', Display.for_each xs body s = (inl s', []).
Proof.
  induction xs as [|x xs IH]; intros H s.
  - exists s. reflexivity.
  - destruct (H x s (or_introl eq_refl)) as [s1 E1].
    destruct (IH (fun y t I => H y t (or_intror I)) s1) as [s2 E2].
    exists s2. cbn [Display.for_each]. rewrite E1. cbn [Display.bind].
    now rewrite E2.
Qed.

(** What [process_batch] does when it returns. *)
Lemma process_batch_inv (tables tables' : Display.process_tables) (b : Batch.t) l :
  Display.process_batch tables b = (inl tables', l) ->
  exists (mc : option Z) s e,
    (if Py.mem (Batch.phase_current_tank b) [""; "not applicable"]
     then mc = None
     else exists tv, fst (Tanks.get_tank_value (Batch.phase_current_tank b))
                     = Py.InstanceVar tv /\ mc = Some (Tank.volume tv)) /\
    tables' =
    (if String.eqb (Batch.phase_current b) "hot brewing" then
       Display.mktables
         (Display.hot_brew_table tables ++
          [Display.mkprocess_row (Batch.phase_current_tank b) (Batch.volume b)
                                 s e (Batch.id b)])%list
         (Display.ferm_table tables) (Display.cond_table tables)
         (Display.bottling_table tables)
     else if String.eqb (Batch.phase_current b) "ferm" then
       Display.mktables
         (Display.hot_brew_table tables)
         (Display.ferm_table tables ++
          [Display.mktank_row (Batch.phase_current_tank b) mc (Batch.volume b)
                              s e (Batch.id b)])%list
         (Display.cond_table tables) (Display.bottling_table tables)
     else if String.eqb (Batch.phase_current b) "cond" then
       Display.mktables
         (Display.hot_brew_table tables) (Display.ferm_table tables)
         (Display.cond_table tables ++
          [Display.mktank_row (Batch.phase_current_tank b) mc (Batch.volume b)
                              s e (Batch.id b)])%list
         (Display.bottling_table tables)
     else if String.eqb (Batch.phase_current b) "bottling" then
       Display.mktables
         (Display.hot_brew_table tables) (Display.ferm_table tables)
         (Display.cond_table tables)
         (Display.bottling_table tables ++
          [Display.mkprocess_row (Batch.phase_current_tank b) (Batch.volume b)
                                 s e (Batch.id b)])%list
     else tables).
Proof.
  unfold Display.process_batch. intros H.
  assert (MC : exists mc l0,
    (if Py.mem (Batch.phase_current_tank b) [""; "not applicable"]
     then Display.ret None
     else
       let '(tank_value, l) := Tanks.get_tank_value (Batch.phase_current_tank b) in
       Display.bind (Display.tell l) (fun _ =>
       Display.bind (Display.volume_of tank_value) (fun v => Display.ret (Some v))))
    = (inl mc, l0) /\
    (if Py.mem (Batch.phase_current_tank b) [""; "not applicable"]
     then mc = None
     else exists tv, fst (Tanks.get_tank_value (Batch.phase_current_tank b))
                     = Py.InstanceVar tv /\ mc = Some (Tank.volume tv))).
  { destruct (Py.mem (Batch.phase_current_tank b) [""; "not applicable"]).
    - exists None, []. split; reflexivity.
    - destruct (Tanks.get_tank_value (Batch.phase_current_tank b)) as [tank_value l0].
      destruct tank_value as [tv| | |]; cbn in H |- *; try discriminate.
      exists (Some (Tank.volume tv)), (l0 ++ [])%list. split; [reflexivity|eauto]. }
  destruct MC as [mc [l0 [EM SM]]]. rewrite EM in H. cbn [Display.bind] in H.
  destruct (Display.get_start_end_dt b) as [[[s e]|ex] l1].
  - exists mc, s, e. split; [exact SM|].
    destruct (String.eqb (Batch.phase_current b) "hot brewing");
      [cbn in H; now injection H as <- _|].
    destruct (String.eqb (Batch.phase_current b) "ferm");
      [cbn in H; now injection H as <- _|].
    destruct (String.eqb (Batch.phase_current b) "cond");
      [cbn in H; now injection H as <- _|].
    destruct (String.eqb (Batch.phase_current b) "bottling");
      [cbn in H; now injection H as <- _|].
    cbn in H. now injection H as <- _.
  - exists mc, (Display.Literal ""), (Display.Literal ""). split; [exact SM|].
    destruct (String.eqb (Batch.phase_current b) "hot brewing");
      [cbn in H; discriminate|].
    destruct (String.eqb (Batch.phase_current b) "ferm");
      [cbn in H; discriminate|].
    destruct (String.eqb (Batch.phase_current b) "cond");
      [cbn in H; discriminate|].
    destruct (String.eqb (Batch.phase_current b) "bottling");
      [cbn in H; discriminate|].
    cbn in H. now injection H as <- _.
Qed.

Lemma ids_in_phase_app phase (xs ys : list Batch.t) :
  ids_in_phase phase (xs ++ ys) = (ids_in_phase phase xs ++ ids_in_phase phase ys)%list.
Proof. unfold ids_in_phase. now rewrite filter_app, map_app. Qed.

Lemma ids_in_phase_one phase (b : Batch.t) :
  ids_in_phase phase [b]
  = if String.eqb (Batch.phase_current b) phase then [Batch.id b] else [].
Proof.
  unfold ids_in_phase. simpl.
  now destruct (String.eqb (Batch.phase_current b) phase).
Qed.

(** X10.  When [update_process_tables] returns its four tables, the table
    of a phase has one row for each batch that is in that phase, in the
    order of the dictionary: a batch is in the table of its phase and in no
    other, and a batch that is finished or in no phase is in none. *)
Theorem process_tables_by_phase (bs : Py.dict Batch.t) (t : Display.process_tables) l :
  Display.update_process_tables bs = (inl t, l) ->
  map Display.p_id (Display.hot_brew_table t) = ids_in_phase "hot brewing" (Py.values bs)
  /\ map Display.t_id (Display.ferm_table t) = ids_in_phase "ferm" (Py.values bs)
  /\ map Display.t_id (Display.cond_table t) = ids_in_phase "cond" (Py.values bs)
  /\ map Display.p_id (Display.bottling_table t) = ids_in_phase "bottling" (Py.values bs).
Proof.
  intros E.
  assert (F : Display.for_each (Py.values bs) Display.process_batch
                (Display.mktables [] [] [] []) = (inl t, l)).
  { destruct bs; [|exact E]. exact E. }
  clear E.
  apply (display_for_each_inv
           (fun pre s =>
              map Display.p_id (Display.hot_brew_table s) = ids_in_phase "hot brewing" pre
              /\ map Display.t_id (Display.ferm_table s) = ids_in_phase "ferm" pre
              /\ map Display.t_id (Display.cond_table s) = ids_in_phase "cond" pre
              /\ map Display.p_id (Display.bottling_table s) = ids_in_phase "bottling" pre)
           Display.process_batch) with (pre := []) (xs := Py.values bs) in F.
  - exact F.
  - clear. intros pre x s s' l [H1 [H2 [H3 H4]]] B.
    apply process_batch_inv in B. destruct B as [mc [st [en [_ ->]]]].
    rewrite !ids_in_phase_app, !ids_in_phase_one, <- H1, <- H2, <- H3, <- H4.
    destruct (String.eqb_spec (Batch.phase_current x) "hot brewing") as [E|N1].
    { rewrite ?E. cbn. rewrite map_app, !app_nil_r. auto. }
    destruct (String.eqb_spec (Batch.phase_current x) "ferm") as [E|N2].
    { rewrite ?E. cbn. rewrite map_app, !app_nil_r. auto. }
    destruct (String.eqb_spec (Batch.phase_current x) "cond") as [E|N3].
    { rewrite ?E. cbn. rewrite map_app, !app_nil_r. auto. }
    destruct (String.eqb_spec (Batch.phase_current x) "bottling") as [E|N4].
    { rewrite ?E. cbn. rewrite map_app, !app_nil_r. auto. }
    rewrite !app_nil_r. auto.
  - repeat split.
Qed.

(** The tables of [two_tanks_example]: [b1] is in the table of fermenting
    and [b2] in that of conditioning. *)
Lemma process_tables_by_phase_witness :
  exists t, Display.update_process_tables (batches two_tanks_example) = (inl t, []) /\
            map Display.t_id (Display.ferm_table t) = ["b1"] /\
            map Display.t_id (Display.cond_table t) = ["b2"] /\
            Display.hot_brew_table t = [] /\ Display.bottling_table t = [].
Proof.
  eexists. split; [vm_compute; reflexivity|].
  destruct (process_tables_by_phase (batches two_tanks_example) _ []
              ltac:(vm_compute; reflexivity)) as [_ [H2 [H3 _]]].
  split; [exact H2|]. split; [exact H3|]. split; reflexivity.
Defined.

Lemma process_batch_total (tables : Display.process_tables) (b : Batch.t) :
  untimed b = false ->
  (In (Batch.phase_current_tank b) [""; "not applicable"]
   \/ exists tv, In (Batch.phase_current_tank b, tv) Tanks.instance_vars) ->
  exists tables', Display.process_batch tables b = (inl tables', []).
Proof.
  intros U T. unfold Display.process_batch.
  destruct (get_start_end_dt_timed b U) as [se E].
  assert (MC : exists mc,
    (if Py.mem (Batch.phase_current_tank b) [""; "not applicable"]
     then Display.ret None
     else
       let '(tank_value, l) := Tanks.get_tank_value (Batch.phase_current_tank b) in
       Display.bind (Display.tell l) (fun _ =>
       Display.bind (Display.volume_of tank_value) (fun v => Display.ret (Some v))))
    = (inl mc, [])).
  { destruct (Py.mem (Batch.phase_current_tank b) [""; "not applicable"]) eqn:M.
    - exists None. reflexivity.
    - destruct T as [T|[tv T]]; [apply mem_In in T; congruence|].
      unfold Tanks.get_tank_value. rewrite (getattr_instance_var _ _ T).
      exists (Some (Tank.volume tv)). reflexivity. }
  destruct MC as [mc ->]. cbn [Display.bind]. rewrite E.
  destruct (String.eqb (Batch.phase_current b) "hot brewing"); [cbn; eauto|].
  destruct (String.eqb (Batch.phase_current b) "ferm"); [cbn; eauto|].
  destruct (String.eqb (Batch.phase_current b) "cond"); [cbn; eauto|].
  destruct (String.eqb (Batch.phase_current b) "bottling"); cbn; eauto.
Qed.

(** The batch a row of the tables of fermenting and conditioning is made
    of. *)
Lemma tank_rows_batches (xs : list Batch.t) (t : Display.process_tables) l :
  Display.for_each xs Display.process_batch (Display.mktables [] [] [] []) = (inl t, l) ->
  forall r, In r (Display.ferm_table t ++ Display.cond_table t) ->
  exists b, In b xs /\ Display.t_id r = Batch.id b
            /\ Display.t_tank r = Batch.phase_current_tank b
            /\ Display.t_volume r = Batch.volume b
            /\ In (Batch.phase_current b) ["ferm"; "cond"]
            /\ (if Py.mem (Batch.phase_current_tank b) [""; "not applicable"]
                then Display.t_max_capacity r = None
                else exists tv,
                    fst (Tanks.get_tank_value (Batch.phase_current_tank b))
                    = Py.InstanceVar tv
                    /\ Display.t_max_capacity r = Some (Tank.volume tv)).
Proof.
  intros F.
  refine (display_for_each_inv
           (fun pre s =>
              forall r, In r (Display.ferm_table s ++ Display.cond_table s) ->
              exists b, In b pre /\ Display.t_id r = Batch.id b
                /\ Display.t_tank r = Batch.phase_current_tank b
                /\ Display.t_volume r = Batch.volume b
                /\ In (Batch.phase_current b) ["ferm"; "cond"]
                /\ (if Py.mem (Batch.phase_current_tank b) [""; "not applicable"]
                    then Display.t_max_capacity r = None
                    else exists tv,
                        fst (Tanks.get_tank_value (Batch.phase_current_tank b))
                        = Py.InstanceVar tv
                        /\ Display.t_max_capacity r = Some (Tank.volume tv)))
           Display.process_batch _ xs [] _ t l _ F).
  - clear. intros pre x s s' l H B r I.
    assert (OLD : In r (Display.ferm_table s ++ Display.cond_table s) ->
                  exists b, In b (pre ++ [x]) /\ Display.t_id r = Batch.id b
                    /\ Display.t_tank r = Batch.phase_current_tank b
                    /\ Display.t_volume r = Batch.volume b
                    /\ In (Batch.phase_current b) ["ferm"; "cond"]
                    /\ (if Py.mem (Batch.phase_current_tank b) [""; "not applicable"]
                        then Display.t_max_capacity r = None
                        else exists tv,
                            fst (Tanks.get_tank_value (Batch.phase_current_tank b))
                            = Py.InstanceVar tv
                            /\ Display.t_max_capacity r = Some (Tank.volume tv))).
    { intros I'. destruct (H r I') as [b [Ib Rb]]. exists b.
      split; [apply in_or_app; now left|exact Rb]. }
    apply process_batch_inv in B. destruct B as [mc [st [en [MC ->]]]].
    destruct (String.eqb_spec (Batch.phase_current x) "hot brewing") as [E|N1];
      [now apply OLD|].
    destruct (String.eqb_spec (Batch.phase_current x) "ferm") as [E|N2].
    { cbn [Display.ferm_table Display.cond_table] in I.
      apply in_app_or in I. destruct I as [I|I];
        [apply in_app_or in I; destruct I as [I|I]|].
      - apply OLD. apply in_or_app. now left.
      - destruct I as [<-|[]]. exists x. cbn.
        split; [apply in_or_app; right; now left|].
        repeat split; auto.
      - apply OLD. apply in_or_app. now right. }
    destruct (String.eqb_spec (Batch.phase_current x) "cond") as [E|N3].
    { cbn [Display.ferm_table Display.cond_table] in I.
      apply in_app_or in I. destruct I as [I|I];
        [|apply in_app_or in I; destruct I as [I|I]].
      - apply OLD. apply in_or_app. now left.
      - apply OLD. apply in_or_app. now right.
      - destruct I as [<-|[]]. exists x. cbn.
        split; [apply in_or_app; right; now left|].
        repeat split; auto. }
    destruct (String.eqb_spec (Batch.phase_current x) "bottling") as [E|N4];
      now apply OLD.
  - intros r [].
Qed.

Lemma catalog_tank_named tank tv :
  In (tank, tv) Tanks.instance_vars ->
  Py.mem tank [""; "not applicable"] = false /\ capacity tank = Tank.volume tv.
Proof.
  intros H. unfold capacity. rewrite (getattr_instance_var _ _ H). split; [|reflexivity].
  unfold Tanks.instance_vars in H. simpl in H.
  repeat (destruct H as [H|H]; [inversion H; reflexivity|]). contradiction.
Qed.

Lemma reachable_tank_or_none (c : config) k (b : Batch.t) :
  reachable c -> Py.get (batches c) k = Some b ->
  (In (Batch.phase_current b) ["ferm"; "cond"] /\
   exists tv, In (Batch.phase_current_tank b, tv) Tanks.instance_vars
              /\ Batch.volume b <= Tank.volume tv)
  \/ (~ In (Batch.phase_current b) ["ferm"; "cond"] /\
      In (Batch.phase_current_tank b) [""; "not applicable"]).
Proof.
  intros R G. apply reachable_well_formed in R.
  destruct (wf_batch c R k b G) as [F [NF _]].
  destruct (in_dec string_dec (Batch.phase_current b) ["ferm"; "cond"]) as [I|N].
  - left. split; [exact I|]. destruct (F I) as [tv [T [_ V]]]. eauto.
  - right. auto.
Qed.

Lemma update_process_tables_loop (bs : Py.dict Batch.t) :
  Display.update_process_tables bs
  = Display.for_each (Py.values bs) Display.process_batch (Display.mktables [] [] [] []).
Proof. now destruct bs. Qed.

Lemma reachable_process_tables_total (c : config) :
  reachable c ->
  exists t, Display.for_each (Py.values (batches c)) Display.process_batch
                             (Display.mktables [] [] [] []) = (inl t, []).
Proof.
  intros R. pose proof (reachable_well_formed c R) as W.
  apply display_for_each_total.
  intros x s I. apply process_batch_total.
  - now apply (reachable_values_timed c R).
  - destruct (In_values_get (batches c) x (wf_keys c W) I) as [k G].
    destruct (reachable_tank_or_none c k x R G) as [[_ [tv [T _]]]|[_ T]]; eauto.
Qed.

(** X11.  In every state of the service [update_process_tables] returns its
    tables and logs nothing.  Each row of the tables of fermenting and of
    conditioning names a tank of the catalog and shows that tank's volume as
    the maximal capacity, which is at least the volume of the batch; and no
    tank is shown with two batches. *)
Theorem in_service_process_tables (c : config) :
  in_service c ->
  exists t,
    Display.update_process_tables (batches c) = (inl t, []) /\
    (forall r, In r (Display.ferm_table t ++ Display.cond_table t) ->
       In (Display.t_tank r) Tanks.get_tank_names /\
       Display.t_max_capacity r = Some (capacity (Display.t_tank r)) /\
       Display.t_volume r <= capacity (Display.t_tank r)) /\
    (forall r1 r2,
       In r1 (Display.ferm_table t ++ Display.cond_table t) ->
       In r2 (Display.ferm_table t ++ Display.cond_table t) ->
       Display.t_tank r1 = Display.t_tank r2 -> Display.t_id r1 = Display.t_id r2).
Proof.
  intros S. pose proof (in_service_reachable c S) as R.
  pose proof (reachable_well_formed c R) as W.
  destruct (reachable_process_tables_total c R) as [t F].
  assert (ROW : forall r, In r (Display.ferm_table t ++ Display.cond_table t) ->
    exists k b tv, Py.get (batches c) k = Some b /\ Display.t_id r = k
      /\ Display.t_tank r = Batch.phase_current_tank b
      /\ Display.t_volume r = Batch.volume b
      /\ In (Batch.phase_current_tank b, tv) Tanks.instance_vars
      /\ Batch.volume b <= Tank.volume tv
      /\ Display.t_max_capacity r = Some (Tank.volume tv)).
  { intros r I.
    destruct (tank_rows_batches _ _ _ F r I) as [b [Ib [RI [RT [RV [P MC]]]]]].
    destruct (In_values_get (batches c) b (wf_keys c W) Ib) as [k G].
    destruct (reachable_records c R k b G) as [HI _ _ _ _ _].
    destruct (reachable_tank_or_none c k b R G) as [[_ [tv [T V]]]|[N _]];
      [|contradiction].
    destruct (catalog_tank_named _ _ T) as [M _]. rewrite M in MC.
    destruct MC as [tv' [TV MC]].
    unfold Tanks.get_tank_value in TV. rewrite (getattr_instance_var _ _ T) in TV.
    injection TV as <-.
    exists k, b, tv. repeat split; auto. congruence. }
  exists t. split; [|split].
  - now rewrite update_process_tables_loop.
  - intros r I. destruct (ROW r I) as [k [b [tv [G [RI [RT [RV [T [V MC]]]]]]]]].
    destruct (catalog_tank_named _ _ T) as [_ C].
    rewrite RT, RV, C. split; [|split; [exact MC|exact V]].
    eapply In_instance_vars_names; eauto.
  - intros r1 r2 I1 I2 E.
    destruct (ROW r1 I1) as [k1 [b1 [tv1 [G1 [RI1 [RT1 [_ [T1 _]]]]]]]].
    destruct (ROW r2 I2) as [k2 [b2 [tv2 [G2 [RI2 [RT2 _]]]]]].
    rewrite RI1, RI2. destruct (string_dec k1 k2) as [|N]; [assumption|].
    exfalso. apply (wf_tanks c W k1 k2 b1 b2 G1 G2 N); [congruence|].
    eapply In_instance_vars_names; eauto.
Qed.

(** The tables of [two_tanks_example]: the row of [b1] shows [albert]
    with 1000 litres, that of [b2] shows [brigadier] with 800. *)
Lemma in_service_process_tables_witness :
  exists t r1 r2,
    Display.update_process_tables (batches two_tanks_example) = (inl t, []) /\
    Display.ferm_table t = [r1] /\ Display.cond_table t = [r2] /\
    Display.t_max_capacity r1 = Some 1000 /\ Display.t_max_capacity r2 = Some 800.
Proof.
  assert (S : in_service two_tanks_example).
  { unfold two_tanks_example, ferm_example.
    apply in_service_run; [apply in_service_run; [constructor|in_the_range]
                          |in_the_range]. }
  destruct (in_service_process_tables two_tanks_example S) as [t [E [C _]]].
  assert (E' : exists r1 r2,
             Display.ferm_table t = [r1] /\ Display.cond_table t = [r2]
             /\ Display.t_tank r1 = "albert" /\ Display.t_tank r2 = "brigadier").
  { revert E. vm_compute. intros [= <-]. do 2 eexists. repeat split. }
  destruct E' as [r1 [r2 [F1 [F2 [T1 T2]]]]].
  exists t, r1, r2. split; [exact E|]. split; [exact F1|]. split; [exact F2|].
  rewrite F1, F2 in C. split.
  - destruct (C r1 (or_introl eq_refl)) as [_ [M _]]. rewrite M, T1. reflexivity.
  - destruct (C r2 (or_intror (or_introl eq_refl))) as [_ [M _]].
    rewrite M, T2. reflexivity.
Defined.

(** X12.  In every state of the service [interface_tracking] returns the
    start page: none of the four tables ends in an exception, nothing is logged
    and the state is what it was.  The table of the batches has a row for
    each key of the dictionary and the table of the orders an entry for
    each order. *)
Theorem interface_tracking_renders (c : config) :
  in_service c ->
  exists page,
    interface_tracking c = (c, inl page) /\
    map Display.row_id (Display.html_batch_table page) = Py.keys (batches c) /\
    map fst (Display.html_inventory_table page) = ["dunkers"; "pilsner"; "red_helles"] /\
    Display.html_order_table page = Py.values (customer_orders c).
Proof.
  intros S. pose proof (in_service_reachable c S) as R.
  pose proof (reachable_well_formed c R) as W.
  destruct (batch_rows_timed (Py.values (batches c)) [] (reachable_values_timed c R))
    as [rows [EB FB]].
  destruct (reachable_process_tables_total c R) as [t EP].
  assert (EI : Display.update_inventory_table (inventory c)
               = (inl [ ("dunkers", Inventory.num (inventory c) Inventory.dunkers);
                        ("pilsner", Inventory.num (inventory c) Inventory.pilsner);
                        ("red_helles", Inventory.num (inventory c) Inventory.red_helles) ],
                  []))
    by (destruct (inventory c); vm_compute; reflexivity).
  unfold interface_tracking, Display.update_batch_table.
  rewrite EB, EI, update_process_tables_loop, EP.
  cbn [Display.bind Display.ret app].
  rewrite logged_nil. eexists. split; [reflexivity|]. cbn.
  split; [|split; reflexivity].
  pose proof (Forall2_dict _ (fun k (b : Batch.t) r => Display.row_id r = k)
                (batches c) rows FB) as FK.
  cbv beta in FK. clear EB EP FB. unfold Py.keys.
  assert (F : Forall2 (fun (kv : string * Batch.t) r => Display.row_id r = fst kv)
                      (batches c) rows).
  { apply FK. intros k b r I [RI _].
    assert (G : Py.get (batches c) k = Some b) by (apply In_get; [apply W|exact I]).
    destruct (reachable_records c R k b G) as [HI _ _ _ _ _]. congruence. }
  clear FK. induction F as [|[k b] r d rows' I F IH]; simpl; [reflexivity|].
  simpl in I. rewrite I. f_equal. exact IH.
Qed.

(** The start page of [ferm_example]. *)
Lemma interface_tracking_renders_witness :
  exists page,
    interface_tracking ferm_example = (ferm_example, inl page) /\
    map Display.row_id (Display.html_batch_table page) = ["b1"; "b2"].
Proof.
  assert (S : in_service ferm_example)
    by (unfold ferm_example; apply in_service_run; [constructor|in_the_range]).
  destruct (interface_tracking_renders ferm_example S) as [page [E [K _]]].
  exists page. split; [exact E|]. rewrite K. reflexivity.
Defined.

(** ** The exceptions of a phase change *)

Lemma unused_tanks_names (bs : Py.dict Batch.t) tank :
  In tank (unused_tanks bs) -> In tank Tanks.get_tank_names.
Proof. unfold unused_tanks. rewrite filter_In. tauto. Qed.

Lemma available_tank_catalog (c : config) k (b : Batch.t) tank :
  reachable c -> Py.get (batches c) k = Some b ->
  Py.mem tank (available_tanks (batches c) b) = true ->
  tank <> "not applicable" ->
  exists tv, In (tank, tv) Tanks.instance_vars.
Proof.
  intros R G M NA. apply mem_In in M. unfold available_tanks in M.
  apply in_app_or in M. destruct M as [M|M].
  - apply names_instance_vars. eapply unused_tanks_names; eauto.
  - destruct (String.eqb_spec (Batch.phase_current_tank b) "") as [E|NE];
      simpl in M; [contradiction|].
    destruct M as [<-|[]].
    destruct (reachable_tank_or_none c k b R G) as [[_ [tv [T _]]]|[_ T]]; [eauto|].
    simpl in T. destruct T as [T|[T|[]]]; congruence.
Qed.

Lemma reachable_change_phase_returns
      (c : config) now id_input phase_input tank_input (b : Batch.t) :
  reachable c ->
  Py.get (batches c) id_input = Some b ->
  exists r, snd (change_batchs_phase c now
                   (Form.Change_phase id_input phase_input tank_input))
            = Returned r.
Proof.
  intros R G. unfold change_batchs_phase. rewrite G.
  destruct (negb (String.eqb (Batch.phase_current b) "finished")); [|simpl; eauto].
  destruct (Py.mem phase_input ["hot brewing"; "bottling"; "finished"]
            && String.eqb tank_input "not applicable").
  { destruct (Batch.set_phase_start_end_datetimes now _ (inventory c)).
    simpl. eauto. }
  destruct (Py.mem phase_input ["ferm"; "cond"]) eqn:P; cbn [andb]; [|simpl; eauto].
  destruct (String.eqb_spec tank_input "not applicable") as [E|NA];
    cbn [negb]; [simpl; eauto|].
  destruct (Py.mem tank_input (available_tanks (batches c) b)) eqn:M;
    cbn [negb]; [|simpl; eauto].
  destruct (available_tank_catalog c id_input b tank_input R G M NA) as [tv T].
  unfold Tanks.get_tank_value. rewrite (getattr_instance_var _ _ T).
  destruct (Py.mem phase_input (Tank.capability tv) && (Batch.volume b <=? Tank.volume tv)).
  - destruct (Batch.set_phase_start_end_datetimes now _ (inventory (logged c []))).
    simpl. eauto.
  - simpl. eauto.
Qed.

Lemma batch_table_cases (xs : list Batch.t) :
  (forall b, In b xs -> untimed b = false)
  \/ (exists b, In b xs /\ untimed b = true).
Proof.
  induction xs as [|a xs [IH|[b [I U]]]].
  - left. intros b [].
  - destruct (untimed a) eqn:U.
    + right. exists a. split; [now left|exact U].
    + left. intros b [<-|I]; auto.
  - right. exists b. split; [now right|exact U].
Qed.

(** What [update_batch_table] gives: the rows of all batches and no
    message in the log, or [AttributeError] for a batch in production
    without the start or the end of its phase. *)
Lemma update_batch_table_cases (bs : Py.dict Batch.t) :
  (exists rows, Display.update_batch_table bs = (inl rows, [])
                /\ map Display.row_id rows = map Batch.id (Py.values bs)
                /\ forall b, In b (Py.values bs) -> untimed b = false)
  \/ (Display.update_batch_table bs = (inr Display.AttributeError, [])
      /\ exists b, In b (Py.values bs) /\ untimed b = true).
Proof.
  unfold Display.update_batch_table.
  destruct (batch_table_cases (Py.values bs)) as [T|U].
  - left. destruct (batch_rows_timed (Py.values bs) [] T) as [rows [E F]].
    exists rows. split; [exact E|]. split; [|exact T].
    clear E T. induction F as [|b r xs rows [I _] F IH]; simpl; congruence.
  - right. split; [now apply batch_rows_untimed|exact U].
Qed.

Lemma reachable_batch_rows (c : config) :
  reachable c ->
  exists rows, Display.update_batch_table (batches c) = (inl rows, [])
               /\ map Display.row_id rows = Py.keys (batches c).
Proof.
  intros R. pose proof (reachable_well_formed c R) as W.
  destruct (update_batch_table_cases (batches c)) as [[rows [E [I _]]]|[_ [b [I U]]]].
  - exists rows. split; [exact E|]. rewrite I. unfold Py.values, Py.keys.
    assert (H : forall k b, In (k, b) (batches c) -> Batch.id b = k).
    { intros k b IN.
      assert (G : Py.get (batches c) k = Some b) by (apply In_get; [apply W|exact IN]).
      now destruct (reachable_records c R k b G). }
    clear E I. induction (batches c) as [|[k b] d IH]; simpl; [reflexivity|].
    rewrite (H k b (or_introl eq_refl)). f_equal. apply IH.
    intros k' b' IN. apply H. now right.
  - rewrite (reachable_values_timed c R b I) in U. discriminate.
Qed.

(** In a reachable state the page of the phase change ends in an
    exception for an unknown id only. *)
Lemma phase_page_uncaught (c : config) now f e :
  reachable c ->
  snd (change_batchs_phase_page c now f) = Uncaught e ->
  exists id_input phase_input tank_input,
    f = Form.Change_phase id_input phase_input tank_input /\
    Py.get (batches c) id_input = None /\
    e = Display.Lookup (Py.KeyError (Py.Str id_input)) /\
    fst (change_batchs_phase_page c now f) = c.
Proof.
  intros R. unfold change_batchs_phase_page.
  destruct (change_batchs_phase c now f) as [c' o] eqn:E.
  assert (R' : reachable c').
  { change c' with (fst (c', o)). rewrite <- E.
    exact (reachable_handle c (Phase_request now f) R). }
  destruct o as [r|e'].
  - destruct r; try discriminate.
    destruct (reachable_batch_rows c' R') as [rows [-> _]]. discriminate.
  - cbn [snd fst]. intros [= <-].
    destruct f as [id_input phase_input tank_input|]; [|discriminate].
    exists id_input, phase_input, tank_input.
    destruct (Py.get (batches c) id_input) as [b|] eqn:G.
    + destruct (reachable_change_phase_returns c now id_input phase_input tank_input
                  b R G) as [r H]. rewrite E in H. discriminate.
    + unfold change_batchs_phase in E. rewrite G in E. injection E as <- <-. auto.
Qed.

(** X13.  In a state of the service, at a time of the clock,
    [change_batchs_phase] ends in an exception in one case only: the id of
    the form is not a key of the dictionary of batches, and the exception is
    the [KeyError] of that id, raised before anything is changed.  Whatever
    phase and tank the form names for a batch that exists, the handler
    returns its page, with the table of the batches, or one of its two
    messages. *)
Theorem change_phase_raises_only_unknown_id (c : config) now f e :
  in_service c ->
  clock now ->
  snd (change_batchs_phase_page c now f) = Uncaught e ->
  exists id_input phase_input tank_input,
    f = Form.Change_phase id_input phase_input tank_input /\
    Py.get (batches c) id_input = None /\
    e = Display.Lookup (Py.KeyError (Py.Str id_input)) /\
    fst (change_batchs_phase_page c now f) = c.
Proof.
  intros S _. apply phase_page_uncaught. now apply in_service_reachable.
Qed.

(** In [added_example] there is no batch [b9]. *)
Lemma change_phase_raises_only_unknown_id_witness :
  exists id_input phase_input tank_input,
    Form.Change_phase "b9" "ferm" "albert"
    = Form.Change_phase id_input phase_input tank_input /\
    Py.get (batches added_example) id_input = None /\
    Display.Lookup (Py.KeyError (Py.Str "b9"))
    = Display.Lookup (Py.KeyError (Py.Str id_input)) /\
    fst (change_batchs_phase_page added_example (Calendar.mkdt 2019 11 20 0)
           (Form.Change_phase "b9" "ferm" "albert")) = added_example.
Proof.
  assert (S : in_service added_example)
    by (unfold added_example; apply in_service_run; [constructor|in_the_range]).
  apply (change_phase_raises_only_unknown_id added_example _ _ _ S).
  - in_the_range.
  - reflexivity.
Defined.

(** ** A request on a finished batch *)



(** ** Adding and deleting a batch *)

Lemma del_set_absent {V} (d : Py.dict V) k v :
  Py.get d k = None -> Py.del (Py.set d k v) k = d.
Proof.
  induction d as [|[k0 v0] d IH]; simpl.
  - now rewrite String.eqb_refl.
  - destruct (String.eqb k0 k) eqn:E; [discriminate|]. simpl. rewrite E.
    intros G. now rewrite IH.
Qed.

Lemma add_delete_batch_returns (c : config) f :
  (exists c', add_delete_batch c f = (c', Returned Page))
  \/ add_delete_batch c f = (c, Raised Py.ValueError).
Proof.
  destruct f as [i v bt|d|]; simpl; eauto.
  - destruct (Form.int v); [|auto].
    destruct (Py.get (batches c) (Form.remove_blanks i)); eauto.
  - destruct (Py.contains (batches c) d); eauto.
Qed.

(** The state after [add_delete_batch_page] is that of [add_delete_batch]:
    the making of the table changes and logs nothing. *)
Lemma add_delete_batch_page_state (c : config) f :
  fst (add_delete_batch_page c f) = fst (add_delete_batch c f).
Proof.
  unfold add_delete_batch_page.
  destruct (add_delete_batch c f) as [c' [r|e]]; [|reflexivity].
  destruct (update_batch_table_cases (batches c')) as [[rows [-> _]]|[-> _]];
    cbn [fst]; apply logged_nil.
Qed.

Lemma reachable_add_delete_batch_page (c : config) f :
  reachable c ->
  (exists rows,
      snd (add_delete_batch_page c f) = Batch_page rows
      /\ map Display.row_id rows = Py.keys (batches (fst (add_delete_batch c f))))
  \/ (add_delete_batch c f = (c, Raised Py.ValueError)
      /\ snd (add_delete_batch_page c f) = Uncaught (Display.Lookup Py.ValueError)).
Proof.
  intros R.
  pose proof (reachable_handle c (Batch_request f) R) as R'. cbn [handle] in R'.
  unfold add_delete_batch_page.
  destruct (add_delete_batch_returns c f) as [[c' E]|E]; rewrite E in R' |- *.
  - left. cbn [fst] in R' |- *.
    destruct (reachable_batch_rows c' R') as [rows [-> K]].
    exists rows. split; [reflexivity|exact K].
  - right. auto.
Qed.

(** X14.  Adding a batch of a volume from 0 to [max_volume] whose id,
    blanks removed, is no key yet puts the new batch last in the
    dictionary, under that id, in no phase, with no tank, no timestamp and
    no bottles recorded; every other entry, the inventory and the orders
    are what they were.  Adding under an id that is a key already changes
    nothing: the batch stored is not overwritten.  In a state of the
    service the handler then returns its page, with a row for each batch
    of the dictionary as it now is. *)
Theorem add_batch_fresh_or_kept (c : config) id_input v beer_type :
  let k := Form.remove_blanks id_input in
  let r := add_delete_batch_page c (Form.Add_batch id_input (Form.Num v) beer_type) in
  0 <= v <= max_volume ->
  (Py.get (batches c) k = None ->
   batches (fst r)
   = (batches c ++ [(k, Batch.mk k beer_type v None false "" "" ""
                               None None None None None None None None)])%list /\
   (forall k', k' <> k -> Py.get (batches (fst r)) k' = Py.get (batches c) k') /\
   inventory (fst r) = inventory c /\
   customer_orders (fst r) = customer_orders c) /\
  (Py.get (batches c) k <> None -> fst r = c) /\
  (in_service c ->
   exists rows, snd r = Batch_page rows
                /\ map Display.row_id rows = Py.keys (batches (fst r))).
Proof.
  cbv zeta. intros _. rewrite add_delete_batch_page_state.
  split; [|split].
  - intros G. unfold add_delete_batch. cbn [Form.int]. rewrite G. cbn.
    split; [now apply set_absent|]. split; [|split; reflexivity].
    intros k' N. apply get_set_neq. congruence.
  - intros G. unfold add_delete_batch. cbn [Form.int].
    destruct (Py.get (batches c) (Form.remove_blanks id_input)); [reflexivity|].
    congruence.
  - intros S.
    destruct (reachable_add_delete_batch_page c
                (Form.Add_batch id_input (Form.Num v) beer_type)
                (in_service_reachable c S)) as [H|[E _]]; [exact H|].
    exfalso. revert E. unfold add_delete_batch. cbn [Form.int].
    destruct (Py.get (batches c) (Form.remove_blanks id_input)); discriminate.
Qed.

(** The id [b 2] is stored as [b2] and the page has the rows of [b1] and
    [b2]; a second batch [b1] is not stored. *)
Lemma add_batch_fresh_or_kept_witness :
  (exists rows,
      snd (add_delete_batch_page added_example
             (Form.Add_batch "b 2" (Form.Num 300) "dunkers")) = Batch_page rows
      /\ map Display.row_id rows = ["b1"; "b2"]) /\
  fst (add_delete_batch_page added_example
         (Form.Add_batch "b1" (Form.Num 300) "dunkers")) = added_example.
Proof.
  assert (S : in_service added_example)
    by (unfold added_example; apply in_service_run; [constructor|in_the_range]).
  assert (V : 0 <= 300 <= max_volume) by (unfold max_volume; lia).
  split.
  - destruct (add_batch_fresh_or_kept added_example "b 2" 300 "dunkers" V)
      as [A [_ P]].
    destruct (P S) as [rows [E K]]. exists rows. split; [exact E|].
    rewrite K. destruct (A eq_refl) as [B _]. rewrite B. reflexivity.
  - apply (proj1 (proj2 (add_batch_fresh_or_kept added_example "b1" 300 "dunkers" V))).
    simpl. discriminate.
Defined.

(** X15.  Deleting a batch in a state of the service: the id is no key
    afterwards, every other entry is what it was, and so are the inventory,
    where the bottles of a finished batch stay, and the orders; the handler
    returns its page, with a row for each batch that is left.  An id that
    is no key is no error. *)
Theorem delete_batch_removes (c : config) k :
  in_service c ->
  let r := add_delete_batch_page c (Form.Delete_batch k) in
  (exists rows, snd r = Batch_page rows
                /\ map Display.row_id rows = Py.keys (batches (fst r))) /\
  Py.get (batches (fst r)) k = None /\
  (forall k', k' <> k -> Py.get (batches (fst r)) k' = Py.get (batches c) k') /\
  inventory (fst r) = inventory c /\
  customer_orders (fst r) = customer_orders c.
Proof.
  intros S. pose proof (in_service_reachable c S) as R.
  pose proof (reachable_well_formed c R) as W. cbv zeta.
  rewrite add_delete_batch_page_state. split.
  - destruct (reachable_add_delete_batch_page c (Form.Delete_batch k) R)
      as [H|[E _]]; [exact H|].
    exfalso. revert E. unfold add_delete_batch.
    destruct (Py.contains (batches c) k); discriminate.
  - unfold add_delete_batch, Py.contains.
    destruct (Py.get (batches c) k) eqn:G; cbn.
    + split; [apply get_del_eq; apply W|].
      split; [|split; reflexivity]. intros k' N. apply get_del_neq. congruence.
    + auto.
Qed.

(** Deleting the finished batch of [finished_example] leaves the 1000
    bottles in the inventory and a page without rows. *)
Lemma delete_batch_removes_witness :
  snd (add_delete_batch_page finished_example (Form.Delete_batch "b1")) = Batch_page [] /\
  Inventory.num (inventory (fst (add_delete_batch_page finished_example
                                   (Form.Delete_batch "b1")))) Inventory.pilsner
  = 1000.
Proof.
  assert (S : in_service finished_example)
    by (unfold finished_example; apply in_service_run; [constructor|in_the_range]).
  destruct (delete_batch_removes finished_example "b1" S) as [_ [_ [_ [I _]]]].
  split; [vm_compute; reflexivity|]. rewrite I. reflexivity.
Defined.

(** X16.  Adding a batch under a new id and deleting it again gives back
    the dictionary of batches, in its order, and the inventory. *)
Theorem add_then_delete_batch (c : config) id_input v beer_type :
  let k := Form.remove_blanks id_input in
  Py.get (batches c) k = None ->
  let c' := run c [ Batch_request (Form.Add_batch id_input (Form.Num v) beer_type);
                    Batch_request (Form.Delete_batch k) ] in
  batches c' = batches c /\ inventory c' = inventory c
  /\ customer_orders c' = customer_orders c.
Proof.
  cbv zeta. intros G. unfold run. cbn [fold_left handle].
  assert (A : add_delete_batch c (Form.Add_batch id_input (Form.Num v) beer_type)
              = (logged (with_batches c
                           (Py.set (batches c) (Form.remove_blanks id_input)
                              (Batch.init (Form.remove_blanks id_input) beer_type v)))
                        [Info_batch_added (Form.remove_blanks id_input) beer_type v],
                 Returned Page)).
  { unfold add_delete_batch. cbn [Form.int]. now rewrite G. }
  rewrite A. cbn [fst].
  unfold add_delete_batch, Py.contains. cbn [batches logged with_batches].
  rewrite get_set_eq. cbn. split; [|split; reflexivity].
  now apply del_set_absent.
Qed.

Lemma add_then_delete_batch_witness :
  batches (run added_example
             [ Batch_request (Form.Add_batch "b 2" (Form.Num 300) "dunkers");
               Batch_request (Form.Delete_batch "b2") ])
  = batches added_example.
Proof.
  apply (add_then_delete_batch added_example "b 2" 300 "dunkers"). reflexivity.
Defined.

(** X17.  A tank is free again once its batch has left it.  In a
    reachable state, after the batch that holds a tank of the catalog is
    deleted, and after a request that moves this batch to another tank or
    to a phase without tank is accepted, the tank is among the unused tanks
    from which the next request may choose. *)
Theorem tank_free_after_batch_leaves (c : config) k (b : Batch.t) :
  reachable c ->
  Py.get (batches c) k = Some b ->
  In (Batch.phase_current_tank b) Tanks.get_tank_names ->
  In (Batch.phase_current_tank b)
     (unused_tanks (batches (fst (add_delete_batch c (Form.Delete_batch k))))) /\
  (forall now phase tank,
     accepted c now (Form.Change_phase k phase tank) ->
     tank <> Batch.phase_current_tank b ->
     In (Batch.phase_current_tank b)
        (unused_tanks (batches (fst (change_batchs_phase c now
                                       (Form.Change_phase k phase tank)))))).
Proof.
  intros R G I. pose proof (reachable_well_formed c R) as W. split.
  - pose proof (reachable_well_formed _
                  (reachable_handle c (Batch_request (Form.Delete_batch k)) R)) as W'.
    cbn [handle] in W'.
    apply (unused_iff_not_occupied _ _ W' I).
    intros [id' [b' [G' [_ T']]]].
    assert (E : batches (fst (add_delete_batch c (Form.Delete_batch k)))
                = Py.del (batches c) k).
    { unfold add_delete_batch, Py.contains. now rewrite G. }
    rewrite E in G'. destruct (string_dec k id') as [<-|N].
    + rewrite get_del_eq in G' by apply W. discriminate.
    + rewrite get_del_neq in G' by assumption.
      apply (wf_tanks c W k id' b b' G G' N); [congruence|exact I].
  - intros now phase tank A NT.
    pose proof (reachable_well_formed _
                  (reachable_handle c (Phase_request now
                                         (Form.Change_phase k phase tank)) R)) as W'.
    cbn [handle] in W'.
    apply (unused_iff_not_occupied _ _ W' I).
    intros [id' [b' [G' [_ T']]]].
    destruct (accepted_not_finished c now k phase tank A) as [b0 [G0 NF]].
    rewrite G in G0. injection G0 as <-.
    apply (accepted_iff_changes c now k phase tank b G NF) in A.
    pose proof (change_phase_spec c now k phase tank b G NF) as S.
    cbv zeta in S. rewrite A in S. destruct S as [l S]. rewrite S in G'.
    cbn [fst batches] in G'.
    destruct (string_dec k id') as [<-|N].
    + rewrite get_set_eq in G'. injection G' as <-.
      pose proof (set_phase_datetimes_fields now (Batch.set_phase b phase tank)
                    (inventory c)) as F.
      cbv zeta in F. destruct F as [_ [FT _]]. rewrite FT in T'. simpl in T'.
      contradiction.
    + rewrite get_set_neq in G' by assumption.
      apply (wf_tanks c W k id' b b' G G' N); [congruence|exact I].
Qed.

(** In [ferm_example] the tank [albert] of [b1] is unused once [b1] is
    deleted. *)
Lemma tank_free_after_batch_leaves_witness :
  In "albert"
     (unused_tanks (batches (fst (add_delete_batch ferm_example
                                    (Form.Delete_batch "b1"))))).
Proof.
  assert (R : reachable ferm_example)
    by (unfold ferm_example; apply reachable_run; constructor).
  apply (proj1 (tank_free_after_batch_leaves ferm_example "b1" _ R eq_refl
                  ltac:(simpl; auto))).
Defined.

(** ** The orders *)

Lemma orders_add_delete_batch (c : config) f :
  customer_orders (fst (add_delete_batch c f)) = customer_orders c.
Proof.
  destruct f as [i v t|d|]; simpl; try reflexivity.
  - destruct (Form.int v); [|reflexivity].
    destruct (Py.get (batches c) (Form.remove_blanks i)); reflexivity.
  - destruct (Py.contains (batches c) d); reflexivity.
Qed.

Lemma orders_change_phase (c : config) now f :
  customer_orders (fst (change_batchs_phase c now f)) = customer_orders c.
Proof.
  destruct f as [id_input phase_input tank_input|]; [|reflexivity].
  destruct (Py.get (batches c) id_input) as [b|] eqn:G.
  2:{ unfold change_batchs_phase. now rewrite G. }
  destruct (String.eqb_spec (Batch.phase_current b) "finished") as [E|NF].
  { unfold change_batchs_phase. now rewrite G, E. }
  pose proof (change_phase_spec c now id_input phase_input tank_input b G NF) as S.
  cbv zeta in S.
  destruct (changes (batches c) b phase_input tank_input).
  - destruct S as [l ->]. reflexivity.
  - destruct S as [l [o [-> _]]]. reflexivity.
Qed.

Lemma orders_plan_production (c : config) now :
  customer_orders (fst (plan_production c now)) = customer_orders c.
Proof.
  unfold plan_production. destruct (monthly_sales_forecasts c); [reflexivity|].
  destruct (Planner.compute c now) as [[pl|e] l]; reflexivity.
Qed.

Lemma orders_register_dispatch_delete (c : config) f :
  NoDup (Py.keys (customer_orders c)) ->
  (forall k o, Py.get (customer_orders c) k = Some o -> order_record k o) ->
  NoDup (Py.keys (customer_orders (fst (register_dispatch_delete_order c f)))) /\
  (forall k o,
     Py.get (customer_orders (fst (register_dispatch_delete_order c f))) k = Some o ->
     order_record k o).
Proof.
  intros ND IH. destruct f as [i cu d r g q|n|n|]; simpl; [| | |auto].
  - destruct d as [y m d|]; [|auto].
    destruct (Py.get (customer_orders c) (Form.remove_blanks i)) eqn:G; [auto|].
    simpl. split; [now apply NoDup_keys_set|].
    intros k o. destruct (String.eqb_spec (Form.remove_blanks i) k) as [<-|N].
    + rewrite get_set_eq. intros [= <-]. constructor; simpl; auto.
      apply remove_blanks_idempotent.
    + rewrite get_set_neq by assumption. apply IH.
  - destruct (Py.get (customer_orders c) n) as [o0|] eqn:G; [|auto].
    destruct (String.eqb (Order.dispatched o0) "dispatched"); [auto|].
    destruct (Inventory.get_inv_items_quantity (Order.recipe o0)) as [a l].
    destruct (Form.int (Order.quantity_ordered o0)); [|auto].
    destruct a as [cell| | |]; try (simpl; auto).
    destruct (z <=? _); [|simpl; auto].
    simpl. split; [now apply NoDup_keys_set|].
    intros k o. destruct (String.eqb_spec n k) as [<-|N].
    + rewrite get_set_eq. intros [= <-]. destruct (IH n o0 G) as [I K _].
      constructor; simpl; auto.
    + rewrite get_set_neq by assumption. apply IH.
  - unfold Py.contains. destruct (Py.get (customer_orders c) n); [|auto].
    simpl. split; [now apply NoDup_keys_del|].
    intros k o G. apply (IH k). eapply get_del_some; eauto.
Qed.

Lemma reachable_orders (c : config) :
  reachable c ->
  NoDup (Py.keys (customer_orders c)) /\
  (forall k o, Py.get (customer_orders c) k = Some o -> order_record k o).
Proof.
  induction 1 as [|c r R [ND IH]]; [split; [constructor|discriminate]|].
  destruct r as [f|now f|f|now|fs]; cbn [handle].
  - rewrite orders_add_delete_batch. auto.
  - rewrite orders_change_phase. auto.
  - now apply orders_register_dispatch_delete.
  - rewrite orders_plan_production. auto.
  - auto.
Qed.

(** X18.  In every reachable state an order is stored under its own
    invoice number, which has no blank, and its entry [dispatched] is the
    empty string or [dispatched]. *)
Theorem reachable_order_record (c : config) k (o : Order.t) :
  reachable c ->
  Py.get (customer_orders c) k = Some o ->
  Order.invoice_number o = k /\ Form.remove_blanks k = k /\
  (Order.dispatched o = "" \/ Order.dispatched o = "dispatched").
Proof.
  intros R G. destruct (proj2 (reachable_orders c R) k o G) as [I K D]. auto.
Qed.

(** The order registered as [ 1 7] is stored as [17]. *)
Lemma reachable_order_record_witness :
  exists o, Py.get (customer_orders ordered_example) "17" = Some o /\
            Order.invoice_number o = "17".
Proof.
  assert (R : reachable ordered_example)
    by (unfold ordered_example; apply reachable_run; constructor).
  eexists. split; [vm_compute; reflexivity|].
  apply (proj1 (reachable_order_record ordered_example "17" _ R eq_refl)).
Defined.

(** X19.  An order is dispatched once.  After a request that dispatched
    an order, a second request for the same order returns the message that
    the order has already been dispatched and changes nothing: the
    inventory is debited once. *)
Theorem dispatch_twice_refused (c : config) n (o : Order.t) :
  Py.get (customer_orders c) n = Some o ->
  snd (register_dispatch_delete_order c (Form.Dispatch_order n)) = Returned Page ->
  let c1 := fst (register_dispatch_delete_order c (Form.Dispatch_order n)) in
  register_dispatch_delete_order c1 (Form.Dispatch_order n)
  = (c1, Returned Already_dispatched).
Proof.
  intros G P. cbv zeta.
  assert (E : exists inv' l',
             register_dispatch_delete_order c (Form.Dispatch_order n)
             = (mkconfig (batches c)
                         (Py.set (customer_orders c) n
                                 (Order.set_dispatched o "dispatched"))
                         (monthly_sales_forecasts c) inv' l',
                Returned Page)).
  { revert P. unfold register_dispatch_delete_order. rewrite G.
    destruct (String.eqb (Order.dispatched o) "dispatched"); [discriminate|].
    destruct (Inventory.get_inv_items_quantity (Order.recipe o)) as [a l].
    destruct (Form.int (Order.quantity_ordered o)); [|discriminate].
    destruct a as [cell| | |]; try discriminate.
    destruct (z <=? _); [|discriminate].
    intros _. eexists _, _. reflexivity. }
  destruct E as [inv' [l' E]]. rewrite E. cbn [fst].
  unfold register_dispatch_delete_order. cbn [customer_orders].
  rewrite get_set_eq. reflexivity.
Qed.

(** With 140 bottles of pilsner the order for 100 is dispatched, and 40
    are left after the second request as after the first. *)
Lemma dispatch_twice_refused_witness :
  snd (register_dispatch_delete_order
         (fst (register_dispatch_delete_order (stock_example 140)
                 (Form.Dispatch_order "17")))
         (Form.Dispatch_order "17")) = Returned Already_dispatched /\
  Inventory.num
    (inventory (fst (register_dispatch_delete_order
                       (fst (register_dispatch_delete_order (stock_example 140)
                               (Form.Dispatch_order "17")))
                       (Form.Dispatch_order "17")))) Inventory.pilsner = 40.
Proof.
  pose proof (dispatch_twice_refused (stock_example 140) "17" order_example
                eq_refl eq_refl) as H.
  cbv zeta in H. rewrite H. split; reflexivity.
Defined.

(** X20.  Dispatching an order for a beer that is no attribute of the
    inventory: [get_inv_items_quantity] logs its error and hands out a
    count of zero that is not the inventory's, so the inventory is never
    changed.  An order for more than zero bottles is refused with the
    not-enough-bottles message and stays as it was; an order for zero
    bottles or fewer is marked dispatched: its entry [dispatched] is the
    string [dispatched] afterwards and its other entries are what they
    were. *)
Theorem dispatch_unknown_recipe (c : config) n (o : Order.t) q :
  Py.get (customer_orders c) n = Some o ->
  Order.dispatched o <> "dispatched" ->
  Form.int (Order.quantity_ordered o) = Some q ->
  Inventory.getattr (Order.recipe o) = None ->
  let r := register_dispatch_delete_order c (Form.Dispatch_order n) in
  inventory (fst r) = inventory c /\
  In (Error_inv_item_missing (Order.recipe o)) (log (fst r)) /\
  (0 < q -> snd r = Returned (Not_enough_bottles (Order.recipe o))
            /\ customer_orders (fst r) = customer_orders c) /\
  (q <= 0 -> snd r = Returned Page
             /\ exists o', Py.get (customer_orders (fst r)) n = Some o'
                           /\ Order.dispatched o' = "dispatched"
                           /\ Order.invoice_number o' = Order.invoice_number o
                           /\ Order.customer o' = Order.customer o
                           /\ Order.date_required o' = Order.date_required o
                           /\ Order.recipe o' = Order.recipe o
                           /\ Order.gyle_number o' = Order.gyle_number o
                           /\ Order.quantity_ordered o' = Order.quantity_ordered o).
Proof.
  intros G ND Q A. cbv zeta. unfold register_dispatch_delete_order.
  rewrite G. apply String.eqb_neq in ND. rewrite ND.
  unfold Inventory.get_inv_items_quantity. rewrite A, Q.
  cbn [Inventory.read Inventory.write inventory logged].
  destruct (Z.leb_spec q 0) as [L|L]; cbn.
  - split; [reflexivity|]. split.
    + apply in_or_app. left. apply in_or_app. right. now left.
    + split; [lia|]. intros _. split; [reflexivity|].
      rewrite get_set_eq. eexists. split; [reflexivity|]. simpl. repeat split.
  - split; [reflexivity|]. split.
    + apply in_or_app. right. now left.
    + split; [auto|lia].
Qed.

(** An order for 3 bottles of stout is refused, one for 0 bottles is
    marked dispatched; the inventory is the same after both. *)
Lemma dispatch_unknown_recipe_witness :
  snd (register_dispatch_delete_order (stout_example 3) (Form.Dispatch_order "18"))
  = Returned (Not_enough_bottles "stout") /\
  snd (register_dispatch_delete_order (stout_example 0) (Form.Dispatch_order "18"))
  = Returned Page /\
  inventory (fst (register_dispatch_delete_order (stout_example 0)
                    (Form.Dispatch_order "18"))) = Inventory.mk 5 5 5 /\
  exists o', Py.get (customer_orders (fst (register_dispatch_delete_order
                                             (stout_example 0)
                                             (Form.Dispatch_order "18")))) "18"
             = Some o'
             /\ Order.dispatched o' = "dispatched".
Proof.
  pose proof (dispatch_unknown_recipe (stout_example 3) "18" (stout_order 3) 3
                eq_refl ltac:(simpl; discriminate) eq_refl eq_refl) as H3.
  pose proof (dispatch_unknown_recipe (stout_example 0) "18" (stout_order 0) 0
                eq_refl ltac:(simpl; discriminate) eq_refl eq_refl) as H0.
  cbv zeta in H3, H0.
  destruct H3 as [_ [_ [P3 _]]]. destruct H0 as [I0 [_ [_ P0]]].
  split; [apply P3; lia|].
  destruct (P0 ltac:(lia)) as [O0 [o' [G0 [D0 _]]]].
  split; [exact O0|]. split; [exact I0|]. exists o'. split; assumption.
Defined.

(** ** The counts of the inventory *)

Lemma inventory_plan_production (c : config) now :
  inventory (fst (plan_production c now)) = inventory c.
Proof.
  unfold plan_production. destruct (monthly_sales_forecasts c); [reflexivity|].
  destruct (Planner.compute c now) as [[pl|e] l]; reflexivity.
Qed.

Lemma stock_set_num (inv : Inventory.t) i n :
  stock_nonneg inv -> 0 <= n -> stock_nonneg (Inventory.set_num inv i n).
Proof.
  intros S N j. rewrite set_num_other. destruct (Inventory.item_eqb j i); auto.
Qed.

Lemma stock_set_phase_datetimes now (b : Batch.t) (inv : Inventory.t) :
  stock_nonneg inv -> 0 <= Batch.volume b ->
  stock_nonneg (snd (Batch.set_phase_start_end_datetimes now b inv)).
Proof.
  intros S V. unfold Batch.set_phase_start_end_datetimes.
  destruct (String.eqb (Batch.phase_current b) "hot brewing"); [exact S|].
  destruct (String.eqb (Batch.phase_current b) "ferm"); [exact S|].
  destruct (String.eqb (Batch.phase_current b) "cond"); [exact S|].
  destruct (String.eqb (Batch.phase_current b) "bottling"); [exact S|].
  destruct (String.eqb (Batch.phase_current b) "finished"); [|exact S].
  unfold Batch.put_bottles_in_inventory. cbn.
  destruct (Batch.bottles_put_in_inventory b); [exact S|]. cbn.
  pose proof (S Inventory.dunkers) as S1. pose proof (S Inventory.pilsner) as S2.
  pose proof (S Inventory.red_helles) as S3. simpl in S1, S2, S3.
  destruct (String.eqb (Batch.beer_type b) "dunkers");
    [intros i; destruct i; simpl; lia|].
  destruct (String.eqb (Batch.beer_type b) "pilsner");
    [intros i; destruct i; simpl; lia|].
  destruct (String.eqb (Batch.beer_type b) "red_helles");
    [intros i; destruct i; simpl; lia|exact S].
Qed.

Lemma stock_register_dispatch_delete (c : config) f :
  stock_nonneg (inventory c) ->
  stock_nonneg (inventory (fst (register_dispatch_delete_order c f))).
Proof.
  intros S. destruct f as [i cu d r g q|n|n|]; simpl; [| | |exact S].
  - destruct d; [|exact S].
    destruct (Py.get (customer_orders c) (Form.remove_blanks i)); exact S.
  - destruct (Py.get (customer_orders c) n) as [o|]; [|exact S].
    destruct (String.eqb (Order.dispatched o) "dispatched"); [exact S|].
    destruct (Inventory.get_inv_items_quantity (Order.recipe o)) as [a l].
    destruct (Form.int (Order.quantity_ordered o)); [|exact S].
    destruct a as [cell| | |]; try exact S.
    destruct (Z.leb_spec z (Inventory.read (inventory c) cell)) as [L|L];
      [|exact S].
    simpl. destruct cell as [j|m]; [|exact S].
    simpl in L |- *. apply stock_set_num; [exact S|lia].
  - destruct (Py.contains (customer_orders c) n); exact S.
Qed.

Lemma stock_handle (c : config) r :
  reachable c ->
  stock_nonneg (inventory c) ->
  (forall k b, Py.get (batches c) k = Some b -> 0 <= Batch.volume b) ->
  adds_nonneg r ->
  stock_nonneg (inventory (fst (handle c r))) /\
  (forall k b, Py.get (batches (fst (handle c r))) k = Some b -> 0 <= Batch.volume b).
Proof.
  intros R S V A. pose proof (reachable_well_formed c R) as W.
  destruct r as [f|now f|f|now|fs]; cbn [handle].
  - destruct f as [i v t|d|]; simpl; [| |auto].
    + destruct v as [z|]; simpl; [|auto].
      destruct (Py.get (batches c) (Form.remove_blanks i)) eqn:G; [auto|].
      simpl. split; [exact S|]. intros k b.
      destruct (String.eqb_spec (Form.remove_blanks i) k) as [<-|N].
      * rewrite get_set_eq. intros [= <-]. exact A.
      * rewrite get_set_neq by assumption. apply V.
    + unfold Py.contains. destruct (Py.get (batches c) d); [|auto]. simpl.
      split; [exact S|]. intros k b G. apply (V k).
      eapply get_del_some; [apply W|exact G].
  - destruct f as [id_input phase_input tank_input|]; [|auto].
    destruct (Py.get (batches c) id_input) as [b0|] eqn:G.
    2:{ unfold change_batchs_phase. rewrite G. auto. }
    destruct (String.eqb_spec (Batch.phase_current b0) "finished") as [E|NF].
    { unfold change_batchs_phase. rewrite G, E. auto. }
    pose proof (change_phase_spec c now id_input phase_input tank_input b0 G NF) as P.
    cbv zeta in P.
    destruct (changes (batches c) b0 phase_input tank_input).
    + destruct P as [l ->]. cbn [fst inventory batches].
      pose proof (set_phase_datetimes_fields now
                    (Batch.set_phase b0 phase_input tank_input) (inventory c)) as F.
      cbv zeta in F. destruct F as [_ [_ [FV _]]]. simpl in FV. split.
      * apply stock_set_phase_datetimes; [exact S|]. simpl. eapply V; eauto.
      * intros k b. destruct (String.eqb_spec id_input k) as [<-|N].
        -- rewrite get_set_eq. intros [= <-]. rewrite FV. eapply V; eauto.
        -- rewrite get_set_neq by assumption. apply V.
    + destruct P as [l [o [-> _]]]. auto.
  - rewrite batches_register_dispatch_delete_order.
    split; [now apply stock_register_dispatch_delete|exact V].
  - rewrite batches_plan_production, inventory_plan_production. auto.
  - auto.
Qed.

(** X21.  No count of the inventory ever goes below zero, as long as no
    batch of negative volume is added: after any sequence of requests from
    the start of the program, whatever is finished, dispatched or deleted,
    the three counts are zero or more. *)
Theorem stock_never_negative (rs : list request) :
  Forall adds_nonneg rs ->
  stock_nonneg (inventory (run initial_config rs)).
Proof.
  intros A.
  assert (H : forall c,
             reachable c ->
             stock_nonneg (inventory c) ->
             (forall k b, Py.get (batches c) k = Some b -> 0 <= Batch.volume b) ->
             stock_nonneg (inventory (run c rs))).
  { unfold run. induction A as [|r rs Ar A IH]; intros c R S V; [exact S|].
    cbn [fold_left]. destruct (stock_handle c r R S V Ar) as [S' V'].
    apply IH; [now constructor|exact S'|exact V']. }
  apply H; [constructor| |discriminate].
  intros i. destruct i; simpl; lia.
Qed.

(** The requests of [finished_example] add 500 litres. *)
Lemma stock_never_negative_witness : stock_nonneg (inventory finished_example).
Proof.
  apply (stock_never_negative
           [ Batch_request (Form.Add_batch "b1" (Form.Num 500) "pilsner");
             Phase_request (Calendar.mkdt 2019 11 20 0)
                           (Form.Change_phase "b1" "finished" "not applicable") ]).
  repeat constructor. simpl. lia.
Defined.

(** ** What the page of the phase change shows *)

Lemma held_by_other_occupied (c : config) id_input tank :
  held_by_other c id_input tank -> occupied c tank.
Proof. intros [id' [b' [_ H]]]. now exists id', b'. Qed.

(** X22.  The message that asks for an available tank, in a reachable
    state: the state is what it was, the tank that was asked for is not in
    the list of the message, and the list is made of the tanks of the
    catalog that no other active batch holds, the batch's own tank among
    them, with [not applicable] added when that is the current tank of the
    batch. *)
Theorem select_available_tank_lists_free_tanks
        (c c' : config) now id_input phase_input tank_input (b : Batch.t) l :
  reachable c ->
  Py.get (batches c) id_input = Some b ->
  change_batchs_phase c now (Form.Change_phase id_input phase_input tank_input)
  = (c', Returned (Select_available_tank l)) ->
  c' = c /\ ~ In tank_input l /\
  forall t, In t l <->
            (In t Tanks.get_tank_names /\ ~ held_by_other c id_input t)
            \/ (t = "not applicable" /\ Batch.phase_current_tank b = "not applicable").
Proof.
  intros R G H. pose proof (reachable_well_formed c R) as W.
  assert (E : c' = c /\ l = available_tanks (batches c) b
              /\ Py.mem tank_input (available_tanks (batches c) b) = false).
  { revert H. unfold change_batchs_phase. rewrite G.
    destruct (negb (String.eqb (Batch.phase_current b) "finished")); [|discriminate].
    destruct (Py.mem phase_input ["hot brewing"; "bottling"; "finished"]
              && String.eqb tank_input "not applicable").
    { destruct (Batch.set_phase_start_end_datetimes now _ (inventory c)).
      discriminate. }
    destruct (Py.mem phase_input ["ferm"; "cond"]
              && negb (String.eqb tank_input "not applicable")); [|discriminate].
    destruct (Py.mem tank_input (available_tanks (batches c) b)) eqn:M; cbn [negb].
    - destruct (Tanks.get_tank_value tank_input) as [tank_value l0].
      destruct tank_value as [tv| | |]; try discriminate.
      destruct (Py.mem phase_input (Tank.capability tv)
                && (Batch.volume b <=? Tank.volume tv)); [|discriminate].
      destruct (Batch.set_phase_start_end_datetimes now _ (inventory (logged c l0))).
      discriminate.
    - intros [= <- <-]. auto. }
  destruct E as [-> [-> M]]. split; [reflexivity|].
  split; [now apply mem_false|].
  intros t. unfold available_tanks. rewrite in_app_iff. split.
  - intros [I|I].
    + left. pose proof (unused_tanks_names _ _ I) as N. split; [exact N|].
      intros HO. apply (unused_iff_not_occupied c t W N) in I. apply I.
      now apply held_by_other_occupied with id_input.
    + destruct (String.eqb_spec (Batch.phase_current_tank b) "") as [E|NE];
        simpl in I; [contradiction|]. destruct I as [<-|[]].
      destruct (reachable_tank_or_none c id_input b R G) as [[_ [tv [T _]]]|[_ T]].
      * left. pose proof (In_instance_vars_names _ _ T) as N. split; [exact N|].
        intros [id' [b' [NI [G' [_ T']]]]].
        apply (wf_tanks c W id_input id' b b' G G'); [congruence|congruence|exact N].
      * right. simpl in T. destruct T as [T|[T|[]]]; [congruence|auto].
  - intros [[N HO]|[-> T]].
    + destruct (in_dec string_dec t (unused_tanks (batches c))) as [I|NI]; [now left|].
      right. unfold unused_tanks in NI. rewrite filter_In in NI.
      destruct (Py.mem t (used_tanks (batches c))) eqn:U; [|exfalso; apply NI; auto].
      apply mem_In in U. apply (used_tanks_spec _ _ (wf_keys c W)) in U.
      destruct U as [NE [id' [b' [G' T']]]].
      destruct (string_dec id' id_input) as [->|NI'].
      * rewrite G in G'. injection G' as <-. rewrite T'.
        apply String.eqb_neq in NE. rewrite NE. simpl. now left.
      * exfalso. apply HO. exists id', b'. repeat split; auto.
        intros F.
        destruct (reachable_tank_or_none c id' b' R G') as [[P _]|[_ T]].
        -- rewrite F in P. simpl in P. destruct P as [P|[P|[]]]; discriminate.
        -- rewrite T' in T. destruct (names_instance_vars t N) as [tv TV].
           destruct (catalog_tank_named _ _ TV) as [MF _].
           apply mem_false in MF. contradiction.
    + right. rewrite T. simpl. now left.
Qed.

(** In [ferm_example] batch [b2] asks for [albert], which [b1] holds:
    [albert] is not in the list of the message. *)
Lemma select_available_tank_lists_free_tanks_witness :
  exists l,
    change_batchs_phase ferm_example (Calendar.mkdt 2019 11 21 0)
                        (Form.Change_phase "b2" "ferm" "albert")
    = (ferm_example, Returned (Select_available_tank l)) /\
    ~ In "albert" l /\ In "brigadier" l.
Proof.
  assert (R : reachable ferm_example)
    by (unfold ferm_example; apply reachable_run; constructor).
  assert (H : exists l,
             change_batchs_phase ferm_example (Calendar.mkdt 2019 11 21 0)
                                 (Form.Change_phase "b2" "ferm" "albert")
             = (ferm_example, Returned (Select_available_tank l))
             /\ In "brigadier" l).
  { eexists. split; [vm_compute; reflexivity|]. simpl. auto. }
  destruct H as [l [H B]]. exists l. split; [exact H|]. split; [|exact B].
  exact (proj1 (proj2 (select_available_tank_lists_free_tanks
                         ferm_example ferm_example (Calendar.mkdt 2019 11 21 0)
                         "b2" "ferm" "albert" _ l R eq_refl H))).
Defined.

(** X23.  In a state of the service the ids that the loop of the phase
    change writes into the option tags of its drop-down list are the keys
    of the batches that are not finished, and a request that names one of
    these ids, at a time of the clock, ends in no exception, whatever phase
    and tank it names: it is answered by a text or by the page. *)
Theorem offered_batch_ids (c : config) id_input :
  in_service c ->
  (In id_input (Display.htm_batch_ids (batches c)) <->
   exists b, Py.get (batches c) id_input = Some b
             /\ Batch.phase_current b <> "finished") /\
  (In id_input (Display.htm_batch_ids (batches c)) ->
   forall now phase_input tank_input,
   clock now ->
   let r := change_batchs_phase_page c now
              (Form.Change_phase id_input phase_input tank_input) in
   (forall e, snd r <> Uncaught e) /\
   ((exists message, snd r = Text message) \/
    (exists rows, snd r = Phase_page (Display.htm_batch_ids (batches (fst r))) rows
                  /\ map Display.row_id rows = Py.keys (batches (fst r))))).
Proof.
  intros S. pose proof (in_service_reachable c S) as R.
  pose proof (reachable_well_formed c R) as W.
  assert (IFF : In id_input (Display.htm_batch_ids (batches c)) <->
                exists b, Py.get (batches c) id_input = Some b
                          /\ Batch.phase_current b <> "finished").
  { unfold Display.htm_batch_ids. rewrite in_map_iff. split.
    - intros [b [I F]]. apply filter_In in F. destruct F as [V NF].
      destruct (In_values_get (batches c) b (wf_keys c W) V) as [k G].
      destruct (reachable_records c R k b G) as [HI _ _ _ _ _].
      exists b. split; [congruence|].
      apply negb_true_iff in NF. now apply String.eqb_neq.
    - intros [b [G NF]]. exists b.
      destruct (reachable_records c R id_input b G) as [HI _ _ _ _ _].
      split; [exact HI|]. apply filter_In. split.
      + unfold Py.values. apply in_map_iff. exists (id_input, b).
        split; [reflexivity|now apply get_In].
      + apply negb_true_iff. now apply String.eqb_neq. }
  split; [exact IFF|].
  intros I now phase_input tank_input CK r. apply IFF in I.
  destruct I as [b [G _]].
  assert (NE : forall e, snd r <> Uncaught e).
  { intros e U.
    destruct (phase_page_uncaught c now _ e R U)
      as [i [p [t [F [N _]]]]].
    injection F as <- _ _. congruence. }
  split; [exact NE|].
  subst r. revert NE. unfold change_batchs_phase_page.
  destruct (change_batchs_phase c now
              (Form.Change_phase id_input phase_input tank_input))
    as [c' o] eqn:E.
  assert (R' : reachable c').
  { change c' with (fst (c', o)). rewrite <- E.
    exact (reachable_handle c (Phase_request now _) R). }
  destruct o as [m|e'].
  - destruct m; try (intros _; left; eexists; reflexivity).
    destruct (reachable_batch_rows c' R') as [rows [-> K]].
    intros _. right. exists rows. cbn [fst snd logged batches].
    split; [reflexivity|exact K].
  - intros NE. exfalso. exact (NE _ eq_refl).
Qed.

(** In [finished_example] no id is written; in [ferm_example] both are. *)
Lemma offered_batch_ids_witness :
  Display.htm_batch_ids (batches finished_example) = [] /\
  In "b2" (Display.htm_batch_ids (batches ferm_example)) /\
  forall e, snd (change_batchs_phase_page ferm_example (Calendar.mkdt 2019 11 21 0)
                   (Form.Change_phase "b2" "cond" "harry")) <> Uncaught e.
Proof.
  assert (S : in_service ferm_example)
    by (unfold ferm_example; apply in_service_run; [constructor|in_the_range]).
  assert (CK : clock (Calendar.mkdt 2019 11 21 0))
    by (unfold clock, Calendar.valid; repeat split; vm_compute;
        first [reflexivity | discriminate]).
  split; [reflexivity|].
  assert (I : In "b2" (Display.htm_batch_ids (batches ferm_example))).
  { apply (proj1 (offered_batch_ids ferm_example "b2" S)).
    eexists. split; [vm_compute; reflexivity|]. simpl. discriminate. }
  split; [exact I|].
  exact (proj1 (proj2 (offered_batch_ids ferm_example "b2" S) I
                  (Calendar.mkdt 2019 11 21 0) "cond" "harry" CK)).
Defined.

(** ** Registering and deleting an order *)

(** X25.  Registering an order whose invoice number, blanks removed, is no
    key yet puts the order last in the dictionary, under that number and
    not dispatched; the other orders, the batches and the inventory are
    what they were.  Under a number that is a key already nothing is
    changed, and a date that is not in the format of the form ends the
    request in [ValueError] before anything is changed. *)
Theorem register_order_fresh_or_kept
        (c : config) invoice customer (date : Form.datestr) recipe gyle quantity :
  let k := Form.remove_blanks invoice in
  let r := register_dispatch_delete_order c
             (Form.Register_order invoice customer date recipe gyle quantity) in
  (date = Form.Not_a_date -> r = (c, Raised Py.ValueError)) /\
  (forall y m d,
     date = Form.Date y m d ->
     (Py.get (customer_orders c) k = None ->
      snd r = Returned Page /\
      customer_orders (fst r)
      = (customer_orders c
         ++ [(k, Order.mk k customer (y, m, d) recipe gyle quantity "")])%list /\
      batches (fst r) = batches c /\ inventory (fst r) = inventory c) /\
     (Py.get (customer_orders c) k <> None -> r = (c, Returned Page))).
Proof.
  cbv zeta. split.
  - intros ->. reflexivity.
  - intros y m d ->. unfold register_dispatch_delete_order.
    destruct (Py.get (customer_orders c) (Form.remove_blanks invoice)) eqn:G.
    + split; [discriminate|reflexivity].
    + split; [|congruence]. intros _. cbn.
      split; [reflexivity|]. split; [now apply set_absent|]. split; reflexivity.
Qed.

(** A second order [17] is not stored, and an order with a date that
    cannot be read is refused. *)
Lemma register_order_fresh_or_kept_witness :
  register_dispatch_delete_order ordered_example
    (Form.Register_order "17" "Bob" (Form.Date 2020 1 1) "dunkers" "5" (Form.Num 7))
  = (ordered_example, Returned Page) /\
  register_dispatch_delete_order ordered_example
    (Form.Register_order "19" "Bob" Form.Not_a_date "dunkers" "5" (Form.Num 7))
  = (ordered_example, Raised Py.ValueError).
Proof.
  split.
  - apply (proj2 (proj2 (register_order_fresh_or_kept ordered_example "17" "Bob"
                           (Form.Date 2020 1 1) "dunkers" "5" (Form.Num 7))
                    2020 1 1 eq_refl)).
    simpl. discriminate.
  - apply (proj1 (register_order_fresh_or_kept ordered_example "19" "Bob"
                    Form.Not_a_date "dunkers" "5" (Form.Num 7))).
    reflexivity.
Defined.

(** X26.  Deleting an order in a reachable state: the number is no key
    afterwards and every other order is what it was.  The inventory is not
    changed: the bottles of a dispatched order that is deleted do not come
    back.  A number that is no key is no error. *)
Theorem delete_order_removes (c : config) n :
  reachable c ->
  let r := register_dispatch_delete_order c (Form.Delete_order n) in
  snd r = Returned Page /\
  Py.get (customer_orders (fst r)) n = None /\
  (forall k, k <> n -> Py.get (customer_orders (fst r)) k = Py.get (customer_orders c) k) /\
  inventory (fst r) = inventory c /\ batches (fst r) = batches c.
Proof.
  intros R. destruct (reachable_orders c R) as [ND _]. cbv zeta.
  unfold register_dispatch_delete_order, Py.contains.
  destruct (Py.get (customer_orders c) n) eqn:G; cbn.
  - split; [reflexivity|]. split; [now apply get_del_eq|].
    split; [|split; reflexivity]. intros k N. apply get_del_neq. congruence.
  - auto.
Qed.

Lemma delete_order_removes_witness :
  Py.get (customer_orders (fst (register_dispatch_delete_order ordered_example
                                  (Form.Delete_order "17")))) "17" = None.
Proof.
  assert (R : reachable ordered_example)
    by (unfold ordered_example; apply reachable_run; constructor).
  apply (delete_order_removes ordered_example "17" R).
Defined.

(** ** The exceptions of the planner *)

(** X24.  In a state of the service, at a time of the clock, the planner
    returns its page with a plan, and ends in no exception, whenever a
    forecast is stored, every forecast is for one of the three beer types
    and has a value that is not infinite for the first of this month and
    of the two months that the planner computes after it, and every batch
    is of one of the three beer types. *)
Theorem plan_production_in_service_returns_plan (c : config) now :
  in_service c ->
  clock now ->
  forecasts_ready (monthly_sales_forecasts c) now ->
  (forall k b, In (k, b) (batches c) -> known_beer (Batch.beer_type b)) ->
  exists c' p, plan_production c now = (c', Returned (Plan_page p)).
Proof.
  intros _ _ FR KB. now apply plan_production_returns_plan.
Qed.

(** The forecasts of [planning_example] cover November 2019 to January
    2020, and its two batches are of pilsner and dunkers. *)
Lemma plan_production_in_service_returns_plan_witness :
  exists c' p,
    plan_production planning_example (Calendar.mkdt 2019 11 20 0)
    = (c', Returned (Plan_page p)).
Proof.
  apply (plan_production_in_service_returns_plan planning_example
           (Calendar.mkdt 2019 11 20 0)).
  - unfold planning_example. apply in_service_run; [|in_the_range].
    unfold ferm_example. apply in_service_run; [constructor|in_the_range].
  - unfold clock, Calendar.valid; repeat split; vm_compute;
      first [reflexivity | discriminate].
  - split; [discriminate|].
    intros k f I. vm_compute in I.
    destruct I as [I|[I|[I|[]]]]; injection I as <- <-;
      (split; [unfold known_beer; simpl; auto|]);
      intros dt D; vm_compute in D;
      destruct D as [D|[D|D]]; rewrite D; eexists;
      (split; [vm_compute; reflexivity|discriminate]).
  - intros k b I. vm_compute in I.
    destruct I as [I|[I|[]]]; injection I as <- <-; unfold known_beer; simpl; auto.
Defined.

Lemma compute_batches_stage (c : config) now :
  (forall k b, In (k, b) (batches c) -> known_beer (Batch.beer_type b)) ->
  exists t1 l1,
    Py.bind (Py.for_each (Py.values (batches c)) (Planner.project_batch now)
                         Planner.zero_table)
            (fun end_inv => Planner.add_inventory (inventory c) end_inv)
    = (inl t1, l1)
    /\ Py.keys t1 = ["dunkers"; "pilsner"; "red_helles"].
Proof.
  intros KB.
  destruct (for_each_total
              (fun t : Planner.table => Py.keys t = ["dunkers"; "pilsner"; "red_helles"])
              (Planner.project_batch now) (Py.values (batches c)))
    with (s := Planner.zero_table) as [t0 [l0 [E0 K0]]]; [|reflexivity|].
  { intros s b I Ps. apply project_batch_total; [exact Ps|].
    unfold Py.values in I. apply in_map_iff in I. destruct I as [[k b'] [<- I]].
    now apply (KB k). }
  rewrite E0. cbn [Py.bind].
  destruct (keys3_inv _ _ _ _ K0) as [x [y [z ->]]].
  unfold Planner.add_inventory. simpl. eauto.
Qed.

(** X27.  The planner needs a forecast value for each of its three dates.
    In a state of the service, at a time of the clock, when the batches
    are of the three beer types and the first forecast of the dictionary
    has no value for one of the dates, as a forecast made some months ago
    has not, [plan_production] ends in the [KeyError] of the first such
    date. *)
Theorem plan_production_missing_forecast_date (c : config) now k f fs dt :
  in_service c ->
  clock now ->
  (forall k b, In (k, b) (batches c) -> known_beer (Batch.beer_type b)) ->
  monthly_sales_forecasts c = (k, f) :: fs ->
  first_missing f (Planner.forecast_keys now) = Some dt ->
  snd (plan_production c now) = Raised (Py.KeyError (Py.Dt dt)).
Proof.
  intros _ _ KB FS FM.
  destruct (compute_batches_stage c now KB) as [t1 [l1 [E1 _]]].
  assert (E : exists l, Planner.compute c now = (inr (Py.KeyError (Py.Dt dt)), l)).
  { unfold Planner.compute.
    destruct (Py.for_each (Py.values (batches c)) (Planner.project_batch now)
                          Planner.zero_table) as [[t0|e0] l0]; cbn [Py.bind] in E1 |- *;
      [|discriminate].
    destruct (Planner.add_inventory (inventory c) t0) as [[t1'|e1] l1'];
      [|discriminate].
    cbn [Py.bind]. rewrite FS. cbn [Py.for_each]. unfold Planner.forecast_beer.
    unfold first_missing in FM.
    destruct (Planner.forecast_keys now) as [[d1 d2] d3].
    unfold Planner.predicted.
    destruct (Forecast.predicted_mean f d1);
      [|injection FM as <-; cbn; eauto].
    destruct (Forecast.predicted_mean f d2);
      [|injection FM as <-; cbn; eauto].
    destruct (Forecast.predicted_mean f d3);
      [discriminate|injection FM as <-; cbn; eauto]. }
  destruct E as [l E]. unfold plan_production. rewrite FS, E. reflexivity.
Qed.

(** The forecasts of [planning_example] end in January 2020: on 20
    December 2019 the planner asks for February 2020. *)
Lemma plan_production_missing_forecast_date_witness :
  snd (plan_production planning_example (Calendar.mkdt 2019 12 20 0))
  = Raised (Py.KeyError (Py.Dt (Calendar.mkdt 2020 2 1 0))).
Proof.
  eapply (plan_production_missing_forecast_date planning_example).
  - unfold planning_example. apply in_service_run; [|in_the_range].
    unfold ferm_example. apply in_service_run; [constructor|in_the_range].
  - unfold clock, Calendar.valid; repeat split; vm_compute;
      first [reflexivity | discriminate].
  - intros k b I. vm_compute in I.
    destruct I as [I|[I|[]]]; injection I as <- <-; unfold known_beer; simpl; auto.
  - vm_compute. reflexivity.
  - vm_compute. reflexivity.
Defined.

Lemma table_add_unknown (tbl : Planner.table) k idx v :
  Py.get tbl k = None ->
  Planner.table_add tbl k idx v = (inr (Py.KeyError (Py.Str k)), []).
Proof. intros G. unfold Planner.table_add, Py.item. now rewrite G. Qed.

Lemma month_round_unknown batch m (tbl : Planner.table) idx :
  Py.get tbl (Batch.beer_type batch) = None ->
  Planner.month_round batch (Planner.projected_ends batch) (m, tbl) idx
  = if Planner.ends_in (projected_finish batch) m
    then (inr (Py.KeyError (Py.Str (Batch.beer_type batch))), [])
    else (inl (if m + 1 =? 13 then 1 else m + 1, tbl), []).
Proof.
  intros G. rewrite <- ends_chain. cbv zeta. unfold Planner.month_round.
  rewrite (table_add_unknown tbl _ idx (Batch.volume batch * 2) G).
  destruct (Planner.ends_in (Planner.end_phase4 (Planner.projected_ends batch)) m);
    [reflexivity|].
  destruct (Planner.ends_in (Planner.end_phase3_4 (Planner.projected_ends batch)) m);
    [reflexivity|].
  destruct (Planner.ends_in (Planner.end_phase2_4 (Planner.projected_ends batch)) m);
    [reflexivity|].
  destruct (Planner.ends_in (Planner.end_phase1_4 (Planner.projected_ends batch)) m);
    reflexivity.
Qed.

Lemma project_batch_unknown now (tbl : Planner.table) batch :
  Batch.bottles_put_in_inventory batch = false ->
  Py.get tbl (Batch.beer_type batch) = None ->
  1 <= Calendar.month now <= 12 ->
  Planner.project_batch now tbl batch
  = if Planner.ends_in (projected_finish batch) (bucket_month (Calendar.month now) 0)
       || Planner.ends_in (projected_finish batch) (bucket_month (Calendar.month now) 1)
       || Planner.ends_in (projected_finish batch) (bucket_month (Calendar.month now) 2)
    then (inr (Py.KeyError (Py.Str (Batch.beer_type batch))), [])
    else (inl tbl, []).
Proof.
  intros F G M. destruct (bucket_month_steps (Calendar.month now) M) as [B0 [B1 B2]].
  cbv zeta in B1, B2. rewrite B0, B1, B2.
  unfold Planner.project_batch. rewrite F. cbn [Py.for_each].
  rewrite (month_round_unknown batch _ tbl 0%nat G).
  destruct (Planner.ends_in (projected_finish batch) (Calendar.month now));
    [reflexivity|].
  cbn [Py.bind orb]. rewrite (month_round_unknown batch _ tbl 1%nat G).
  destruct (Planner.ends_in (projected_finish batch) _); [reflexivity|].
  cbn [Py.bind orb]. rewrite (month_round_unknown batch _ tbl 2%nat G).
  destruct (Planner.ends_in (projected_finish batch) _); reflexivity.
Qed.

Lemma project_batches_raise now (xs : list Batch.t) : forall tbl : Planner.table,
  Py.keys tbl = ["dunkers"; "pilsner"; "red_helles"] ->
  1 <= Calendar.month now <= 12 ->
  (exists b i, In b xs /\ ~ known_beer (Batch.beer_type b)
               /\ Batch.bottles_put_in_inventory b = false /\ (i < 3)%nat
               /\ Planner.ends_in (projected_finish b)
                                  (bucket_month (Calendar.month now) i) = true) ->
  exists k l, Py.for_each xs (Planner.project_batch now) tbl
              = (inr (Py.KeyError (Py.Str k)), l)
              /\ ~ known_beer k.
Proof.
  induction xs as [|a xs IH]; intros tbl K M [b [i [I H]]]; [destruct I|].
  cbn [Py.for_each].
  assert (NEXT : forall tbl' l',
             Planner.project_batch now tbl a = (inl tbl', l') ->
             Py.keys tbl' = ["dunkers"; "pilsner"; "red_helles"] ->
             b <> a ->
             exists k l, Py.bind (Planner.project_batch now tbl a)
                                 (Py.for_each xs (Planner.project_batch now))
                         = (inr (Py.KeyError (Py.Str k)), l)
                         /\ ~ known_beer k).
  { intros tbl' l' E K' N. rewrite E. cbn [Py.bind].
    destruct I as [I|I]; [congruence|].
    destruct (IH tbl' K' M) as [k [l [E' NK]]]; [exists b, i; auto|].
    rewrite E'. eauto. }
  destruct (in_dec string_dec (Batch.beer_type a) ["dunkers"; "pilsner"; "red_helles"])
    as [KN|NK].
  - destruct (project_batch_total now tbl a K KN) as [tbl' [l' [E K']]].
    apply (NEXT tbl' l' E K'). intros ->. now apply (proj1 H).
  - assert (G : Py.get tbl (Batch.beer_type a) = None)
      by (apply get_None_keys; now rewrite K).
    destruct (Batch.bottles_put_in_inventory a) eqn:F.
    + apply (NEXT tbl []); [unfold Planner.project_batch; now rewrite F|exact K|].
      intros ->. destruct H as [_ [F' _]]. congruence.
    + pose proof (project_batch_unknown now tbl a F G M) as P.
      destruct (Planner.ends_in (projected_finish a) (bucket_month (Calendar.month now) 0)
                || Planner.ends_in (projected_finish a)
                                   (bucket_month (Calendar.month now) 1)
                || Planner.ends_in (projected_finish a)
                                   (bucket_month (Calendar.month now) 2)) eqn:HIT.
      * rewrite P. cbn [Py.bind]. eauto.
      * apply (NEXT tbl [] P K). intros ->.
        destruct H as [_ [_ [L E]]].
        apply orb_false_iff in HIT. destruct HIT as [HIT H2].
        apply orb_false_iff in HIT. destruct HIT as [H0 H1].
        destruct i as [|[|[|i]]]; [congruence|congruence|congruence|lia].
Qed.

(** X28.  The planner has rows for the three beer types only.  In a state
    of the service, at a time of the clock, a batch of another beer type
    that is not yet credited to the inventory and whose projected end
    falls in one of the three months ends [plan_production] in the
    [KeyError] of a beer type that is none of the three. *)
Theorem plan_production_unknown_beer_type (c : config) now k (b : Batch.t) i :
  in_service c ->
  clock now ->
  monthly_sales_forecasts c <> [] ->
  In (k, b) (batches c) ->
  ~ known_beer (Batch.beer_type b) ->
  Batch.bottles_put_in_inventory b = false ->
  (i < 3)%nat ->
  Planner.ends_in (projected_finish b) (bucket_month (Calendar.month now) i) = true ->
  exists beer_type,
    snd (plan_production c now) = Raised (Py.KeyError (Py.Str beer_type))
    /\ ~ known_beer beer_type.
Proof.
  intros _ CK FS I NK F L E.
  assert (M : 1 <= Calendar.month now <= 12).
  { destruct CK as [V _]. unfold Calendar.valid in V. tauto. }
  destruct (project_batches_raise now (Py.values (batches c)) Planner.zero_table
              eq_refl M) as [beer [l [R NB]]].
  { exists b, i. repeat split; auto. unfold Py.values. apply in_map_iff.
    now exists (k, b). }
  exists beer. split; [|exact NB].
  unfold plan_production. destruct (monthly_sales_forecasts c); [congruence|].
  unfold Planner.compute. rewrite R. reflexivity.
Qed.

(** The batch of stout of [stout_batch_example] is to leave [bottling] in
    November 2019. *)
Lemma plan_production_unknown_beer_type_witness :
  exists beer_type,
    snd (plan_production stout_batch_example (Calendar.mkdt 2019 11 20 0))
    = Raised (Py.KeyError (Py.Str beer_type))
    /\ ~ known_beer beer_type.
Proof.
  assert (B : exists b, In ("b1", b) (batches stout_batch_example)
                        /\ Batch.beer_type b = "stout"
                        /\ Batch.bottles_put_in_inventory b = false
                        /\ Planner.ends_in (projected_finish b) 11 = true).
  { eexists. split; [vm_compute; left; reflexivity|]. repeat split. }
  destruct B as [b [I [T [F E]]]].
  apply (plan_production_unknown_beer_type stout_batch_example
           (Calendar.mkdt 2019 11 20 0) "b1" b 0%nat).
  - unfold stout_batch_example. apply in_service_run; [constructor|in_the_range].
  - unfold clock, Calendar.valid; repeat split; vm_compute;
      first [reflexivity | discriminate].
  - vm_compute. discriminate.
  - exact I.
  - rewrite T. unfold known_beer. simpl. intros [H|[H|[H|[]]]]; discriminate.
  - exact F.
  - lia.
  - exact E.
Defined.

(** ** Forecast values that are no numbers *)

Lemma try_assign_infinite (qs : list Q) : forall (tbl : Planner.table) k idx rest,
  Py.keys tbl = ["dunkers"; "pilsner"; "red_helles"] -> known_beer k ->
  Planner.try_assign tbl k idx (map Forecast.Finite qs ++ Forecast.Infinite :: rest)
  = (inr Py.OverflowError, []).
Proof.
  induction qs as [|q qs IH]; intros tbl k idx rest K H; [reflexivity|].
  cbn [map app Planner.try_assign Forecast.int].
  destruct (table_put_total tbl k idx (Z.quot (Qnum q) (Z.pos (Qden q))) K H)
    as [tbl1 [E K1]].
  rewrite E. cbn [Py.bind]. now rewrite (IH tbl1 k (S idx) rest K1 H).
Qed.

(** X29.  An infinite forecast value is not caught.  When the batches are
    of the three beer types and the first forecast of the dictionary, for
    one of the three beer types, has among its three values an infinity
    with only finite values before it, [plan_production] ends in
    [OverflowError]. *)
Theorem plan_production_infinite_forecast
        (c : config) now k f fs d1 d2 d3 x1 x2 x3 (qs : list Q) rest :
  (forall k b, In (k, b) (batches c) -> known_beer (Batch.beer_type b)) ->
  monthly_sales_forecasts c = (k, f) :: fs ->
  known_beer k ->
  Planner.forecast_keys now = (d1, d2, d3) ->
  Forecast.predicted_mean f d1 = Some x1 ->
  Forecast.predicted_mean f d2 = Some x2 ->
  Forecast.predicted_mean f d3 = Some x3 ->
  [x1; x2; x3] = (map Forecast.Finite qs ++ Forecast.Infinite :: rest)%list ->
  snd (plan_production c now) = Raised Py.OverflowError.
Proof.
  intros KB FS KN FK P1 P2 P3 XS.
  destruct (compute_batches_stage c now KB) as [t1 [l1 [E1 _]]].
  assert (E : exists l, Planner.compute c now = (inr Py.OverflowError, l)).
  { unfold Planner.compute.
    destruct (Py.for_each (Py.values (batches c)) (Planner.project_batch now)
                          Planner.zero_table) as [[t0|e0] l0]; cbn [Py.bind] in E1 |- *;
      [|discriminate].
    destruct (Planner.add_inventory (inventory c) t0) as [[t1'|e1] l1'];
      [|discriminate].
    cbn [Py.bind]. rewrite FS, FK. cbn [Py.for_each]. unfold Planner.forecast_beer.
    unfold Planner.predicted. rewrite P1, P2, P3. cbn [Py.bind Py.ret].
    rewrite XS, (try_assign_infinite qs Planner.zero_table k 0 rest eq_refl KN).
    cbn. eauto. }
  destruct E as [l E]. unfold plan_production. rewrite FS, E. reflexivity.
Qed.

Lemma plan_production_infinite_forecast_witness :
  snd (plan_production infinite_example (Calendar.mkdt 2019 11 20 0))
  = Raised Py.OverflowError.
Proof.
  apply (plan_production_infinite_forecast infinite_example (Calendar.mkdt 2019 11 20 0)
           "pilsner" infinite_forecast []
           (Calendar.mkdt 2019 11 1 0) (Calendar.mkdt 2019 12 1 0)
           (Calendar.mkdt 2020 1 1 0)
           Forecast.Infinite Forecast.Infinite Forecast.Infinite
           [] [Forecast.Infinite; Forecast.Infinite]).
  - intros k b [].
  - reflexivity.
  - unfold known_beer. simpl. auto.
  - vm_compute. reflexivity.
  - reflexivity.
  - reflexivity.
  - reflexivity.
  - reflexivity.
Defined.

Lemma try_assign_nan (qs : list Q) :
  forall (tbl : Planner.table) k idx rest (row : three_months),
  Py.get tbl k = Some row ->
  (idx + List.length qs <= 3)%nat ->
  exists tbl' row',
    Planner.try_assign tbl k idx (map Forecast.Finite qs ++ Forecast.NaN :: rest)
    = (inl tbl', [Error_forecast_value]) /\
    Py.get tbl' k = Some row' /\
    (forall k', k' <> k -> Py.get tbl' k' = Py.get tbl k') /\
    forall i, (i < 3)%nat ->
      Planner.month_get row' i
      = match (if Nat.leb idx i then nth_error qs (i - idx) else None) with
        | Some q => Z.quot (Qnum q) (Z.pos (Qden q))
        | None => Planner.month_get row i
        end.
Proof.
  induction qs as [|q qs IH]; intros tbl k idx rest row G L.
  - exists tbl, row. split; [reflexivity|]. split; [exact G|]. split; [auto|].
    intros i _. destruct (Nat.leb idx i); [|reflexivity].
    now destruct (i - idx)%nat.
  - cbn [map app Planner.try_assign Forecast.int].
    unfold Planner.table_put, Py.item. rewrite G. cbn [Py.bind Py.ret].
    simpl in L.
    destruct (IH (Py.set tbl k
                    (Planner.month_set row idx (Z.quot (Qnum q) (Z.pos (Qden q)))))
                 k (S idx) rest _ (get_set_eq _ _ _)) as [tbl' [row' [E [G' [O M]]]]];
      [lia|].
    rewrite E. exists tbl', row'. split; [reflexivity|]. split; [exact G'|]. split.
    + intros k' N. rewrite O by assumption. apply get_set_neq. congruence.
    + intros i Hi. rewrite (M i Hi).
      destruct (Nat.leb_spec (S idx) i) as [A|A].
      * destruct (Nat.leb_spec idx i) as [B|B]; [|lia].
        replace (i - idx)%nat with (S (i - S idx)) by lia. cbn [nth_error].
        destruct (nth_error qs (i - S idx)); [reflexivity|].
        rewrite month_get_set by lia.
        destruct (Nat.eqb_spec idx i); [lia|reflexivity].
      * rewrite month_get_set by lia.
        destruct (Nat.eqb_spec idx i) as [->|N].
        -- rewrite Nat.leb_refl, Nat.sub_diag. reflexivity.
        -- destruct (Nat.leb_spec idx i); [lia|reflexivity].
Qed.

(** X30.  A forecast value that is not a number ends the three
    assignments of a beer type: the [ValueError] is caught and logged, the
    months before that value have their forecasts, and that month and the
    months after it keep what the table held, also where the forecast of a
    later month is a number. *)
Theorem forecast_nan_stops_assignments
        (tbl : Planner.table) k f (row : three_months) d1 d2 d3 x1 x2 x3
        (qs : list Q) rest :
  Py.get tbl k = Some row ->
  Forecast.predicted_mean f d1 = Some x1 ->
  Forecast.predicted_mean f d2 = Some x2 ->
  Forecast.predicted_mean f d3 = Some x3 ->
  [x1; x2; x3] = (map Forecast.Finite qs ++ Forecast.NaN :: rest)%list ->
  exists tbl' row',
    Planner.forecast_beer (d1, d2, d3) tbl (k, f) = (inl tbl', [Error_forecast_value]) /\
    Py.get tbl' k = Some row' /\
    (forall k', k' <> k -> Py.get tbl' k' = Py.get tbl k') /\
    forall i, (i < 3)%nat ->
      Planner.month_get row' i
      = match nth_error qs i with
        | Some q => Z.quot (Qnum q) (Z.pos (Qden q))
        | None => Planner.month_get row i
        end.
Proof.
  intros G P1 P2 P3 XS.
  assert (L : (0 + List.length qs <= 3)%nat).
  { apply (f_equal (@List.length _)) in XS.
    rewrite length_app, length_map in XS. simpl in XS. lia. }
  destruct (try_assign_nan qs tbl k 0%nat rest row G L) as [tbl' [row' [E [G' [O M]]]]].
  exists tbl', row'. split; [|split; [exact G'|split; [exact O|]]].
  - unfold Planner.forecast_beer, Planner.predicted. rewrite P1, P2, P3.
    cbn [Py.bind Py.ret]. rewrite XS, E. reflexivity.
  - intros i Hi. rewrite (M i Hi). cbn [Nat.leb]. now rewrite Nat.sub_0_r.
Qed.

(** With 20 bottles forecast for November, not-a-number for December and
    10 for January, only November is stored: January stays at zero. *)
Lemma forecast_nan_stops_assignments_witness :
  exists tbl' row',
    Planner.forecast_beer
      (Calendar.mkdt 2019 11 1 0, Calendar.mkdt 2019 12 1 0, Calendar.mkdt 2020 1 1 0)
      Planner.zero_table ("pilsner", gap_forecast)
    = (inl tbl', [Error_forecast_value]) /\
    Py.get tbl' "pilsner" = Some row' /\
    this_month row' = 20 /\ next_month row' = 0 /\ third_month row' = 0.
Proof.
  destruct (forecast_nan_stops_assignments Planner.zero_table "pilsner" gap_forecast
              (mk3 0 0 0)
              (Calendar.mkdt 2019 11 1 0) (Calendar.mkdt 2019 12 1 0)
              (Calendar.mkdt 2020 1 1 0)
              (Forecast.Finite (inject_Z 20)) Forecast.NaN
              (Forecast.Finite (inject_Z 10))
              [inject_Z 20] [Forecast.Finite (inject_Z 10)]
              eq_refl eq_refl eq_refl eq_refl eq_refl)
    as [tbl' [row' [E [G [_ M]]]]].
  exists tbl', row'. split; [exact E|]. split; [exact G|].
  pose proof (M 0%nat ltac:(lia)) as M0. pose proof (M 1%nat ltac:(lia)) as M1.
  pose proof (M 2%nat ltac:(lia)) as M2.
  split; [exact M0|]. split; [exact M1|exact M2].
Defined.

